(** * HackforGreen: the adaptive signal controller

    A shallow embedding of [frontend/public/sim/ai_controller.js] (the
    fairness-aware Q-learning controller) and of the part of the simulation
    engine [sim.js] that owns the signals, the run flags and the control
    buttons.

    Conventions of the embedding:
    - a JavaScript Number is a rational ([Q]), computed exactly except for
      the two baseline timers, which decide by a threshold when the phase
      flips and when the run ends and are therefore advanced with the
      rounding of binary64 ([round64]); [Date.now()] is an integer number
      of milliseconds ([Z]); counters are [nat];
    - the globals of both scripts and the fields of the single
      [AIController] instance form one record, [World];
    - every callback (interval timers, button handlers, the continuation of
      [performSwitch] after its [await sleep(2000)]) is a total function
      [World -> World], [update] returning in addition the path it took;
      the event loop is the relation [reachable];
    - [Math.random()] draws are arguments of [update];
    - DOM writes and the log are presentation only and are left out; the
      page is taken to hold every element the handlers look up, so that no
      handler stops half-way on a missing element. *)

From Stdlib Require Import ZArith QArith Qabs Qround Lia Lqa Sorted Floats Ascii.
From stdpp Require Import gmap strings list fin_maps pretty.

Local Open Scope Q_scope.

(* Decimal literals such as 0.15 denote the nearest double, as in JavaScript. *)
#[local] Set Warnings "-inexact-float".

(** ** JavaScript numbers *)

Definition Qltb (x y : Q) : bool := negb (Qle_bool y x).
Definition Qnat (n : nat) : Q := inject_Z (Z.of_nat n).

(** [Math.max] on two arguments; the variadic calls of the source are nested. *)
Definition Math_max (x y : Q) : Q := if Qle_bool x y then y else x.

(** [parseFloat(x.toFixed(d))]: rounding to [d] decimals, halves away from 0. *)
Definition toFixed (d : nat) (x : Q) : Q :=
  let p := (10 ^ Z.of_nat d)%Z in
  let n := Qfloor (Qabs x * inject_Z p + (1 # 2)) in
  (if Qle_bool 0 x then n else (- n)%Z) # Z.to_pos p.

(** [+], [*] and [/] on numbers are IEEE binary64 operations: the exact
    result rounded to the nearest binary64 number, ties to even. The
    timers that are compared with a threshold are modelled with this
    rounding; their readings stay far below the range limit of binary64,
    since [Date.now()] is an integer below 2^53. *)
Definition pow2 (e : Z) : Q :=
  if (0 <=? e)%Z then inject_Z (2 ^ e) else 1 # Z.to_pos (2 ^ (- e)).

(** The integer nearest to [x], halves to the even neighbour. *)
Definition roundEven (x : Q) : Z :=
  let f := Qfloor x in
  match Qcompare (x - inject_Z f) (1 # 2) with
  | Lt => f
  | Gt => (f + 1)%Z
  | Eq => if Z.even f then f else (f + 1)%Z
  end.

(** The exponent of the last of the 53 significant bits of a non-zero
    [q]; subnormal numbers end at 2^-1074. *)
Definition lastPlace (q : Q) : Z :=
  let l := (Z.log2 (Z.abs (Qnum q)) - Z.log2 (Zpos (Qden q)))%Z in
  let e := if Qle_bool (pow2 l) (Qabs q) then l else (l - 1)%Z in
  Z.max (e - 52) (-1074).

Definition round64 (q : Q) : Q :=
  let q := Qred q in
  if Qeq_bool q 0 then 0
  else
    let e := lastPlace q in
    let m := roundEven (Qabs q / pow2 e) in
    Qred ((if Qle_bool 0 q then inject_Z m else - inject_Z m) * pow2 e).

#[global] Arguments round64 : simpl never.

Definition add64 (x y : Q) : Q := round64 (x + y).
Definition mul64 (x y : Q) : Q := round64 (x * y).

(** ** Constants of the controller *)

Record Emission := { co2 : Q; fuel : Q; nox : Q }.

Module EMISSIONS.
Definition IDLE : Emission := {| co2 := 23 # 10; fuel := 8 # 10000; nox := 15 # 1000 |}.
Definition MOVING : Emission := {| co2 := 5 # 10; fuel := 2 # 10000; nox := 3 # 1000 |}.
End EMISSIONS.

Module Q_CONFIG.
Definition alpha : Q := 15 # 100.
Definition gamma : Q := 9 # 10.
Definition epsilon : Q := 3 # 10.
Definition epsilonDecay : Q := 998 # 1000.
Definition epsilonMin : Q := 5 # 100.
Definition queueBins : list Q := [0; 3; 7; 12; 20].
Definition redBins : list Q := [0; 10; 30; 60; 100].
End Q_CONFIG.

Module FAIR_CONFIG.
Definition alpha : Q := 6 # 10.
Definition beta : Q := 4 # 10.
Definition starvationThreshold : Q := 120.
Definition minGreen : Q := 7.
Definition maxGreen : Q := 60.
End FAIR_CONFIG.

(** ** The Q-table *)

Inductive Action := KEEP | SWITCH.

Record QEntry := { qKEEP : Q; qSWITCH : Q }.

Definition entryGet (e : QEntry) (a : Action) : Q :=
  match a with KEEP => qKEEP e | SWITCH => qSWITCH e end.

Definition entrySet (e : QEntry) (a : Action) (v : Q) : QEntry :=
  match a with
  | KEEP => {| qKEEP := v; qSWITCH := qSWITCH e |}
  | SWITCH => {| qKEEP := qKEEP e; qSWITCH := v |}
  end.

Definition freshEntry : QEntry := {| qKEEP := 0; qSWITCH := 0 |}.

(** [for (let i = bins.length - 1; i >= 0; i--) if (value >= bins[i]) return i;]
    with [n] the number of indices still to scan, the next one being [n - 1]. *)
Fixpoint discretize_loop (n : nat) (value : Q) (bins : list Q) : nat :=
  match n with
  | O => 0%nat
  | Datatypes.S i =>
      if Qle_bool (nth i bins 0) value then i else discretize_loop i value bins
  end.

Definition discretize (value : Q) (bins : list Q) : nat :=
  discretize_loop (length bins) value bins.

(** The template literal [`${qNSBin}_${qEWBin}_${redBin}`]. *)
Definition stateKeyOf (a b c : nat) : string :=
  pretty a +:+ "_" +:+ pretty b +:+ "_" +:+ pretty c.

Definition getStateKey (qNS qEW maxRedDuration : Q) : string :=
  let qNSBin := discretize qNS Q_CONFIG.queueBins in
  let qEWBin := discretize qEW Q_CONFIG.queueBins in
  let redBin := discretize maxRedDuration Q_CONFIG.redBins in
  stateKeyOf qNSBin qEWBin redBin.

(** [if (!qTable[stateKey]) qTable[stateKey] = { KEEP: 0, SWITCH: 0 }]:
    an entry is an object, hence truthy, so only a missing key is filled. *)
Definition touch (qt : gmap string QEntry) (stateKey : string) : gmap string QEntry :=
  match qt !! stateKey with
  | Some _ => qt
  | None => <[stateKey := freshEntry]> qt
  end.

Definition entryOf (qt : gmap string QEntry) (stateKey : string) : QEntry :=
  default freshEntry (qt !! stateKey).

Definition getQValue (qt : gmap string QEntry) (stateKey : string) (action : Action)
  : Q * gmap string QEntry :=
  let qt' := touch qt stateKey in
  (entryGet (entryOf qt' stateKey) action, qt').

Definition setQValue (qt : gmap string QEntry) (stateKey : string) (action : Action) (value : Q)
  : gmap string QEntry :=
  let qt' := touch qt stateKey in
  <[stateKey := entrySet (entryOf qt' stateKey) action value]> qt'.

Definition getBestAction (qt : gmap string QEntry) (stateKey : string)
  : Action * gmap string QEntry :=
  let '(keep, qt1) := getQValue qt stateKey KEEP in
  let '(sw, qt2) := getQValue qt1 stateKey SWITCH in
  (if Qle_bool sw keep then KEEP else SWITCH, qt2).

(** ** Data of the simulation engine and of the controller *)

(** [SIGNAL = { RED: 'R', GREEN: 'G', YELLOW: 'Y' }] *)
Inductive Signal := RED | GREEN | YELLOW.

Inductive Dir := dirN | dirS | dirE | dirW.

(** The two composite signals. *)
Inductive Axis := axNS | axEW.

Global Instance Signal_eq_dec : EqDecision Signal.
Proof. solve_decision. Defined.
Global Instance Action_eq_dec : EqDecision Action.
Proof. solve_decision. Defined.
Global Instance Axis_eq_dec : EqDecision Axis.
Proof. solve_decision. Defined.

(** What the controller reads of a vehicle. *)
Record Vehicle := { origin : Dir; active : bool; waiting : bool }.

Record Signals := { NS : Signal; EW : Signal }.

Record Metrics := { total : nat; totalWait : Q; throughput : nat; startTime : Z }.

Record Lane := { redDuration : Q; priority : Q }.

Record LaneState := { laneN : Lane; laneS : Lane; laneE : Lane; laneW : Lane }.

(** A snapshot of one measurement regime; [maxWait] exists for the baseline only. *)
Record ComparisonRecord := {
  r_avgWait : Q; r_co2 : Q; r_fuel : Q; r_nox : Q;
  r_maxWait : option Q; r_duration : Q; r_throughput : nat }.

Record ComparisonData := {
  baseline : option ComparisonRecord;
  aiRecord : option ComparisonRecord;
  isRunningBaseline : bool;
  baselineTimer : Q;
  baselineDuration : Q;
  baselinePhaseTimer : Q;
  baselinePhaseInterval : Q }.

(** The fields of the [AIController] instance. *)
Record AIController := {
  lastSwitchTime : Z;
  lastTickTime : Z;
  totalReward : Q;
  switching : bool;
  prevStateKey : option string;
  prevAction : option Action;
  episodeSteps : nat;
  starvationEvents : nat }.

(** All mutable state. [pendingSwitch] is the suspended continuation of
    [performSwitch] (which branch is asleep in [await sleep(2000)]);
    [pendingRecord] counts the [setTimeout]s armed by [endBaseline]. *)
Record World := {
  isRunning : bool;
  isAIEnabled : bool;
  timeScale : Q;
  vehicles : list Vehicle;
  signals : Signals;
  metrics : Metrics;
  cleared : nat;
  simElapsedTime : Q;
  comparisonData : ComparisonData;
  emissionsTotal : Emission;
  laneState : LaneState;
  qTable : gmap string QEntry;
  currentEpsilon : Q;
  ai : AIController;
  pendingSwitch : option Axis;
  pendingRecord : nat }.

(** *** Assignments to one global *)

Definition set_isRunning (v : bool) (w : World) : World :=
  {| isRunning := v; isAIEnabled := isAIEnabled w; timeScale := timeScale w;
     vehicles := vehicles w; signals := signals w; metrics := metrics w;
     cleared := cleared w; simElapsedTime := simElapsedTime w;
     comparisonData := comparisonData w; emissionsTotal := emissionsTotal w;
     laneState := laneState w; qTable := qTable w; currentEpsilon := currentEpsilon w;
     ai := ai w; pendingSwitch := pendingSwitch w; pendingRecord := pendingRecord w |}.

Definition set_isAIEnabled (v : bool) (w : World) : World :=
  {| isRunning := isRunning w; isAIEnabled := v; timeScale := timeScale w;
     vehicles := vehicles w; signals := signals w; metrics := metrics w;
     cleared := cleared w; simElapsedTime := simElapsedTime w;
     comparisonData := comparisonData w; emissionsTotal := emissionsTotal w;
     laneState := laneState w; qTable := qTable w; currentEpsilon := currentEpsilon w;
     ai := ai w; pendingSwitch := pendingSwitch w; pendingRecord := pendingRecord w |}.

Definition set_timeScale (v : Q) (w : World) : World :=
  {| isRunning := isRunning w; isAIEnabled := isAIEnabled w; timeScale := v;
     vehicles := vehicles w; signals := signals w; metrics := metrics w;
     cleared := cleared w; simElapsedTime := simElapsedTime w;
     comparisonData := comparisonData w; emissionsTotal := emissionsTotal w;
     laneState := laneState w; qTable := qTable w; currentEpsilon := currentEpsilon w;
     ai := ai w; pendingSwitch := pendingSwitch w; pendingRecord := pendingRecord w |}.

Definition set_signals (v : Signals) (w : World) : World :=
  {| isRunning := isRunning w; isAIEnabled := isAIEnabled w; timeScale := timeScale w;
     vehicles := vehicles w; signals := v; metrics := metrics w;
     cleared := cleared w; simElapsedTime := simElapsedTime w;
     comparisonData := comparisonData w; emissionsTotal := emissionsTotal w;
     laneState := laneState w; qTable := qTable w; currentEpsilon := currentEpsilon w;
     ai := ai w; pendingSwitch := pendingSwitch w; pendingRecord := pendingRecord w |}.

(** The frame loop of the engine writes these four together. *)
Definition set_traffic (vs : list Vehicle) (m : Metrics) (c : nat) (t : Q) (w : World) : World :=
  {| isRunning := isRunning w; isAIEnabled := isAIEnabled w; timeScale := timeScale w;
     vehicles := vs; signals := signals w; metrics := m;
     cleared := c; simElapsedTime := t;
     comparisonData := comparisonData w; emissionsTotal := emissionsTotal w;
     laneState := laneState w; qTable := qTable w; currentEpsilon := currentEpsilon w;
     ai := ai w; pendingSwitch := pendingSwitch w; pendingRecord := pendingRecord w |}.

Definition set_comparisonData (v : ComparisonData) (w : World) : World :=
  {| isRunning := isRunning w; isAIEnabled := isAIEnabled w; timeScale := timeScale w;
     vehicles := vehicles w; signals := signals w; metrics := metrics w;
     cleared := cleared w; simElapsedTime := simElapsedTime w;
     comparisonData := v; emissionsTotal := emissionsTotal w;
     laneState := laneState w; qTable := qTable w; currentEpsilon := currentEpsilon w;
     ai := ai w; pendingSwitch := pendingSwitch w; pendingRecord := pendingRecord w |}.

Definition set_emissionsTotal (v : Emission) (w : World) : World :=
  {| isRunning := isRunning w; isAIEnabled := isAIEnabled w; timeScale := timeScale w;
     vehicles := vehicles w; signals := signals w; metrics := metrics w;
     cleared := cleared w; simElapsedTime := simElapsedTime w;
     comparisonData := comparisonData w; emissionsTotal := v;
     laneState := laneState w; qTable := qTable w; currentEpsilon := currentEpsilon w;
     ai := ai w; pendingSwitch := pendingSwitch w; pendingRecord := pendingRecord w |}.

Definition set_laneState (v : LaneState) (w : World) : World :=
  {| isRunning := isRunning w; isAIEnabled := isAIEnabled w; timeScale := timeScale w;
     vehicles := vehicles w; signals := signals w; metrics := metrics w;
     cleared := cleared w; simElapsedTime := simElapsedTime w;
     comparisonData := comparisonData w; emissionsTotal := emissionsTotal w;
     laneState := v; qTable := qTable w; currentEpsilon := currentEpsilon w;
     ai := ai w; pendingSwitch := pendingSwitch w; pendingRecord := pendingRecord w |}.

Definition set_qTable (v : gmap string QEntry) (w : World) : World :=
  {| isRunning := isRunning w; isAIEnabled := isAIEnabled w; timeScale := timeScale w;
     vehicles := vehicles w; signals := signals w; metrics := metrics w;
     cleared := cleared w; simElapsedTime := simElapsedTime w;
     comparisonData := comparisonData w; emissionsTotal := emissionsTotal w;
     laneState := laneState w; qTable := v; currentEpsilon := currentEpsilon w;
     ai := ai w; pendingSwitch := pendingSwitch w; pendingRecord := pendingRecord w |}.

Definition set_currentEpsilon (v : Q) (w : World) : World :=
  {| isRunning := isRunning w; isAIEnabled := isAIEnabled w; timeScale := timeScale w;
     vehicles := vehicles w; signals := signals w; metrics := metrics w;
     cleared := cleared w; simElapsedTime := simElapsedTime w;
     comparisonData := comparisonData w; emissionsTotal := emissionsTotal w;
     laneState := laneState w; qTable := qTable w; currentEpsilon := v;
     ai := ai w; pendingSwitch := pendingSwitch w; pendingRecord := pendingRecord w |}.

Definition set_ai (v : AIController) (w : World) : World :=
  {| isRunning := isRunning w; isAIEnabled := isAIEnabled w; timeScale := timeScale w;
     vehicles := vehicles w; signals := signals w; metrics := metrics w;
     cleared := cleared w; simElapsedTime := simElapsedTime w;
     comparisonData := comparisonData w; emissionsTotal := emissionsTotal w;
     laneState := laneState w; qTable := qTable w; currentEpsilon := currentEpsilon w;
     ai := v; pendingSwitch := pendingSwitch w; pendingRecord := pendingRecord w |}.

Definition set_pendingSwitch (v : option Axis) (w : World) : World :=
  {| isRunning := isRunning w; isAIEnabled := isAIEnabled w; timeScale := timeScale w;
     vehicles := vehicles w; signals := signals w; metrics := metrics w;
     cleared := cleared w; simElapsedTime := simElapsedTime w;
     comparisonData := comparisonData w; emissionsTotal := emissionsTotal w;
     laneState := laneState w; qTable := qTable w; currentEpsilon := currentEpsilon w;
     ai := ai w; pendingSwitch := v; pendingRecord := pendingRecord w |}.

Definition set_pendingRecord (v : nat) (w : World) : World :=
  {| isRunning := isRunning w; isAIEnabled := isAIEnabled w; timeScale := timeScale w;
     vehicles := vehicles w; signals := signals w; metrics := metrics w;
     cleared := cleared w; simElapsedTime := simElapsedTime w;
     comparisonData := comparisonData w; emissionsTotal := emissionsTotal w;
     laneState := laneState w; qTable := qTable w; currentEpsilon := currentEpsilon w;
     ai := ai w; pendingSwitch := pendingSwitch w; pendingRecord := v |}.

(** *** Assignments to one field of the controller instance *)

Definition set_lastSwitchTime (v : Z) (c : AIController) : AIController :=
  {| lastSwitchTime := v; lastTickTime := lastTickTime c; totalReward := totalReward c;
     switching := switching c; prevStateKey := prevStateKey c; prevAction := prevAction c;
     episodeSteps := episodeSteps c; starvationEvents := starvationEvents c |}.

Definition set_lastTickTime (v : Z) (c : AIController) : AIController :=
  {| lastSwitchTime := lastSwitchTime c; lastTickTime := v; totalReward := totalReward c;
     switching := switching c; prevStateKey := prevStateKey c; prevAction := prevAction c;
     episodeSteps := episodeSteps c; starvationEvents := starvationEvents c |}.

Definition set_totalReward (v : Q) (c : AIController) : AIController :=
  {| lastSwitchTime := lastSwitchTime c; lastTickTime := lastTickTime c; totalReward := v;
     switching := switching c; prevStateKey := prevStateKey c; prevAction := prevAction c;
     episodeSteps := episodeSteps c; starvationEvents := starvationEvents c |}.

Definition set_switching (v : bool) (c : AIController) : AIController :=
  {| lastSwitchTime := lastSwitchTime c; lastTickTime := lastTickTime c;
     totalReward := totalReward c;
     switching := v; prevStateKey := prevStateKey c; prevAction := prevAction c;
     episodeSteps := episodeSteps c; starvationEvents := starvationEvents c |}.

Definition set_prev (k : option string) (a : option Action) (c : AIController) : AIController :=
  {| lastSwitchTime := lastSwitchTime c; lastTickTime := lastTickTime c;
     totalReward := totalReward c;
     switching := switching c; prevStateKey := k; prevAction := a;
     episodeSteps := episodeSteps c; starvationEvents := starvationEvents c |}.

Definition set_episodeSteps (v : nat) (c : AIController) : AIController :=
  {| lastSwitchTime := lastSwitchTime c; lastTickTime := lastTickTime c;
     totalReward := totalReward c;
     switching := switching c; prevStateKey := prevStateKey c; prevAction := prevAction c;
     episodeSteps := v; starvationEvents := starvationEvents c |}.

Definition set_starvationEvents (v : nat) (c : AIController) : AIController :=
  {| lastSwitchTime := lastSwitchTime c; lastTickTime := lastTickTime c;
     totalReward := totalReward c;
     switching := switching c; prevStateKey := prevStateKey c; prevAction := prevAction c;
     episodeSteps := episodeSteps c; starvationEvents := v |}.

Definition sig (a : Axis) (sg : Signals) : Signal :=
  match a with axNS => NS sg | axEW => EW sg end.

Definition other (a : Axis) : Axis :=
  match a with axNS => axEW | axEW => axNS end.

Definition lane (d : Dir) (ls : LaneState) : Lane :=
  match d with dirN => laneN ls | dirS => laneS ls | dirE => laneE ls | dirW => laneW ls end.

Definition axisOf (d : Dir) : Axis :=
  match d with dirN | dirS => axNS | dirE | dirW => axEW end.

Definition isGreen (x : Signal) : bool :=
  match x with GREEN => true | _ => false end.

(** ** The controller: queues, the 500 ms tick, the baseline engine *)

Record Queues := { q_N : nat; q_S : nat; q_E : nat; q_W : nat }.

Definition q_NS (q : Queues) : nat := (q_N q + q_S q)%nat.
Definition q_EW (q : Queues) : nat := (q_E q + q_W q)%nat.

Definition queueOf (d : Dir) (q : Queues) : nat :=
  match d with dirN => q_N q | dirS => q_S q | dirE => q_E q | dirW => q_W q end.

(** [q[v.origin]++] *)
Definition bump (d : Dir) (q : Queues) : Queues :=
  match d with
  | dirN => {| q_N := Datatypes.S (q_N q); q_S := q_S q; q_E := q_E q; q_W := q_W q |}
  | dirS => {| q_N := q_N q; q_S := Datatypes.S (q_S q); q_E := q_E q; q_W := q_W q |}
  | dirE => {| q_N := q_N q; q_S := q_S q; q_E := Datatypes.S (q_E q); q_W := q_W q |}
  | dirW => {| q_N := q_N q; q_S := q_S q; q_E := q_E q; q_W := Datatypes.S (q_W q) |}
  end.

Definition getQueues (vs : list Vehicle) : Queues :=
  fold_left (fun q v => if waiting v then bump (origin v) q else q) vs
            {| q_N := 0; q_S := 0; q_E := 0; q_W := 0 |}.

Definition noEmission : Emission := {| co2 := 0; fuel := 0; nox := 0 |}.

(** One vehicle's share of a tick: nothing when inactive, else the idle or
    moving rate times [dt * timeScale]. *)
Definition emit (dt ts : Q) (acc : Emission) (v : Vehicle) : Emission :=
  if negb (active v) then acc
  else
    let rates := if waiting v then EMISSIONS.IDLE else EMISSIONS.MOVING in
    {| co2 := co2 acc + co2 rates * dt * ts;
       fuel := fuel acc + fuel rates * dt * ts;
       nox := nox acc + nox rates * dt * ts |}.

(** [redDuration += dt * timeScale] unless the lane's signal is GREEN. *)
Definition advanceRed (dt ts : Q) (sg : Signals) (d : Dir) (l : Lane) : Lane :=
  if isGreen (sig (axisOf d) sg)
  then {| redDuration := 0; priority := priority l |}
  else {| redDuration := redDuration l + dt * ts; priority := priority l |}.

Definition maxRedAll (ls : LaneState) : Q :=
  Math_max (Math_max (Math_max (redDuration (laneN ls)) (redDuration (laneS ls)))
                     (redDuration (laneE ls)))
           (redDuration (laneW ls)).

Definition prioritize (q : Queues) (maxQ maxRed : Q) (d : Dir) (l : Lane) : Lane :=
  let qCount := Qnat (queueOf d q) in
  let normQ := qCount / maxQ in
  let normRed := redDuration l / Math_max maxRed 1 in
  {| redDuration := redDuration l;
     priority := FAIR_CONFIG.alpha * normQ + FAIR_CONFIG.beta * normRed |}.

Definition mapLanes (f : Dir -> Lane -> Lane) (ls : LaneState) : LaneState :=
  {| laneN := f dirN (laneN ls); laneS := f dirS (laneS ls);
     laneE := f dirE (laneE ls); laneW := f dirW (laneW ls) |}.

Definition clearMetrics (m : Metrics) : Metrics :=
  {| total := total m; totalWait := 0; throughput := 0; startTime := startTime m |}.

Definition avgWaitOf (m : Metrics) : Q :=
  if (0 <? throughput m)%nat then totalWait m / Qnat (throughput m) else 0.

Definition endBaseline (w : World) : World :=
  let cd := comparisonData w in
  let avgWait := avgWaitOf (metrics w) in
  let snapshot :=
    {| r_avgWait := toFixed 1 avgWait;
       r_co2 := toFixed 1 (co2 (emissionsTotal w));
       r_fuel := toFixed 4 (fuel (emissionsTotal w));
       r_nox := toFixed 2 (nox (emissionsTotal w));
       r_maxWait := Some (toFixed 1 (maxRedAll (laneState w)));
       r_duration := baselineDuration cd;
       r_throughput := throughput (metrics w) |} in
  let cd' :=
    {| baseline := Some snapshot; aiRecord := aiRecord cd; isRunningBaseline := false;
       baselineTimer := baselineTimer cd; baselineDuration := baselineDuration cd;
       baselinePhaseTimer := baselinePhaseTimer cd;
       baselinePhaseInterval := baselinePhaseInterval cd |} in
  let w := set_comparisonData cd' w in
  let w := set_emissionsTotal noEmission w in
  let w := set_traffic (vehicles w) (clearMetrics (metrics w)) 0 (simElapsedTime w) w in
  let w := set_isAIEnabled true w in
  set_pendingRecord (Datatypes.S (pendingRecord w)) w.

(** The callback of the [setTimeout] armed by [endBaseline]. *)
Definition recordAIMetrics (w : World) : World :=
  match pendingRecord w with
  | O => w
  | Datatypes.S n =>
      let cd := comparisonData w in
      let snapshot :=
        {| r_avgWait := toFixed 1 (avgWaitOf (metrics w));
           r_co2 := toFixed 1 (co2 (emissionsTotal w));
           r_fuel := toFixed 4 (fuel (emissionsTotal w));
           r_nox := toFixed 2 (nox (emissionsTotal w));
           r_maxWait := None;
           r_duration := baselineDuration cd;
           r_throughput := throughput (metrics w) |} in
      let cd' :=
        {| baseline := baseline cd; aiRecord := Some snapshot;
           isRunningBaseline := isRunningBaseline cd;
           baselineTimer := baselineTimer cd; baselineDuration := baselineDuration cd;
           baselinePhaseTimer := baselinePhaseTimer cd;
           baselinePhaseInterval := baselinePhaseInterval cd |} in
      set_pendingRecord n (set_comparisonData cd' w)
  end.

(** The fixed-cycle flip inside [tick]. *)
Definition baselineFlip (sg : Signals) : Signals :=
  if isGreen (NS sg) then {| NS := RED; EW := GREEN |} else {| NS := GREEN; EW := RED |}.

Definition setTimers (timer phaseTimer : Q) (cd : ComparisonData) : ComparisonData :=
  {| baseline := baseline cd; aiRecord := aiRecord cd;
     isRunningBaseline := isRunningBaseline cd;
     baselineTimer := timer; baselineDuration := baselineDuration cd;
     baselinePhaseTimer := phaseTimer;
     baselinePhaseInterval := baselinePhaseInterval cd |}.

(** The baseline block at the end of [tick], run when [isRunningBaseline].
    Its two timers are tested against thresholds, so they are advanced as
    the code advances them, in binary64: [dt] is the rounded quotient
    [(now - lastTickTime) / 1000] and [timeScale] the number the slider
    stored. *)
Definition baselineTick (dt : Q) (w : World) : World :=
  let cd := comparisonData w in
  let span := mul64 (round64 dt) (round64 (timeScale w)) in
  let timer := add64 (baselineTimer cd) span in
  let phaseTimer := add64 (baselinePhaseTimer cd) span in
  let w :=
    if Qle_bool (baselinePhaseInterval cd) phaseTimer
    then set_signals (baselineFlip (signals w)) (set_comparisonData (setTimers timer 0 cd) w)
    else set_comparisonData (setTimers timer phaseTimer cd) w in
  if Qle_bool (baselineDuration (comparisonData w)) (baselineTimer (comparisonData w))
  then endBaseline w
  else w.

Definition tick (now : Z) (w : World) : World :=
  if negb (isRunning w) then w
  else
    let dt := (now - lastTickTime (ai w))%Z # 1000 in
    let w := set_ai (set_lastTickTime now (ai w)) w in
    let tickE := fold_left (emit dt (timeScale w)) (vehicles w) noEmission in
    let w := set_emissionsTotal
               {| co2 := co2 (emissionsTotal w) + co2 tickE;
                  fuel := fuel (emissionsTotal w) + fuel tickE;
                  nox := nox (emissionsTotal w) + nox tickE |} w in
    let w := set_laneState (mapLanes (advanceRed dt (timeScale w) (signals w)) (laneState w)) w in
    let q := getQueues (vehicles w) in
    let maxQ := Math_max (Math_max (Math_max (Math_max 1 (Qnat (q_N q))) (Qnat (q_S q)))
                                   (Qnat (q_E q))) (Qnat (q_W q)) in
    let maxRed := Math_max 1 (maxRedAll (laneState w)) in
    let w := set_laneState (mapLanes (prioritize q maxQ maxRed) (laneState w)) w in
    if isRunningBaseline (comparisonData w) then baselineTick dt w else w.

Definition startBaseline (w : World) : World :=
  if isRunningBaseline (comparisonData w) then w
  else
    let w := set_emissionsTotal noEmission w in
    let w := set_traffic (vehicles w) (clearMetrics (metrics w)) 0 (simElapsedTime w) w in
    let cd := comparisonData w in
    let cd' :=
      {| baseline := baseline cd; aiRecord := aiRecord cd; isRunningBaseline := true;
         baselineTimer := 0; baselineDuration := baselineDuration cd;
         baselinePhaseTimer := 0;
         baselinePhaseInterval := baselinePhaseInterval cd |} in
    let w := set_comparisonData cd' w in
    let w := set_isAIEnabled false w in
    set_signals {| NS := GREEN; EW := RED |} w.

(** ** The decision loop *)

(** [performSwitch] up to its [await sleep(2000)]: the re-entrancy guard,
    then YELLOW for the branch taken; the rest is [performSwitch_resume]. *)
Definition performSwitch (w : World) : World :=
  if switching (ai w) then w
  else
    let w := set_ai (set_switching true (ai w)) w in
    if isGreen (NS (signals w))
    then set_pendingSwitch (Some axNS)
           (set_signals {| NS := YELLOW; EW := EW (signals w) |} w)
    else set_pendingSwitch (Some axEW)
           (set_signals {| NS := NS (signals w); EW := YELLOW |} w).

(** What runs when the sleep is over: the two assignments of the branch
    that was suspended, then [lastSwitchTime] and the guard. *)
Definition performSwitch_resume (now : Z) (w : World) : World :=
  match pendingSwitch w with
  | None => w
  | Some br =>
      let sg := match br with
                | axNS => {| NS := RED; EW := GREEN |}
                | axEW => {| NS := GREEN; EW := RED |}
                end in
      let w := set_signals sg w in
      let w := set_ai (set_switching false (set_lastSwitchTime now (ai w))) w in
      set_pendingSwitch None w
  end.

(** The return path a decision tick takes. *)
Inductive UpdatePath :=
  | NotRun            (* one of the three guards at the top *)
  | Starved           (* starvation override *)
  | MinGreenHold      (* [elapsed < minGreen] *)
  | MaxGreenForced    (* [elapsed > maxGreen] *)
  | Learned (a : Action).

Definition elapsedSince (now : Z) (w : World) : Q :=
  (now - lastSwitchTime (ai w))%Z # 1000.

Definition maxRedNS (w : World) : Q :=
  Math_max (redDuration (laneN (laneState w))) (redDuration (laneS (laneState w))).

Definition maxRedEW (w : World) : Q :=
  Math_max (redDuration (laneE (laneState w))) (redDuration (laneW (laneState w))).

Definition maxRedOf (a : Axis) (w : World) : Q :=
  match a with axNS => maxRedNS w | axEW => maxRedEW w end.

(** [signals.NS === SIGNAL.GREEN ? 'NS' : 'EW'] *)
Definition currentPhase (w : World) : Axis :=
  if isGreen (NS (signals w)) then axNS else axEW.

(** [reward = -(totalWaiting) + fairnessBonus] *)
Definition rewardOf (w : World) : Q :=
  let q := getQueues (vehicles w) in
  let totalWaiting := Qnat (q_NS q + q_EW q) in
  let fairnessBonus := - Qabs (maxRedNS w - maxRedEW w) * (1 # 10) in
  - totalWaiting + fairnessBonus.

(** The block guarded by [prevStateKey !== null && prevAction !== null]. *)
Definition creditPrevious (stateKey : string) (reward : Q) (w : World) : World :=
  match prevStateKey (ai w), prevAction (ai w) with
  | Some pk, Some pa =>
      let w := set_ai (set_totalReward (totalReward (ai w) + reward) (ai w)) w in
      let '(oldQ, qt1) := getQValue (qTable w) pk pa in
      let '(keep, qt2) := getQValue qt1 stateKey KEEP in
      let '(sw, qt3) := getQValue qt2 stateKey SWITCH in
      let bestFuture := Math_max keep sw in
      let newQ := oldQ + Q_CONFIG.alpha * (reward + Q_CONFIG.gamma * bestFuture - oldQ) in
      set_qTable (setQValue qt3 pk pa newQ) w
  | _, _ => w
  end.

(** ε-greedy selection; [r1] and [r2] are the two [Math.random()] draws. *)
Definition chooseAction (r1 r2 : Q) (stateKey : string) (w : World) : Action * World :=
  if Qltb r1 (currentEpsilon w)
  then (if Qltb r2 (1 # 2) then KEEP else SWITCH, w)
  else
    let '(a, qt) := getBestAction (qTable w) stateKey in
    (a, set_qTable qt w).

Definition update (now : Z) (r1 r2 : Q) (w : World) : UpdatePath * World :=
  if negb (isRunning w) || switching (ai w) then (NotRun, w)
  else if isRunningBaseline (comparisonData w) then (NotRun, w)
  else if negb (isAIEnabled w) then (NotRun, w)
  else
    let elapsed := elapsedSince now w in
    let q := getQueues (vehicles w) in
    let starve (w : World) :=
      performSwitch
        (set_ai (set_starvationEvents (Datatypes.S (starvationEvents (ai w))) (ai w)) w) in
    if bool_decide (currentPhase w = axNS)
       && Qltb FAIR_CONFIG.starvationThreshold (maxRedEW w)
       && Qle_bool FAIR_CONFIG.minGreen elapsed
    then (Starved, starve w)
    else if bool_decide (currentPhase w = axEW)
            && Qltb FAIR_CONFIG.starvationThreshold (maxRedNS w)
            && Qle_bool FAIR_CONFIG.minGreen elapsed
    then (Starved, starve w)
    else if Qltb elapsed FAIR_CONFIG.minGreen then (MinGreenHold, w)
    else if Qltb FAIR_CONFIG.maxGreen elapsed then (MaxGreenForced, performSwitch w)
    else
      let maxRed := match currentPhase w with axNS => maxRedEW w | axEW => maxRedNS w end in
      let stateKey := getStateKey (Qnat (q_NS q)) (Qnat (q_EW q)) maxRed in
      let w := creditPrevious stateKey (rewardOf w) w in
      let '(action, w) := chooseAction r1 r2 stateKey w in
      let w := set_currentEpsilon
                 (Math_max Q_CONFIG.epsilonMin (currentEpsilon w * Q_CONFIG.epsilonDecay)) w in
      let w := set_ai (set_episodeSteps (Datatypes.S (episodeSteps (ai w)))
                         (set_prev (Some stateKey) (Some action) (ai w))) w in
      match action with
      | SWITCH => (Learned SWITCH, performSwitch w)
      | KEEP => (Learned KEEP, w)
      end.

(** ** The control surface of the engine *)

Definition btnStart_onclick (now : Z) (w : World) : World :=
  let m := metrics w in
  set_traffic (vehicles w)
    {| total := total m; totalWait := totalWait m; throughput := throughput m;
       startTime := now |} 0 0
    (set_isRunning true w).

Definition btnPause_onclick (w : World) : World :=
  set_isRunning (negb (isRunning w)) w.

Definition btnReset_onclick (now : Z) (w : World) : World :=
  let w := set_isRunning false w in
  let w := set_isAIEnabled false w in
  let w := set_traffic [] {| total := 0; totalWait := 0; throughput := 0; startTime := now |}
                       0 0 w in
  let w := set_signals {| NS := RED; EW := GREEN |} w in
  set_emissionsTotal noEmission w.

Definition btnAI_onclick (w : World) : World :=
  set_isAIEnabled (negb (isAIEnabled w)) w.

Definition btnNS_onclick (w : World) : World :=
  if isAIEnabled w then w
  else if negb (isGreen (NS (signals w)))
       then set_signals {| NS := GREEN; EW := RED |} w
       else set_signals {| NS := RED; EW := GREEN |} w.

Definition btnEW_onclick (w : World) : World :=
  if isAIEnabled w then w
  else if negb (isGreen (EW (signals w)))
       then set_signals {| NS := RED; EW := GREEN |} w
       else set_signals {| NS := GREEN; EW := RED |} w.

Definition speed_oninput (ts : Q) (w : World) : World := set_timeScale ts w.

(** The baseline button starts the simulation first when it is stopped. *)
Definition btnBaseline_onclick (now : Z) (w : World) : World :=
  startBaseline (if negb (isRunning w) then btnStart_onclick now w else w).

(** ** The event loop *)

Inductive Event :=
  | EvTick (now : Z)
  | EvUpdate (now : Z) (r1 r2 : Q)
  | EvResume (now : Z)
  | EvRecordAI
  | EvStart (now : Z)
  | EvPause
  | EvReset (now : Z)
  | EvAI
  | EvNS
  | EvEW
  | EvSpeed (ts : Q)
  | EvBaseline (now : Z)
  (* vehicle physics, spawning and injection: any new traffic picture *)
  | EvTraffic (vs : list Vehicle) (m : Metrics) (c : nat) (t : Q).

Definition step (e : Event) (w : World) : World :=
  match e with
  | EvTick now => tick now w
  | EvUpdate now r1 r2 => snd (update now r1 r2 w)
  | EvResume now => performSwitch_resume now w
  | EvRecordAI => recordAIMetrics w
  | EvStart now => btnStart_onclick now w
  | EvPause => btnPause_onclick w
  | EvReset now => btnReset_onclick now w
  | EvAI => btnAI_onclick w
  | EvNS => btnNS_onclick w
  | EvEW => btnEW_onclick w
  | EvSpeed ts => speed_oninput ts w
  | EvBaseline now => btnBaseline_onclick now w
  | EvTraffic vs m c t => set_traffic vs m c t w
  end.

Definition run (es : list Event) (w : World) : World := fold_left (fun w e => step e w) es w.

(** The state after both scripts have loaded: [tSim] is the clock reading
    of the engine's [metrics.startTime], [tSwitch] and [tTick] the two
    readings taken by the controller's constructor. *)
Definition init (tSim tSwitch tTick : Z) : World :=
  {| isRunning := false; isAIEnabled := false; timeScale := 1; vehicles := [];
     signals := {| NS := RED; EW := GREEN |};
     metrics := {| total := 0; totalWait := 0; throughput := 0; startTime := tSim |};
     cleared := 0; simElapsedTime := 0;
     comparisonData :=
       {| baseline := None; aiRecord := None; isRunningBaseline := false;
          baselineTimer := 0; baselineDuration := 60;
          baselinePhaseTimer := 0; baselinePhaseInterval := 30 |};
     emissionsTotal := noEmission;
     laneState :=
       let l := {| redDuration := 0; priority := 0 |} in
       {| laneN := l; laneS := l; laneE := l; laneW := l |};
     qTable := ∅;
     currentEpsilon := Q_CONFIG.epsilon;
     ai := {| lastSwitchTime := tSwitch; lastTickTime := tTick; totalReward := 0;
              switching := false; prevStateKey := None; prevAction := None;
              episodeSteps := 0; starvationEvents := 0 |};
     pendingSwitch := None; pendingRecord := 0 |}.

Inductive reachable : World -> Prop :=
  | reach_init tSim tSwitch tTick : reachable (init tSim tSwitch tTick)
  | reach_step e w : reachable w -> reachable (step e w).


(** ** Vocabulary of the properties *)

(** The number of thresholds [<= value]. *)
Definition countLe (value : Q) (bins : list Q) : nat :=
  length (List.filter (fun b => Qle_bool b value) bins).

Definition ascending (bins : list Q) : Prop := StronglySorted Qle bins.

(** Exactly one axis GREEN and the other RED. *)
Definition oneGreen (sg : Signals) : Prop :=
  (NS sg = GREEN /\ EW sg = RED) \/ (NS sg = RED /\ EW sg = GREEN).

(** What the learning agent owns: the table, ε, the running reward and the
    pending (state, action) pair. *)
Definition learningState (w : World)
  : gmap string QEntry * Q * Q * option string * option Action :=
  (qTable w, currentEpsilon w, totalReward (ai w), prevStateKey (ai w), prevAction (ai w)).

(** The three guards at the top of [update] let the tick through. *)
Definition deciding (w : World) : Prop :=
  isRunning w = true /\ isAIEnabled w = true /\
  isRunningBaseline (comparisonData w) = false /\ switching (ai w) = false.

(** The state in which the starvation override leaves the controller. *)
Definition starved (w : World) : World :=
  performSwitch
    (set_ai (set_starvationEvents (Datatypes.S (starvationEvents (ai w))) (ai w)) w).

(** A world in which the NS lanes have been red for 121 s:
    started, AI on, one tick 121 s after loading. *)
Definition starvedNS : World := run [EvStart 0; EvAI; EvTick 121000] (init 0 0 0).

(** The discretized state a decision tick observes: both queues and the
    maximal red duration of the axis that is not green. *)
Definition observedKey (w : World) : string :=
  let q := getQueues (vehicles w) in
  getStateKey (Qnat (q_NS q)) (Qnat (q_EW q))
              (match currentPhase w with axNS => maxRedEW w | axEW => maxRedNS w end).

(** The world after the credit of the previous pair and the choice of an
    action, and the action chosen, on a learned tick. *)
Definition afterChoice (r1 r2 : Q) (w : World) : Action * World :=
  chooseAction r1 r2 (observedKey w) (creditPrevious (observedKey w) (rewardOf w) w).

(** The bookkeeping of a learned tick after the choice: ε decays, the pair
    is remembered, the step is counted, and SWITCH starts a switch. *)
Definition conclude (k : string) (a : Action) (w : World) : World :=
  let w := set_currentEpsilon
             (Math_max Q_CONFIG.epsilonMin (currentEpsilon w * Q_CONFIG.epsilonDecay)) w in
  let w := set_ai (set_episodeSteps (Datatypes.S (episodeSteps (ai w)))
                     (set_prev (Some k) (Some a) (ai w))) w in
  match a with SWITCH => performSwitch w | KEEP => w end.

(** A world in which a baseline run is active. *)
Definition inBaseline : World := run [EvBaseline 0] (init 0 0 0).

(** A world after one learned decision: started, AI on, a tick and a
    decision 10 s after loading (no exploration: the draw 1/2 is above ε). *)
Definition learnedOnce : World :=
  run [EvStart 0; EvAI; EvTick 10000; EvUpdate 10000 (1 # 2) 0] (init 0 0 0).

Definition lanesCleared (ls : LaneState) : Prop :=
  forall d, redDuration (lane d ls) == 0 /\ priority (lane d ls) == 0.

(** A reset that clears the lane state, the emissions and metrics
    accumulators and the episode memory, and keeps the Q-table. *)
Definition resetClears (w w' : World) : Prop :=
  lanesCleared (laneState w') /\
  emissionsTotal w' = noEmission /\
  totalWait (metrics w') = 0 /\ throughput (metrics w') = 0%nat /\
  prevStateKey (ai w') = None /\ prevAction (ai w') = None /\
  qTable w' = qTable w.

(** In the step from [w] to [w'], an axis turns GREEN only if the other
    axis was YELLOW in [w]. *)
Definition yellowBeforeGreen (w w' : World) : Prop :=
  forall a, sig a (signals w) <> GREEN -> sig a (signals w') = GREEN ->
            sig (other a) (signals w) = YELLOW.

(** The interval timer fires [ms] milliseconds after the previous tick. *)
Definition tickNext (ms : Z) (w : World) : World := tick (lastTickTime (ai w) + ms) w.

(** The simulated seconds that a tick [ms] milliseconds after the previous
    one adds to the baseline timers at time scale [ts]: the code's
    [dt * timeScale], a binary64 product. *)
Definition tickSpan (ms : Z) (ts : Q) : Q := mul64 (round64 (ms # 1000)) (round64 ts).

(** The multiples of [d] up to [n] times [d] are binary64 numbers, so that
    a timer advanced by [d] reads them without rounding. *)
Definition exactUpTo (n : nat) (d : Q) : Prop :=
  forall j, (j <= n)%nat -> round64 (Qnat j * d) == Qnat j * d.

Definition exactUpTob (n : nat) (d : Q) : bool :=
  forallb (fun j => Qeq_bool (round64 (Qnat j * d)) (Qnat j * d)) (seq 0 (Datatypes.S n)).

(** The world after [n] evenly spaced ticks. *)
Fixpoint ticks (n : nat) (ms : Z) (w : World) : World :=
  match n with
  | O => w
  | Datatypes.S j => ticks j ms (tickNext ms w)
  end.

(** GREEN changed side between two worlds. *)
Definition flipped (w w' : World) : bool :=
  negb (bool_decide (currentPhase w = currentPhase w')).

(** The number of phase flips during the next [n] evenly spaced ticks. *)
Fixpoint flips (n : nat) (ms : Z) (w : World) : nat :=
  match n with
  | O => 0
  | Datatypes.S j =>
      ((if flipped w (tickNext ms w) then 1 else 0) + flips j ms (tickNext ms w))%nat
  end.

(** The simulation just started, at time 0. *)
Definition started : World := run [EvStart 0] (init 0 0 0).

(** The rational a finite binary64 number stands for. *)
Definition float2Q (f : float) : option Q :=
  match Prim2SF f with
  | S754_zero _ => Some 0
  | S754_finite sign m e =>
      Some (Qred ((if sign then - inject_Z (Zpos m) else inject_Z (Zpos m)) * pow2 e))
  | _ => None
  end.

(** The readings of the baseline timer after each of [n] evenly spaced
    ticks, in the model and on the machine's own binary64. *)
Fixpoint timerReadings (n : nat) (ms : Z) (w : World) : list Q :=
  match n with
  | O => []
  | Datatypes.S j =>
      baselineTimer (comparisonData (tickNext ms w)) :: timerReadings j ms (tickNext ms w)
  end.

Fixpoint timerReadings64 (n : nat) (span t : float) : list (option Q) :=
  match n with
  | O => []
  | Datatypes.S j => float2Q (t + span)%float :: timerReadings64 j span (t + span)%float
  end.

(** The reward and the update expression of [update], evaluated in IEEE
    binary64, the arithmetic JavaScript numbers have. *)
Definition reward64 (totalWaiting fairnessBonus : float) : float :=
  (- totalWaiting + fairnessBonus)%float.

Definition newQ64 (oldQ reward bestFuture alpha gamma : float) : float :=
  (oldQ + alpha * (reward + gamma * bestFuture - oldQ))%float.

(** Ten vehicles waiting on the north approach. *)
Definition tenWaiting : list Vehicle :=
  repeat {| origin := dirN; active := true; waiting := true |} 10.

(** A world with ten waiting vehicles, the NS lanes red for 5 s and the EW
    lanes green, a pending pair whose Q-value is still 0, and a table in
    which the best value of the state now observed is 2. *)
Definition creditScenario : World :=
  let w := run [EvStart 0; EvAI;
                EvTraffic tenWaiting
                  {| total := 10; totalWait := 0; throughput := 0; startTime := 0 |} 0 0;
                EvTick 5000] (init 0 0 0) in
  let w := set_qTable {[ "2_0_0"%string := {| qKEEP := 1; qSWITCH := 2 |} ]} w in
  set_ai (set_prev (Some "0_0_0"%string) (Some KEEP) (ai w)) w.

(** A key [getStateKey] can produce: three bin indices in 0..4. *)
Definition isStateKey (key : string) : Prop :=
  exists a b c, (a < 5 /\ b < 5 /\ c < 5)%nat /\ key = stateKeyOf a b c.

Definition allStateKeyList : list string :=
  a ← seq 0 5; b ← seq 0 5; c ← seq 0 5; [stateKeyOf a b c].

Definition allStateKeys : gset string := list_to_set allStateKeyList.

(** Every key of the table, and the pending key, is a state key. *)
Definition keysOk (w : World) : Prop :=
  (forall key, is_Some (qTable w !! key) -> isStateKey key) /\
  (forall pk, prevStateKey (ai w) = Some pk -> isStateKey pk).

(** ** Vocabulary of the further properties *)

Global Instance Dir_eq_dec : EqDecision Dir.
Proof. solve_decision. Defined.

(** The vehicles waiting on one approach, active or not. *)
Definition waitingOn (d : Dir) (vs : list Vehicle) : nat :=
  length (List.filter (fun v => waiting v && bool_decide (origin v = d)) vs).

(** The active vehicles that idle, and those that move. *)
Definition idleCount (vs : list Vehicle) : nat :=
  length (List.filter (fun v => active v && waiting v) vs).

Definition movingCount (vs : list Vehicle) : nat :=
  length (List.filter (fun v => active v && negb (waiting v)) vs).

(** What a fleet emits per simulated second at rate table [idle], [moving]. *)
Definition fleetRate (gas : Emission -> Q) (vs : list Vehicle) : Q :=
  Qnat (idleCount vs) * gas EMISSIONS.IDLE + Qnat (movingCount vs) * gas EMISSIONS.MOVING.

(** The wall-clock seconds a tick at [now] measures. *)
Definition tickDt (now : Z) (w : World) : Q := (now - lastTickTime (ai w))%Z # 1000.

(** A tick neither starts nor ends a measurement window. *)
Definition sameWindow (now : Z) (w : World) : Prop :=
  isRunningBaseline (comparisonData (tick now w)) = isRunningBaseline (comparisonData w).

(** A world 2 s into a run with one idling and one moving vehicle. *)
Definition twoVehicles : World :=
  run [EvStart 0;
       EvTraffic [ {| origin := dirN; active := true; waiting := true |};
                   {| origin := dirE; active := true; waiting := false |} ]
                 {| total := 2; totalWait := 0; throughput := 0; startTime := 0 |} 0 0]
      (init 0 0 0).


(** A world ready for a decision, 3 s after the last switch. *)
Definition decidingWorld : World := run [EvStart 0; EvAI; EvTick 3000] (init 0 0 0).


(** The guard is raised exactly while a continuation is suspended. *)
Definition guardOk (w : World) : Prop :=
  switching (ai w) = match pendingSwitch w with Some _ => true | None => false end.

(** No stored Q-value is positive. *)
Definition nonPositive (qt : gmap string QEntry) : Prop :=
  forall key e, qt !! key = Some e -> qKEEP e <= 0 /\ qSWITCH e <= 0.

Global Instance UpdatePath_eq_dec : EqDecision UpdatePath.
Proof. solve_decision. Defined.


(** Everything a decision tick has no business with: the flags, the
    traffic, the measurements and the comparison engine. *)
Definition outsideDecision (w : World) :=
  (isRunning w, isAIEnabled w, timeScale w, vehicles w, metrics w, cleared w,
   simElapsedTime w, comparisonData w, emissionsTotal w, laneState w, pendingRecord w).

(** The comparison records are well formed: the durations are the
    configured 60 s, only the baseline record has a maximal wait, and an AI
    record, or a timer armed to take one, comes after a baseline record. *)
Definition recordsOk (w : World) : Prop :=
  let cd := comparisonData w in
  baselineDuration cd = 60 /\ baselinePhaseInterval cd = 30 /\
  (forall b, baseline cd = Some b -> r_duration b = 60 /\ is_Some (r_maxWait b)) /\
  (forall a, aiRecord cd = Some a ->
             r_duration a = 60 /\ r_maxWait a = None /\ is_Some (baseline cd)) /\
  (pendingRecord w <> 0%nat -> is_Some (baseline cd)).

(** A complete comparison: start, a baseline run of 120 ticks of 500 ms,
    then the timer that records the AI metrics. *)
Definition comparisonEvents : list Event :=
  EvStart 0 :: EvBaseline 0 ::
  map (fun i => EvTick (500 * Z.of_nat i)) (seq 1 120) ++ [EvRecordAI].

Definition comparedWorld : World := run comparisonEvents (init 0 0 0).


(** ** The sparkline buffers ([updateCharts]) *)

(** [chartData]: two sliding windows of at most [maxPoints] points. *)
Record ChartData := { waitTime : list Q; co2Rate : list Q; maxPoints : nat }.

Definition chartData0 : ChartData := {| waitTime := []; co2Rate := []; maxPoints := 60 |}.

(** [data.push(x); if (data.length > maxPoints) data.shift();] *)
Definition pushPoint (cap : nat) (x : Q) (data : list Q) : list Q :=
  let data := data ++ [x] in
  if (cap <? length data)%nat then tail data else data.

(** [updateCharts]; a vehicle comes with its [waitStart]. *)
Definition updateCharts (now : Z) (running : bool) (vs : list (Vehicle * Z)) (cd : ChartData)
  : ChartData :=
  if negb running then cd
  else
    let waitingVehicles := List.filter (fun v => waiting (fst v) && active (fst v)) vs in
    let avgWait :=
      if (0 <? length waitingVehicles)%nat
      then fold_left (fun s v => s + ((now - snd v)%Z # 1000)) waitingVehicles 0
           / Qnat (length waitingVehicles)
      else 0 in
    let wt := pushPoint (maxPoints cd) (toFixed 1 avgWait) (waitTime cd) in
    let idle := length (List.filter (fun v => active (fst v) && waiting (fst v)) vs) in
    let moving := length (List.filter (fun v => active (fst v) && negb (waiting (fst v))) vs) in
    let rate := Qnat idle * co2 EMISSIONS.IDLE + Qnat moving * co2 EMISSIONS.MOVING in
    {| waitTime := wt;
       co2Rate := pushPoint (maxPoints cd) (toFixed 1 rate) (co2Rate cd);
       maxPoints := maxPoints cd |}.

(** ** The comparison panel ([updateComparisonUI]) *)

(** What [setComparison] shows for one metric: whether the cell is marked
    improved (arrow down, class [improved]) and the percentage printed. *)
Definition setComparison (baseVal aiVal : Q) (reverse : bool) : bool * Q :=
  let pct := if Qltb 0 baseVal then toFixed 0 ((baseVal - aiVal) / baseVal * 100) else 0 in
  let improved := if reverse then Qltb pct 0 else Qltb 0 pct in
  (improved, Qabs pct).

Record ComparisonPanel := {
  p_wait : bool * Q; p_co2 : bool * Q; p_fuel : bool * Q; p_thru : bool * Q }.

(** [updateComparisonUI]: nothing is shown until both records exist. *)
Definition updateComparisonUI (cd : ComparisonData) : option ComparisonPanel :=
  match baseline cd, aiRecord cd with
  | Some b, Some a =>
      Some {| p_wait := setComparison (r_avgWait b) (r_avgWait a) false;
              p_co2 := setComparison (r_co2 b) (r_co2 a) false;
              p_fuel := setComparison (r_fuel b) (r_fuel a) false;
              p_thru := setComparison (Qnat (r_throughput b)) (Qnat (r_throughput a)) true |}
  | _, _ => None
  end.

(** ** Helpers of the engine *)

(** [ToInt32] of the value [parseInt] returns; [None] is NaN. *)
Definition toInt32 (n : option Z) : Z :=
  match n with
  | None => 0
  | Some n => ((n + 2 ^ 31) mod 2 ^ 32 - 2 ^ 31)%Z
  end.

Definition clampChannel (c : Z) : Z := Z.min 255 (Z.max 0 c).

(** The three channels [shadeColor] computes from [n = parseInt(hex.slice(1), 16)]
    and an integral [pct]. *)
Definition shadeChannels (n : option Z) (pct : Z) : Z * Z * Z :=
  let r := clampChannel (Z.shiftr (toInt32 n) 16 + pct) in
  let g := clampChannel (Z.land (Z.shiftr (toInt32 n) 8) 255 + pct) in
  let b := clampChannel (Z.land (toInt32 n) 255 + pct) in
  (r, g, b).

Definition shadeColor (n : option Z) (pct : Z) : string :=
  let '(r, g, b) := shadeChannels n pct in
  "rgb(" +:+ pretty r +:+ "," +:+ pretty g +:+ "," +:+ pretty b +:+ ")".

(** [x % y] on numbers: the remainder has the sign of the dividend. *)
Definition jsRem (x y : Q) : Q :=
  let q := x / y in
  x - y * inject_Z (if Qle_bool 0 q then Qfloor q else Qceiling q).

(** [s.padStart(2, '0')] *)
Definition padStart2 (s : string) : string :=
  match String.length s with
  | 0%nat => "00"
  | 1%nat => "0" +:+ s
  | _ => s
  end.

Definition formatMinutes (seconds : Q) : Z := Qfloor (seconds / 60).
Definition formatSeconds (seconds : Q) : Z := Qfloor (jsRem seconds 60).

Definition formatTime (seconds : Q) : string :=
  pretty (formatMinutes seconds) +:+ ":" +:+ padStart2 (pretty (formatSeconds seconds)).

(** ** The React control panel and live view *)

(** The check boxes of the lane state builder in [Controls]. *)
Record Lanes := { north : bool; south : bool; east : bool; west : bool }.

Definition computeFromLanes (lanes : Lanes) : string :=
  let nsGreen := north lanes || south lanes in
  let ewGreen := east lanes || west lanes in
  if nsGreen && negb ewGreen then "GrGr"
  else if negb nsGreen && ewGreen then "rGrG"
  else if nsGreen && ewGreen then "GGGG"
  else "rrrr".

(** [toUpperCase] on the ASCII letters; the light strings are ASCII. *)
Definition upperAscii (c : Ascii.ascii) : Ascii.ascii :=
  let n := Ascii.nat_of_ascii c in
  if ((97 <=? n) && (n <=? 122))%nat then Ascii.ascii_of_nat (n - 32) else c.

Fixpoint toUpperCase (s : string) : string :=
  match s with
  | EmptyString => EmptyString
  | String c s' => String (upperAscii c) (toUpperCase s')
  end.

(** [lights ? lights.toUpperCase() : "RRRR"]: [None] is a missing prop,
    and the empty string is falsy too. *)
Definition normalizedLights (lights : option string) : string :=
  match lights with
  | None | Some EmptyString => "RRRR"
  | Some s => toUpperCase s
  end.

Definition charIsG (s : string) (i : nat) : bool :=
  match String.get i s with
  | Some c => bool_decide (c = "G"%char)
  | None => false
  end.

(** The two indicator colours of [LiveSimulation]. *)
Definition isNSGreen (lights : option string) : bool :=
  charIsG (normalizedLights lights) 0 || charIsG (normalizedLights lights) 2.

Definition isEWGreen (lights : option string) : bool :=
  charIsG (normalizedLights lights) 1 || charIsG (normalizedLights lights) 3.


(** The chart after a sequence of [updateCharts] calls, each with its
    clock reading, run flag and vehicles. *)
Definition chartRun (inputs : list (Z * bool * list (Vehicle * Z))) (cd : ChartData) : ChartData :=
  fold_left (fun cd i => updateCharts (fst (fst i)) (snd (fst i)) (snd i) cd) inputs cd.


(** ** The fairness bars ([updateFairnessUI]) *)

Inductive BarColour := BarRed | BarAmber | BarGreen.

(** [Math.max(0.01, ...dirs.map(d => laneState[d].priority))] *)
Definition maxPrio (ls : LaneState) : Q :=
  Math_max (Math_max (Math_max (Math_max (1 # 100) (priority (laneN ls))) (priority (laneS ls)))
                     (priority (laneE ls))) (priority (laneW ls)).

(** The width in percent, the colour and the [starvation-warn] class of
    the bar of lane [d]. *)
Definition fairnessBar (ls : LaneState) (d : Dir) : Q * BarColour * bool :=
  let pct := priority (lane d ls) / maxPrio ls * 100 in
  let redSec := redDuration (lane d ls) in
  let colour :=
    if Qltb (FAIR_CONFIG.starvationThreshold * (8 # 10)) redSec then BarRed
    else if Qltb (FAIR_CONFIG.starvationThreshold * (5 # 10)) redSec then BarAmber
    else BarGreen in
  (pct, colour, Qltb (FAIR_CONFIG.starvationThreshold * (8 # 10)) redSec).

(** ** A vehicle of the engine ([Vehicle]) *)

Definition ROAD_WIDTH : Q := 160.
Definition STOP_DIST : Q := 65.
Definition MAX_SPEED : Q := 26 # 10.
Definition ACCEL : Q := 55 # 1000.
Definition DECEL : Q := 16 # 100.

(** The fields of a [Vehicle] that [update] and the geometry read or
    write (the controller's view of it is the record [Vehicle] above; its
    lane, colour and turn fields play no part here). *)
Record Car := {
  c_id : string; c_origin : Dir; c_x : Q; c_y : Q; c_speed : Q;
  c_active : bool; c_waiting : bool; c_waitStart : Z; c_totalWait : Q }.

(** The canvas: [canvas.width] and [canvas.height]. *)
Record Canvas := { width : Q; height : Q }.

Definition distToStopLine (cv : Canvas) (c : Car) : Q :=
  let cx := width cv / 2 in
  let cy := height cv / 2 in
  let hw := ROAD_WIDTH / 2 in
  match c_origin c with
  | dirN => (cy - hw) - c_y c
  | dirS => c_y c - (cy + hw)
  | dirE => c_x c - (cx + hw)
  | dirW => (cx - hw) - c_x c
  end.

Definition isInIntersection (cv : Canvas) (c : Car) : bool :=
  let cx := width cv / 2 in
  let cy := height cv / 2 in
  let hw := ROAD_WIDTH / 2 in
  Qltb (cx - hw) (c_x c) && Qltb (c_x c) (cx + hw)
  && Qltb (cy - hw) (c_y c) && Qltb (c_y c) (cy + hw).

(** [canGo] after the signal test at the head of [update]. *)
Definition signalLetsGo (cv : Canvas) (sg : Signals) (c : Car) : bool :=
  let mySignal := sig (axisOf (c_origin c)) sg in
  match mySignal with
  | GREEN => true
  | _ =>
      let dist := distToStopLine cv c in
      let margin := match mySignal with YELLOW => STOP_DIST * (5 # 10) | _ => STOP_DIST end in
      negb (Qltb 0 dist && Qltb dist margin)
  end.

(** The car-following loop: the distance to the closest active vehicle
    of the same origin that is not behind in spawn order. [hypot] stands
    for [Math.hypot] and [myIndex] for [others.indexOf(this)], which is -1
    when the vehicle is not in the list. *)
Definition closestDist (hypot : Q -> Q -> Q) (others : list Car) (myIndex : Z) (c : Car) : Q :=
  fold_left
    (fun closest iv =>
       let '(index, v) := iv in
       if String.eqb (c_id v) (c_id c) || negb (bool_decide (c_origin v = c_origin c))
          || negb (c_active v)
       then closest
       else if (myIndex <? Z.of_nat index)%Z then closest
       else
         let dist := hypot (c_x v - c_x c) (c_y v - c_y c) in
         if Qltb dist closest then dist else closest)
    (imap pair others) 9999.

Definition canGo (hypot : Q -> Q -> Q) (cv : Canvas) (sg : Signals)
           (others : list Car) (myIndex : Z) (c : Car) : bool :=
  signalLetsGo cv sg c && negb (Qltb (closestDist hypot others myIndex c) 50).

(** [Vehicle.update]: the vehicle, the metrics and [cleared] after one
    frame. [cosv] and [sinv] stand for [Math.cos(rad)] and
    [Math.sin(rad)] of the vehicle's heading. *)
Definition vehicleUpdate (hypot : Q -> Q -> Q) (cosv sinv : Q) (cv : Canvas) (ts : Q)
           (sg : Signals) (now : Z) (others : list Car) (myIndex : Z)
           (c : Car) (m : Metrics) (clearedCount : nat) : Car * Metrics * nat :=
  if negb (c_active c) then (c, m, clearedCount)
  else
    let go := canGo hypot cv sg others myIndex c in
    (* speed and waiting *)
    let '(speed, waitingNow, waitStart, totalW, m) :=
      if negb go then
        let speed := Math_max 0 (c_speed c - DECEL * ts) in
        if Qeq_bool speed 0 && negb (c_waiting c)
        then (speed, true, now, c_totalWait c, m)
        else (speed, c_waiting c, c_waitStart c, c_totalWait c, m)
      else
        let speed := if Qle_bool MAX_SPEED (c_speed c + ACCEL * ts)
                     then MAX_SPEED else c_speed c + ACCEL * ts in
        if c_waiting c then
          let totalW := c_totalWait c + ((now - c_waitStart c)%Z # 1000) in
          (speed, false, c_waitStart c, totalW,
           {| total := total m; totalWait := totalWait m + totalW;
              throughput := throughput m; startTime := startTime m |})
        else (speed, false, c_waitStart c, c_totalWait c, m) in
    (* movement *)
    let x := c_x c + cosv * speed * ts in
    let y := c_y c + sinv * speed * ts in
    (* leaving the padded canvas *)
    let pad := 150 in
    if Qltb x (- pad) || Qltb (width cv + pad) x || Qltb y (- pad) || Qltb (height cv + pad) y
    then ({| c_id := c_id c; c_origin := c_origin c; c_x := x; c_y := y; c_speed := speed;
             c_active := false; c_waiting := waitingNow; c_waitStart := waitStart;
             c_totalWait := totalW |},
          {| total := total m; totalWait := totalWait m;
             throughput := Datatypes.S (throughput m); startTime := startTime m |},
          Datatypes.S clearedCount)
    else ({| c_id := c_id c; c_origin := c_origin c; c_x := x; c_y := y; c_speed := speed;
             c_active := true; c_waiting := waitingNow; c_waitStart := waitStart;
             c_totalWait := totalW |}, m, clearedCount).

(** A vehicle from the north waiting at its stop line on a 900 x 700 canvas. *)
Definition waitingCar : Car :=
  {| c_id := "a"; c_origin := dirN; c_x := 415; c_y := 250; c_speed := 0;
     c_active := true; c_waiting := true; c_waitStart := 1000; c_totalWait := 3 |}.

Definition canvas900 : Canvas := {| width := 900; height := 700 |}.


(** A stand-in for [Math.hypot] in examples (any function will do there). *)
Definition taxicab (dx dy : Q) : Q := Qabs dx + Qabs dy.

(** * Properties *)

(** ** Numbers and traces *)

Lemma Qltb_lt x y : Qltb x y = true <-> x < y.
Proof.
  unfold Qltb. rewrite negb_true_iff, <- not_true_iff_false, Qle_bool_iff.
  split; [apply Qnot_le_lt | apply Qlt_not_le].
Qed.

Lemma reachable_run es w : reachable w -> reachable (run es w).
Proof.
  revert w. induction es as [|e es IH]; intros w Hw; simpl; [exact Hw|].
  apply IH. now constructor.
Qed.

(** ** Discretization *)

Lemma discretize_loop_le n v bins : (discretize_loop n v bins <= pred n)%nat.
Proof.
  induction n as [|i IH]; simpl; [lia|].
  destruct (Qle_bool (nth i bins 0) v); lia.
Qed.

Lemma discretize_loop_Qeq n v v' bins :
  v == v' -> discretize_loop n v bins = discretize_loop n v' bins.
Proof.
  intros Hv. induction n as [|i IH]; simpl; [reflexivity|].
  rewrite IH. now rewrite Hv.
Qed.

Lemma discretize_loop_mono n v v' bins :
  v <= v' -> (discretize_loop n v bins <= discretize_loop n v' bins)%nat.
Proof.
  intros Hv. induction n as [|i IH]; simpl; [lia|].
  destruct (Qle_bool (nth i bins 0) v) eqn:H1.
  - apply Qle_bool_iff in H1.
    assert (H2 : Qle_bool (nth i bins 0) v' = true)
      by (apply Qle_bool_iff; eapply Qle_trans; eassumption).
    rewrite H2. lia.
  - destruct (Qle_bool (nth i bins 0) v'); [|exact IH].
    pose proof (discretize_loop_le i v bins). lia.
Qed.

Lemma ascending_nth bins i j :
  ascending bins -> (i <= j < length bins)%nat -> nth i bins 0 <= nth j bins 0.
Proof.
  intros Hs. revert i j. induction Hs as [|b bins Hs IH Hall]; intros i j Hij; simpl in Hij.
  - lia.
  - destruct j as [|j].
    + assert (i = 0%nat) as -> by lia. apply Qle_refl.
    + destruct i as [|i]; simpl.
      * rewrite List.Forall_forall in Hall. apply Hall, nth_In. lia.
      * apply IH. lia.
Qed.

Lemma countLe_app v l1 l2 : countLe v (l1 ++ l2) = (countLe v l1 + countLe v l2)%nat.
Proof. unfold countLe. now rewrite List.filter_app, length_app. Qed.

Lemma countLe_all v l :
  (forall b, In b l -> b <= v) -> countLe v l = length l.
Proof.
  unfold countLe. induction l as [|b l IH]; intros H; simpl; [reflexivity|].
  assert (Hb : Qle_bool b v = true) by (apply Qle_bool_iff, H; now left).
  rewrite Hb. simpl. f_equal. apply IH. intros c Hc. apply H. now right.
Qed.

Lemma take_S_nth (bins : list Q) i :
  (i < length bins)%nat -> take (Datatypes.S i) bins = take i bins ++ [nth i bins 0].
Proof.
  intros Hi. apply take_S_r. rewrite nth_lookup.
  destruct (lookup_lt_is_Some_2 bins i Hi) as [x Hx]. now rewrite Hx.
Qed.

Lemma discretize_loop_count n v bins :
  ascending bins -> (n <= length bins)%nat ->
  discretize_loop n v bins = pred (countLe v (take n bins)).
Proof.
  intros Hs. induction n as [|i IH]; intros Hn; simpl discretize_loop.
  - now rewrite take_0.
  - rewrite take_S_nth by lia. rewrite countLe_app.
    destruct (Qle_bool (nth i bins 0) v) eqn:Hb.
    + apply Qle_bool_iff in Hb.
      rewrite (countLe_all v (take i bins)).
      * unfold countLe. simpl. apply Qle_bool_iff in Hb. rewrite Hb. simpl.
        rewrite length_take. lia.
      * intros b Hin. apply List.In_nth with (d := 0) in Hin.
        destruct Hin as (k & Hk & <-). rewrite length_take in Hk.
        rewrite nth_lookup, lookup_take_lt, <- nth_lookup by lia.
        eapply Qle_trans; [|exact Hb]. apply ascending_nth; [exact Hs | lia].
    + unfold countLe at 2. simpl. rewrite Hb. simpl. rewrite IH by lia. f_equal. lia.
Qed.

(** C7 (corrected): [discretize] depends only on the numbers it is given
    (equal values give the same bin), for ascending [bins] its result is the
    index of the highest threshold [<= value], that is the count of such
    thresholds minus one, and 0 when there is none; and the bin index is
    non-decreasing in [value], for any [bins]. *)
Theorem C7_discretize_index_monotone :
  (forall v v' bins, v == v' -> discretize v bins = discretize v' bins) /\
  (forall v bins, ascending bins -> discretize v bins = pred (countLe v bins)) /\
  (forall v v' bins, v <= v' -> (discretize v bins <= discretize v' bins)%nat).
Proof.
  split; [|split].
  - intros v v' bins Hv. now apply discretize_loop_Qeq.
  - intros v bins Hs. unfold discretize.
    rewrite discretize_loop_count by (auto; lia). now rewrite firstn_all.
  - intros v v' bins Hv. now apply discretize_loop_mono.
Qed.

Lemma queueBins_ascending : ascending Q_CONFIG.queueBins.
Proof.
  unfold ascending, Q_CONFIG.queueBins.
  repeat (constructor; [|repeat (constructor; [discriminate|])]); constructor.
Qed.

(** C7, as stated, fails: with the queue thresholds, two thresholds are
    [<= 5] but the bin of 5 is 1. *)
Lemma C7_counterexample :
  ascending Q_CONFIG.queueBins /\
  discretize 5 Q_CONFIG.queueBins <> countLe 5 Q_CONFIG.queueBins.
Proof. split; [exact queueBins_ascending | vm_compute; discriminate]. Qed.

(** ** What each callback does to the signals and to the guard *)

Lemma baselineFlip_oneGreen sg : oneGreen (baselineFlip sg).
Proof. unfold baselineFlip, oneGreen. destruct (isGreen (NS sg)); simpl; auto. Qed.

Lemma tick_switching now w : switching (ai (tick now w)) = switching (ai w).
Proof.
  unfold tick, baselineTick. cbv zeta.
  repeat match goal with |- context [if ?b then _ else _] => destruct b end; reflexivity.
Qed.

Lemma tick_signals now w :
  signals (tick now w) = signals w \/ signals (tick now w) = baselineFlip (signals w).
Proof.
  unfold tick, baselineTick. cbv zeta.
  repeat match goal with |- context [if ?b then _ else _] => destruct b end;
    (left; reflexivity) || (right; reflexivity).
Qed.

Lemma performSwitch_signals w :
  switching (ai w) = false ->
  switching (ai (performSwitch w)) = true /\
  (NS (signals (performSwitch w)) = YELLOW \/ EW (signals (performSwitch w)) = YELLOW).
Proof.
  intros H. unfold performSwitch. rewrite H. cbv zeta. simpl.
  destruct (isGreen (NS (signals w))); simpl; auto.
Qed.

Lemma update_signals now r1 r2 w :
  (signals (snd (update now r1 r2 w)) = signals w /\
   switching (ai (snd (update now r1 r2 w))) = switching (ai w)) \/
  (switching (ai (snd (update now r1 r2 w))) = true /\
   (NS (signals (snd (update now r1 r2 w))) = YELLOW \/
    EW (signals (snd (update now r1 r2 w))) = YELLOW)).
Proof.
  unfold update.
  destruct (negb (isRunning w) || switching (ai w)) eqn:Hg; [left; auto|].
  apply orb_false_iff in Hg as [_ Hsw].
  destruct (isRunningBaseline (comparisonData w)); [left; auto|].
  destruct (negb (isAIEnabled w)); [left; auto|].
  cbv zeta.
  destruct (_ && _ && _); [right; apply performSwitch_signals; exact Hsw|].
  destruct (_ && _ && _); [right; apply performSwitch_signals; exact Hsw|].
  destruct (Qltb _ _); [left; auto|].
  destruct (Qltb _ _); [right; apply performSwitch_signals; exact Hsw|].
  set (k := getStateKey _ _ _). set (rw := rewardOf w).
  assert (Hc : signals (creditPrevious k rw w) = signals w /\
               switching (ai (creditPrevious k rw w)) = switching (ai w)).
  { unfold creditPrevious. destruct (prevStateKey (ai w)), (prevAction (ai w)); auto. }
  destruct Hc as [Hc1 Hc2].
  set (w1 := creditPrevious k rw w) in *.
  assert (Ha : signals (snd (chooseAction r1 r2 k w1)) = signals w1 /\
               switching (ai (snd (chooseAction r1 r2 k w1))) = switching (ai w1)).
  { unfold chooseAction. destruct (Qltb r1 _); [auto|].
    destruct (getBestAction _ _); auto. }
  destruct (chooseAction r1 r2 k w1) as [a w2]. simpl in Ha. destruct Ha as [Ha1 Ha2].
  destruct a; simpl.
  - left. split; congruence.
  - right. apply performSwitch_signals. simpl. congruence.
Qed.

Lemma resume_signals now w :
  performSwitch_resume now w = w \/
  (oneGreen (signals (performSwitch_resume now w)) /\
   switching (ai (performSwitch_resume now w)) = false).
Proof.
  unfold performSwitch_resume. destruct (pendingSwitch w) as [[]|]; [right|right|left];
    try reflexivity; unfold oneGreen; simpl; auto.
Qed.

Lemma startBaseline_signals w :
  switching (ai (startBaseline w)) = switching (ai w) /\
  (signals (startBaseline w) = signals w \/ oneGreen (signals (startBaseline w))).
Proof.
  unfold startBaseline. destruct (isRunningBaseline (comparisonData w)); [auto|].
  split; [reflexivity|]. right. left. auto.
Qed.

(** Every callback keeps the signals and the guard, or leaves exactly one
    axis GREEN without touching the guard's meaning, or is the first half of
    [performSwitch]. *)
Lemma step_signals e w :
  (signals (step e w) = signals w /\ switching (ai (step e w)) = switching (ai w)) \/
  oneGreen (signals (step e w)) \/
  (switching (ai (step e w)) = true /\
   (NS (signals (step e w)) = YELLOW \/ EW (signals (step e w)) = YELLOW)).
Proof.
  destruct e; simpl.
  - destruct (tick_signals now w) as [H|H].
    + left. split; [exact H | apply tick_switching].
    + right; left. rewrite H. apply baselineFlip_oneGreen.
  - destruct (update_signals now r1 r2 w) as [H|H]; auto.
  - destruct (resume_signals now w) as [H|[H _]]; [rewrite H|]; auto.
  - left. unfold recordAIMetrics. destruct (pendingRecord w); auto.
  - left; auto.
  - left; auto.
  - right; left. right. auto.
  - left; auto.
  - unfold btnNS_onclick. destruct (isAIEnabled w); [left; auto|].
    right; left. destruct (negb _); [left|right]; auto.
  - unfold btnEW_onclick. destruct (isAIEnabled w); [left; auto|].
    right; left. destruct (negb _); [right|left]; auto.
  - left; auto.
  - unfold btnBaseline_onclick.
    destruct (startBaseline_signals (if negb (isRunning w) then btnStart_onclick now w else w))
      as [H1 [H2|H2]]; [left|right; left; exact H2].
    rewrite H1, H2. destruct (negb (isRunning w)); auto.
  - left; auto.
Qed.

(** ** Mutual exclusion *)

(** With no switch in flight exactly one axis is GREEN and the other RED. *)
Lemma idle_oneGreen w :
  reachable w -> switching (ai w) = false -> oneGreen (signals w).
Proof.
  induction 1 as [tSim tSwitch tTick|e w Hw IH]; intros Hsw.
  - right. auto.
  - destruct (step_signals e w) as [[H1 H2]|[H|[H _]]].
    + rewrite H1. apply IH. congruence.
    + exact H.
    + congruence.
Qed.

(** C1: in every reachable state of the controller and the simulation, the
    two signals are never GREEN together. *)
Theorem C1_never_both_green w :
  reachable w -> ~ (NS (signals w) = GREEN /\ EW (signals w) = GREEN).
Proof.
  induction 1 as [tSim tSwitch tTick|e w Hw IH]; simpl.
  - intros [H _]. discriminate.
  - destruct (step_signals e w) as [[H1 _]|[H|[_ H]]].
    + now rewrite H1.
    + intros [Hn He]. destruct H as [[_ H]|[H _]]; congruence.
    + intros [Hn He]. destruct H; congruence.
Qed.

(** ** Starvation override *)

Ltac qcompute := vm_compute; first [reflexivity | discriminate].

Lemma update_deciding w :
  deciding w ->
  negb (isRunning w) || switching (ai w) = false /\
  isRunningBaseline (comparisonData w) = false /\ negb (isAIEnabled w) = false.
Proof. intros (-> & -> & -> & ->). auto. Qed.

Lemma starved_effect w :
  switching (ai w) = false ->
  starvationEvents (ai (starved w)) = Datatypes.S (starvationEvents (ai w)) /\
  switching (ai (starved w)) = true /\
  sig (currentPhase w) (signals (starved w)) = YELLOW /\
  pendingSwitch (starved w) = Some (currentPhase w) /\
  learningState (starved w) = learningState w.
Proof.
  intros H. unfold starved, performSwitch, currentPhase. simpl. rewrite H.
  destruct (isGreen (NS (signals w))); simpl; auto.
Qed.

(** C2: on a decision tick that passes the guards (running, AI enabled, no
    baseline, no switch in flight), if the lanes of the axis that is RED
    have a maximal red duration above the starvation threshold and the
    phase has lasted at least the minimum green, the tick is a starvation
    switch whatever the random draws and the Q-table: it counts one
    starvation event and runs [performSwitch], which raises the guard and
    turns the GREEN axis YELLOW. *)
Theorem C2_starvation_forces_switch w now r1 r2 a :
  reachable w -> deciding w ->
  sig a (signals w) = RED ->
  FAIR_CONFIG.starvationThreshold < maxRedOf a w ->
  FAIR_CONFIG.minGreen <= elapsedSince now w ->
  update now r1 r2 w = (Starved, starved w) /\
  starvationEvents (ai (starved w)) = Datatypes.S (starvationEvents (ai w)) /\
  switching (ai (starved w)) = true /\
  sig (other a) (signals (starved w)) = YELLOW /\
  pendingSwitch (starved w) = Some (other a).
Proof.
  intros Hr Hd Hred Hmax Hel.
  pose proof (update_deciding w Hd) as (G1 & G2 & G3).
  destruct Hd as (_ & _ & _ & Hsw).
  pose proof (idle_oneGreen w Hr Hsw) as Hone.
  apply Qltb_lt in Hmax. apply Qle_bool_iff in Hel.
  assert (Hphase : currentPhase w = other a).
  { unfold currentPhase. destruct a, Hone as [[Hn He]|[Hn He]]; simpl in *;
      rewrite ?Hn in *; try congruence; reflexivity. }
  destruct (starved_effect w Hsw) as (E1 & E2 & E3 & E4 & _).
  rewrite Hphase in E3, E4.
  split; [|auto].
  unfold update. rewrite G1, G2, G3. cbv zeta. fold (starved w).
  rewrite Hphase, Hel. destruct a; simpl in *; rewrite Hmax; reflexivity.
Qed.

Lemma C2_witness :
  update 121000 0 0 starvedNS = (Starved, starved starvedNS) /\
  starvationEvents (ai (starved starvedNS)) = Datatypes.S (starvationEvents (ai starvedNS)) /\
  switching (ai (starved starvedNS)) = true /\
  sig (other axNS) (signals (starved starvedNS)) = YELLOW /\
  pendingSwitch (starved starvedNS) = Some (other axNS).
Proof.
  apply (C2_starvation_forces_switch starvedNS 121000 0 0 axNS).
  - apply reachable_run. constructor.
  - repeat split; reflexivity.
  - reflexivity.
  - qcompute.
  - qcompute.
Defined.

Lemma C1_witness :
  ~ (NS (signals (starved starvedNS)) = GREEN /\ EW (signals (starved starvedNS)) = GREEN).
Proof.
  apply (C1_never_both_green (step (EvUpdate 121000 0 0) starvedNS)).
  apply reach_step, reachable_run. constructor.
Defined.

(** ** The return paths of a decision tick *)

Lemma performSwitch_learning w : learningState (performSwitch w) = learningState w.
Proof.
  unfold performSwitch. destruct (switching (ai w)); [reflexivity|].
  cbv zeta. destruct (isGreen _); reflexivity.
Qed.

(** [update], path by path. *)
Lemma update_cases now r1 r2 w :
  update now r1 r2 w = (NotRun, w) \/
  (deciding w /\
   (update now r1 r2 w = (Starved, starved w) \/
    update now r1 r2 w = (MinGreenHold, w) \/
    update now r1 r2 w = (MaxGreenForced, performSwitch w) \/
    update now r1 r2 w =
      (Learned (fst (afterChoice r1 r2 w)),
       conclude (observedKey w) (fst (afterChoice r1 r2 w)) (snd (afterChoice r1 r2 w))))).
Proof.
  unfold update.
  destruct (isRunning w) eqn:G1; [|left; reflexivity].
  destruct (switching (ai w)) eqn:G2; [left; reflexivity|].
  destruct (isRunningBaseline (comparisonData w)) eqn:G3; [left; reflexivity|].
  destruct (isAIEnabled w) eqn:G4; [|left; reflexivity].
  right. split; [repeat split; assumption|]. simpl negb. simpl orb. cbv iota zeta.
  fold (starved w).
  destruct (_ && _ && _); [left; reflexivity|].
  destruct (_ && _ && _); [left; reflexivity|].
  destruct (Qltb _ _); [right; left; reflexivity|].
  destruct (Qltb _ _); [right; right; left; reflexivity|].
  right; right; right.
  fold (observedKey w). unfold afterChoice.
  destruct (chooseAction r1 r2 (observedKey w) _) as [a w2]. simpl fst; simpl snd.
  unfold conclude. destruct a; reflexivity.
Qed.

(** C10: a decision tick that ends in a forced switch (starvation override
    or maximum green), and more generally every tick that is not a learned
    one, leaves the Q-table, ε, the total reward and the pending (state,
    action) pair exactly as they were; a learned tick credits the previous
    pair, chooses, decays ε and overwrites the pending pair with the state
    it observed and the action it chose. *)
Theorem C10_forced_switch_keeps_learning now r1 r2 w :
  (fst (update now r1 r2 w) = Starved \/ fst (update now r1 r2 w) = MaxGreenForced ->
   learningState (snd (update now r1 r2 w)) = learningState w) /\
  ((forall a, fst (update now r1 r2 w) <> Learned a) ->
   learningState (snd (update now r1 r2 w)) = learningState w) /\
  (forall a, fst (update now r1 r2 w) = Learned a ->
   let w' := snd (update now r1 r2 w) in
   a = fst (afterChoice r1 r2 w) /\
   qTable w' = qTable (snd (afterChoice r1 r2 w)) /\
   totalReward (ai w') = totalReward (ai (creditPrevious (observedKey w) (rewardOf w) w)) /\
   currentEpsilon w' =
     Math_max Q_CONFIG.epsilonMin (currentEpsilon w * Q_CONFIG.epsilonDecay) /\
   prevStateKey (ai w') = Some (observedKey w) /\
   prevAction (ai w') = Some a).
Proof.
  assert (Hnl : (forall a, fst (update now r1 r2 w) <> Learned a) ->
                learningState (snd (update now r1 r2 w)) = learningState w).
  { intros Hp.
    destruct (update_cases now r1 r2 w) as [E|[Hd [E|[E|[E|E]]]]];
      rewrite E in *; simpl in *.
    - reflexivity.
    - apply starved_effect, Hd.
    - reflexivity.
    - apply performSwitch_learning.
    - exfalso. eapply Hp. reflexivity. }
  split; [|split].
  - intros Hf. apply Hnl. intros a Ha. destruct Hf as [Hf|Hf]; congruence.
  - exact Hnl.
  - intros a Ha.
    destruct (update_cases now r1 r2 w) as [E|[Hd [E|[E|[E|E]]]]];
      rewrite E in *; simpl in Ha; try discriminate.
    injection Ha as <-. simpl snd.
    assert (Hc : forall w2 : World,
               learningState (conclude (observedKey w) (fst (afterChoice r1 r2 w)) w2) =
               (qTable w2,
                Math_max Q_CONFIG.epsilonMin (currentEpsilon w2 * Q_CONFIG.epsilonDecay),
                totalReward (ai w2), Some (observedKey w), Some (fst (afterChoice r1 r2 w)))).
    { intros w2. unfold conclude. cbv zeta.
      destruct (fst (afterChoice r1 r2 w)); [reflexivity|].
      rewrite performSwitch_learning. reflexivity. }
    specialize (Hc (snd (afterChoice r1 r2 w))). unfold learningState in Hc.
    injection Hc as Hq He Ht Hk Hpa.
    assert (Hch : currentEpsilon (snd (afterChoice r1 r2 w)) = currentEpsilon w /\
                  totalReward (ai (snd (afterChoice r1 r2 w))) =
                  totalReward (ai (creditPrevious (observedKey w) (rewardOf w) w))).
    { unfold afterChoice, chooseAction.
      assert (Hcr : currentEpsilon (creditPrevious (observedKey w) (rewardOf w) w) =
                    currentEpsilon w).
      { unfold creditPrevious.
        destruct (prevStateKey (ai w)), (prevAction (ai w)); reflexivity. }
      rewrite Hcr. destruct (Qltb r1 (currentEpsilon w)); [auto|].
      destruct (getBestAction _ _). auto. }
    destruct Hch as [Hce Hct].
    cbv zeta. rewrite Hq, He, Ht, Hk, Hpa, Hce, Hct. repeat split; reflexivity.
Qed.

(** The starvation switch of [starvedNS] is such a forced tick. *)
Example forced_tick_example :
  fst (update 121000 0 0 starvedNS) = Starved /\
  learningState (snd (update 121000 0 0 starvedNS)) = learningState starvedNS.
Proof. split; reflexivity. Qed.

(** So is a tick 61 s into a phase with no lane starved: maximum green. *)
Example maxGreen_tick_example :
  let w := run [EvStart 0; EvAI; EvTick 61000] (init 0 0 0) in
  fst (update 61000 0 0 w) = MaxGreenForced /\
  learningState (snd (update 61000 0 0 w)) = learningState w /\
  signals (snd (update 61000 0 0 w)) = {| NS := RED; EW := YELLOW |}.
Proof. repeat split; reflexivity. Qed.

(** A tick 10 s into the phase is a learned one: with the draw 1/2 above ε
    it keeps (both Q-values are 0), remembers the pair and decays ε. *)
Example learned_tick_example :
  let w := run [EvStart 0; EvAI; EvTick 10000] (init 0 0 0) in
  let w' := snd (update 10000 (1 # 2) 0 w) in
  fst (update 10000 (1 # 2) 0 w) = Learned KEEP /\
  prevStateKey (ai w') = Some "0_0_1"%string /\
  prevAction (ai w') = Some KEEP /\
  currentEpsilon w' == (3 # 10) * (998 # 1000) /\
  signals w' = signals w.
Proof. repeat split; reflexivity. Qed.

(** ** Duplicate baseline start *)

(** C9: [startBaseline] during an active baseline run returns at once and
    changes nothing: the whole state, accumulators, timers, signals,
    metrics and [isAIEnabled] included, is the one it was called in. *)
Theorem C9_startBaseline_idempotent w :
  isRunningBaseline (comparisonData w) = true -> startBaseline w = w.
Proof. intros H. unfold startBaseline. now rewrite H. Qed.

Lemma C9_witness : startBaseline inBaseline = inBaseline.
Proof. apply C9_startBaseline_idempotent. reflexivity. Defined.

(** ** Reset *)

(** C4 (corrected): the reset control stops the simulation, leaves manual
    mode, empties the traffic, clears the metrics and emissions
    accumulators and puts the signals back to NS RED / EW GREEN; the learned
    Q-table is unchanged, and so are the lane state (red durations and
    priorities), ε, and every field of the controller, the episode memory
    [prevStateKey] / [prevAction] included: none of them is cleared. *)
Theorem C4_reset_frame now w :
  let w' := btnReset_onclick now w in
  emissionsTotal w' = noEmission /\
  metrics w' = {| total := 0; totalWait := 0; throughput := 0; startTime := now |} /\
  cleared w' = 0%nat /\ simElapsedTime w' = 0 /\ vehicles w' = [] /\
  isRunning w' = false /\ isAIEnabled w' = false /\
  signals w' = {| NS := RED; EW := GREEN |} /\
  qTable w' = qTable w /\
  laneState w' = laneState w /\
  ai w' = ai w /\
  currentEpsilon w' = currentEpsilon w /\
  comparisonData w' = comparisonData w.
Proof. repeat split; reflexivity. Qed.

(** C4, as stated, fails: after one learned decision the NS lanes have been
    red for 10 s and a pair is pending; a reset keeps both. *)
Lemma C4_counterexample :
  let w' := btnReset_onclick 20000 learnedOnce in
  reachable learnedOnce /\
  redDuration (laneN (laneState w')) == 10 /\
  prevStateKey (ai w') = Some "0_0_1"%string /\
  prevAction (ai w') = Some KEEP /\
  ~ resetClears learnedOnce w'.
Proof.
  cbv zeta. split; [apply reachable_run; constructor|].
  split; [qcompute|]. split; [reflexivity|]. split; [reflexivity|].
  assert (E : prevStateKey (ai (btnReset_onclick 20000 learnedOnce)) = Some "0_0_1"%string)
    by (vm_compute; reflexivity).
  intros (_ & _ & _ & _ & H & _). rewrite E in H. discriminate H.
Qed.

(** ** Yellow clearance *)

Lemma performSwitch_no_new_green w a :
  sig a (signals (performSwitch w)) = GREEN -> sig a (signals w) = GREEN.
Proof.
  unfold performSwitch. destruct (switching (ai w)); [auto|]. cbv zeta. simpl.
  destruct (isGreen (NS (signals w))) eqn:Hg; destruct a; simpl; auto; discriminate.
Qed.

(** C3 (corrected): an adaptive change of phase passes through YELLOW.
    Started with no switch in flight, the first half of [performSwitch]
    turns no axis GREEN, sets the outgoing axis YELLOW and suspends; its
    continuation, resumed in any world in which it is still pending and the
    outgoing axis still shows YELLOW, sets the outgoing axis RED and the
    incoming axis GREEN, so that GREEN arrives in a step that starts from
    YELLOW; and no decision tick turns an axis GREEN by itself. *)
Theorem C3_adaptive_switch_through_yellow w now :
  switching (ai w) = false ->
  let out := currentPhase w in
  let w1 := performSwitch w in
  (forall a, sig a (signals w1) = GREEN -> sig a (signals w) = GREEN) /\
  sig out (signals w1) = YELLOW /\
  pendingSwitch w1 = Some out /\
  (forall w2, pendingSwitch w2 = Some out -> sig out (signals w2) = YELLOW ->
              let w3 := performSwitch_resume now w2 in
              sig out (signals w3) = RED /\
              sig (other out) (signals w3) = GREEN /\
              yellowBeforeGreen w2 w3) /\
  (forall t r1 r2 a, sig a (signals (snd (update t r1 r2 w))) = GREEN ->
                     sig a (signals w) = GREEN).
Proof.
  intros Hsw. cbv zeta. split; [intros a; apply performSwitch_no_new_green|].
  assert (H2 : sig (currentPhase w) (signals (performSwitch w)) = YELLOW /\
               pendingSwitch (performSwitch w) = Some (currentPhase w)).
  { unfold performSwitch, currentPhase. rewrite Hsw. cbv zeta. simpl.
    destruct (isGreen (NS (signals w))); simpl; auto. }
  destruct H2 as [H2 H3]. split; [exact H2|]. split; [exact H3|]. split.
  - intros w2 Hp Hy. unfold yellowBeforeGreen, performSwitch_resume. rewrite Hp.
    destruct (currentPhase w); simpl in *; repeat split; try reflexivity;
      intros [] Hn Hg; simpl in *; congruence.
  - intros t r1 r2 a.
    destruct (update_cases t r1 r2 w) as [E|[Hd [E|[E|[E|E]]]]]; rewrite E; simpl snd.
    + auto.
    + intros H. apply performSwitch_no_new_green in H. exact H.
    + auto.
    + apply performSwitch_no_new_green.
    + assert (Hs : signals (snd (afterChoice r1 r2 w)) = signals w).
      { unfold afterChoice, chooseAction.
        assert (Hcr : signals (creditPrevious (observedKey w) (rewardOf w) w) = signals w).
        { unfold creditPrevious.
          destruct (prevStateKey (ai w)), (prevAction (ai w)); reflexivity. }
        destruct (Qltb r1 _); [exact Hcr|]. destruct (getBestAction _ _). exact Hcr. }
      unfold conclude. cbv zeta. destruct (fst (afterChoice r1 r2 w)); simpl.
      * now rewrite Hs.
      * intros H. apply performSwitch_no_new_green in H. simpl in H. now rewrite Hs in H.
Qed.

Lemma C3_witness :
  let w := starvedNS in
  let out := currentPhase w in
  let w1 := performSwitch w in
  (forall a, sig a (signals w1) = GREEN -> sig a (signals w) = GREEN) /\
  sig out (signals w1) = YELLOW /\
  pendingSwitch w1 = Some out /\
  (forall w2, pendingSwitch w2 = Some out -> sig out (signals w2) = YELLOW ->
              let w3 := performSwitch_resume 123000 w2 in
              sig out (signals w3) = RED /\
              sig (other out) (signals w3) = GREEN /\
              yellowBeforeGreen w2 w3) /\
  (forall t r1 r2 a, sig a (signals (snd (update t r1 r2 w))) = GREEN ->
                     sig a (signals w) = GREEN).
Proof. apply (C3_adaptive_switch_through_yellow starvedNS 123000). reflexivity. Defined.

(** The switch of [starvedNS], run to its end: EW shows YELLOW during the
    sleep and the continuation hands GREEN to NS. *)
Example adaptive_switch_example :
  signals starvedNS = {| NS := RED; EW := GREEN |} /\
  signals (performSwitch starvedNS) = {| NS := RED; EW := YELLOW |} /\
  signals (performSwitch_resume 123000 (performSwitch starvedNS)) = {| NS := GREEN; EW := RED |}.
Proof. repeat split; reflexivity. Qed.

(** C3, as stated, fails for the fixed-cycle flip of the baseline and for
    the manual force buttons: GREEN changes side in one step, the outgoing
    axis being GREEN, not YELLOW, just before. *)
Lemma C3_counterexample :
  reachable inBaseline /\
  signals inBaseline = {| NS := GREEN; EW := RED |} /\
  signals (step (EvTick 30000) inBaseline) = {| NS := RED; EW := GREEN |} /\
  ~ yellowBeforeGreen inBaseline (step (EvTick 30000) inBaseline) /\
  signals (init 0 0 0) = {| NS := RED; EW := GREEN |} /\
  signals (step EvNS (init 0 0 0)) = {| NS := GREEN; EW := RED |} /\
  ~ yellowBeforeGreen (init 0 0 0) (step EvNS (init 0 0 0)).
Proof.
  split; [apply reachable_run; constructor|].
  split; [reflexivity|]. split; [reflexivity|].
  split; [intros H; specialize (H axEW); vm_compute in H; discriminate H; [discriminate|reflexivity]|].
  split; [reflexivity|]. split; [reflexivity|].
  intros H. specialize (H axNS). simpl in H. discriminate H; [discriminate|reflexivity].
Qed.

(** ** The fixed-cycle baseline run *)

Lemma Qnat_S n : Qnat (Datatypes.S n) == Qnat n + 1.
Proof. unfold Qnat. rewrite Nat2Z.inj_succ, <- Z.add_1_r, inject_Z_plus. reflexivity. Qed.

Lemma Qnat_le a b : (a <= b)%nat <-> Qnat a <= Qnat b.
Proof. unfold Qnat. rewrite <- Zle_Qle. apply Nat2Z.inj_le. Qed.

Lemma Qnat_scaled_le d a b : 0 < d -> Qle_bool (Qnat a * d) (Qnat b * d) = bool_decide (a <= b)%nat.
Proof.
  intros Hd. destruct (bool_decide (a <= b)%nat) eqn:Hab.
  - apply bool_decide_eq_true in Hab. apply Qle_bool_iff, Qmult_le_r, Qnat_le; assumption.
  - apply bool_decide_eq_false in Hab. apply not_true_iff_false. intros H.
    apply Hab, Qnat_le. apply Qle_bool_iff in H. now apply Qmult_le_r in H.
Qed.

Lemma period_positive k d : (0 < k)%nat -> Qnat k * d == 30 -> 0 < d.
Proof.
  intros Hk Hkd. destruct (Qlt_le_dec 0 d) as [H|H]; [exact H|exfalso].
  assert (Hk' : 0 < Qnat k).
  { unfold Qnat. rewrite <- (Zlt_Qlt 0). lia. }
  assert (Hle : Qnat k * d <= Qnat k * 0) by (apply Qmult_le_l; assumption).
  rewrite Hkd, Qmult_0_r in Hle. revert Hle. apply Qlt_not_le. reflexivity.
Qed.

Lemma two_periods k d : Qnat k * d == 30 -> Qnat (2 * k) * d == 60.
Proof.
  intros H. replace (2 * k)%nat with (k + k)%nat by lia.
  unfold Qnat in *. rewrite Nat2Z.inj_add, inject_Z_plus.
  rewrite Qmult_plus_distr_l, H. reflexivity.
Qed.

Lemma baselineFlip_phase sg :
  (if isGreen (NS (baselineFlip sg)) then axNS else axEW) =
  other (if isGreen (NS sg) then axNS else axEW).
Proof. unfold baselineFlip. destruct (isGreen (NS sg)); reflexivity. Qed.

Lemma round64_comp p q : p == q -> round64 p = round64 q.
Proof. intros H. unfold round64. now rewrite (Qred_complete _ _ H). Qed.

Lemma exactUpTob_spec n d : exactUpTob n d = true -> exactUpTo n d.
Proof.
  unfold exactUpTob, exactUpTo. rewrite forallb_forall. intros H j Hj.
  apply Qeq_bool_iff, H, in_seq. lia.
Qed.

(** One tick of an active baseline run, in terms of its two timers. *)
Lemma tickNext_baseline ms w :
  isRunning w = true -> isRunningBaseline (comparisonData w) = true ->
  let d := tickSpan ms (timeScale w) in
  let cd := comparisonData w in
  let T := add64 (baselineTimer cd) d in
  let P := add64 (baselinePhaseTimer cd) d in
  let w' := tickNext ms w in
  isRunning w' = true /\ timeScale w' = timeScale w /\
  baselineDuration (comparisonData w') = baselineDuration cd /\
  baselinePhaseInterval (comparisonData w') = baselinePhaseInterval cd /\
  baselineTimer (comparisonData w') = T /\
  baselinePhaseTimer (comparisonData w') =
    (if Qle_bool (baselinePhaseInterval cd) P then 0 else P) /\
  signals w' =
    (if Qle_bool (baselinePhaseInterval cd) P then baselineFlip (signals w) else signals w) /\
  isRunningBaseline (comparisonData w') = negb (Qle_bool (baselineDuration cd) T).
Proof.
  intros Hr Hb. cbv zeta. unfold tickNext, tick. rewrite Hr. simpl negb. cbv iota zeta.
  rewrite Z.add_simpl_l. simpl isRunningBaseline. rewrite Hb.
  unfold baselineTick, tickSpan. simpl timeScale. simpl comparisonData. cbv zeta.
  destruct (Qle_bool (baselinePhaseInterval (comparisonData w)) _) eqn:HP;
    simpl comparisonData; simpl baselineDuration; simpl baselineTimer;
    destruct (Qle_bool (baselineDuration (comparisonData w)) _) eqn:HT;
    repeat split; first [exact Hr | exact Hb | reflexivity].
Qed.

Lemma ticks_S j ms w : ticks (Datatypes.S j) ms w = ticks j ms (tickNext ms w).
Proof. reflexivity. Qed.

Lemma flips_S j ms w :
  flips (Datatypes.S j) ms w =
  ((if flipped w (tickNext ms w) then 1 else 0) + flips j ms (tickNext ms w))%nat.
Proof. reflexivity. Qed.

Lemma ticks_S_r j ms w : ticks (Datatypes.S j) ms w = tickNext ms (ticks j ms w).
Proof.
  revert w. induction j as [|j IH]; intros w; [reflexivity|].
  rewrite ticks_S, IH, <- ticks_S. reflexivity.
Qed.

Lemma flips_S_r j ms w :
  flips (Datatypes.S j) ms w =
  (flips j ms w + (if flipped (ticks j ms w) (ticks (Datatypes.S j) ms w) then 1 else 0))%nat.
Proof.
  revert w. induction j as [|j IH]; intros w.
  - rewrite flips_S, ticks_S. cbn [flips ticks]. lia.
  - rewrite flips_S, IH, (flips_S j ms w), (ticks_S (Datatypes.S j)), (ticks_S j ms w). lia.
Qed.

Section BaselineRun.

Variables (w0 : World) (ms : Z) (k : nat).

Hypothesis Hrun : isRunning w0 = true.
Hypothesis Hbase : isRunningBaseline (comparisonData w0) = true.
Hypothesis Htimer : baselineTimer (comparisonData w0) == 0.
Hypothesis Hphase : baselinePhaseTimer (comparisonData w0) == 0.
Hypothesis Hdur : baselineDuration (comparisonData w0) == 60.
Hypothesis Hint : baselinePhaseInterval (comparisonData w0) == 30.
Hypothesis Hk : (0 < k)%nat.
Hypothesis Hdiv : Qnat k * tickSpan ms (timeScale w0) == 30.
Hypothesis Hexact : exactUpTo (2 * k) (tickSpan ms (timeScale w0)).

Local Abbreviation d := (tickSpan ms (timeScale w0)).

  (** A timer that reads [j] spans reads [j + 1] spans after the next
      addition: no rounding occurs. *)
Lemma add64_span t j :
    (j < 2 * k)%nat -> t == Qnat j * d -> add64 t d == Qnat (Datatypes.S j) * d.
Proof.
  intros Hj Ht. unfold add64.
  rewrite (round64_comp (t + d) (Qnat (Datatypes.S j) * d)) by (rewrite Ht, Qnat_S; ring).
  apply Hexact. lia.
Qed.

  (** After [j < 2k] ticks the run is still active, its timer shows [j]
      spans, its phase timer the spans since the last flip, and GREEN
      is on the other side from the [k]-th tick on. *)
Lemma baseline_invariant j :
    (j < 2 * k)%nat ->
    let w := ticks j ms w0 in
    let r := if (j <? k)%nat then j else (j - k)%nat in
    isRunning w = true /\ timeScale w = timeScale w0 /\
    baselineDuration (comparisonData w) = baselineDuration (comparisonData w0) /\
    baselinePhaseInterval (comparisonData w) = baselinePhaseInterval (comparisonData w0) /\
    isRunningBaseline (comparisonData w) = true /\
    baselineTimer (comparisonData w) == Qnat j * d /\
    baselinePhaseTimer (comparisonData w) == Qnat r * d /\
    currentPhase w = (if (j <? k)%nat then currentPhase w0 else other (currentPhase w0)).
Proof.
  pose proof (period_positive k d Hk Hdiv) as Hd.
  induction j as [|j IH]; intros Hj; cbv zeta.
  - simpl ticks. destruct (Nat.ltb_spec 0 k) as [_|?]; [|lia].
    repeat split; try assumption; try reflexivity.
    + rewrite Htimer. unfold Qnat. simpl. ring.
    + rewrite Hphase. unfold Qnat. simpl. ring.
  - destruct IH as (I1 & I2 & I3 & I4 & I5 & I6 & I7 & I8); [lia|].
    rewrite ticks_S_r.
    destruct (tickNext_baseline ms (ticks j ms w0) I1 I5)
      as (E1 & E2 & E3 & E4 & E5 & E6 & E7 & E8).
    rewrite I2, I3, I4 in *.
    set (r := if (j <? k)%nat then j else (j - k)%nat) in *.
    assert (Hr : (r < 2 * k)%nat) by (subst r; destruct (j <? k)%nat; lia).
    pose proof (add64_span _ j ltac:(lia) I6) as HT.
    pose proof (add64_span _ r Hr I7) as HP.
    assert (Hend : Qle_bool (baselineDuration (comparisonData w0))
                     (add64 (baselineTimer (comparisonData (ticks j ms w0))) d) = false).
    { rewrite HT, Hdur, <- (two_periods k d Hdiv).
      rewrite Qnat_scaled_le by exact Hd. apply bool_decide_eq_false. lia. }
    assert (Hflip : Qle_bool (baselinePhaseInterval (comparisonData w0))
                      (add64 (baselinePhaseTimer (comparisonData (ticks j ms w0))) d)
                    = bool_decide (k <= Datatypes.S r)%nat).
    { rewrite HP, Hint, <- Hdiv. apply Qnat_scaled_le, Hd. }
    rewrite Hend in E8. rewrite Hflip in E6, E7.
    split; [exact E1|]. split; [exact E2|]. split; [exact E3|]. split; [exact E4|].
    split; [exact E8|]. split; [rewrite E5; exact HT|].
    unfold currentPhase in *. rewrite E6, E7. subst r.
    destruct (Nat.ltb_spec j k) as [Hjk|Hjk];
      destruct (Nat.ltb_spec (Datatypes.S j) k) as [Hsk|Hsk]; try lia.
    + rewrite bool_decide_eq_false_2 by lia. split; [exact HP | exact I8].
    + rewrite bool_decide_eq_true_2 by lia.
      replace (Datatypes.S j - k)%nat with 0%nat by lia.
      split; [unfold Qnat; simpl; ring|].
      rewrite baselineFlip_phase. now rewrite I8.
    + rewrite bool_decide_eq_false_2 by lia.
      replace (Datatypes.S j - k)%nat with (Datatypes.S (j - k)) by lia.
      split; [exact HP | exact I8].
Qed.

  (** The [2k]-th tick flips once more and ends the run. *)
Lemma baseline_last_tick :
    isRunningBaseline (comparisonData (ticks (2 * k) ms w0)) = false /\
    currentPhase (ticks (2 * k) ms w0) = currentPhase w0.
Proof.
  pose proof (period_positive k d Hk Hdiv) as Hd.
  pose proof (two_periods k d Hdiv) as H60.
  destruct (baseline_invariant (2 * k - 1)) as (I1 & I2 & I3 & I4 & I5 & I6 & I7 & I8); [lia|].
  destruct (Nat.ltb_spec (2 * k - 1) k) as [Hjk|Hjk]; [lia|].
  pose proof (add64_span _ (2 * k - 1) ltac:(lia) I6) as HT.
  pose proof (add64_span _ (2 * k - 1 - k) ltac:(lia) I7) as HP.
  remember (2 * k - 1)%nat as m eqn:Hm.
  assert (H2k : (2 * k)%nat = Datatypes.S m) by lia.
  assert (Hmk : Datatypes.S (m - k) = k) by lia.
  rewrite Hmk in HP.
  rewrite H2k in *. rewrite ticks_S_r.
  destruct (tickNext_baseline ms (ticks m ms w0) I1 I5)
    as (E1 & E2 & E3 & E4 & E5 & E6 & E7 & E8).
  rewrite I2, I3, I4 in *.
  assert (Hend : Qle_bool (baselineDuration (comparisonData w0))
                   (add64 (baselineTimer (comparisonData (ticks m ms w0))) d) = true)
    by (rewrite HT, Hdur, H60; reflexivity).
  assert (Hflip : Qle_bool (baselinePhaseInterval (comparisonData w0))
                    (add64 (baselinePhaseTimer (comparisonData (ticks m ms w0))) d) = true).
  { rewrite HP, Hint, <- Hdiv. apply Qle_bool_iff, Qle_refl. }
  rewrite Hend in E8. rewrite Hflip in E7.
  split; [exact E8|].
  unfold currentPhase in *. rewrite E7, baselineFlip_phase, I8.
  destruct (if isGreen (NS (signals w0)) then axNS else axEW); reflexivity.
Qed.

Lemma baseline_flips_before j :
    (j < 2 * k)%nat -> flips j ms w0 = if (j <? k)%nat then 0%nat else 1%nat.
Proof.
  induction j as [|j IH]; intros Hj.
  - simpl. destruct (Nat.ltb_spec 0 k); [reflexivity | lia].
  - rewrite flips_S_r, IH by lia. unfold flipped.
    destruct (baseline_invariant j) as (_ & _ & _ & _ & _ & _ & _ & ->); [lia|].
    destruct (baseline_invariant (Datatypes.S j)) as (_ & _ & _ & _ & _ & _ & _ & H); [lia|].
    rewrite H.
    destruct (Nat.ltb_spec j k), (Nat.ltb_spec (Datatypes.S j) k); try lia.
    + rewrite bool_decide_eq_true_2 by reflexivity. reflexivity.
    + rewrite bool_decide_eq_false_2 by (destruct (currentPhase w0); discriminate).
      reflexivity.
    + rewrite bool_decide_eq_true_2 by reflexivity. reflexivity.
Qed.

Lemma baseline_flips_total : flips (2 * k) ms w0 = 2%nat.
Proof.
  destruct baseline_last_tick as [_ Hlast].
  destruct (baseline_invariant (2 * k - 1)) as (_ & _ & _ & _ & _ & _ & _ & Hph); [lia|].
  pose proof (baseline_flips_before (2 * k - 1)) as Hf.
  remember (2 * k - 1)%nat as m eqn:Hm.
  assert (H2k : (2 * k)%nat = Datatypes.S m) by lia.
  rewrite H2k in *. rewrite flips_S_r, Hf by lia.
  destruct (Nat.ltb_spec m k); [lia|].
  unfold flipped. rewrite Hlast, Hph.
  rewrite bool_decide_eq_false_2 by (destruct (currentPhase w0); discriminate).
  reflexivity.
Qed.

End BaselineRun.

(** C5 (corrected): when the span the code adds per tick, the binary64
    product [dt * timeScale], divides 30 s evenly ([k] ticks per phase)
    and the timer readings up to 60 s are binary64 numbers, so that no
    addition rounds, a 60 s baseline run lasts exactly [2k] ticks and
    flips the phase exactly twice: no flip before the [k]-th tick, one
    flip from the [k]-th tick (30 s) on, and a second flip in the [2k]-th
    tick (60 s), the very tick that ends the run, because the phase timer
    is tested before the end of the run is. *)
Theorem C5_baseline_two_flips w ms k :
  isRunning w = true ->
  isRunningBaseline (comparisonData w) = false ->
  baselineDuration (comparisonData w) == 60 ->
  baselinePhaseInterval (comparisonData w) == 30 ->
  (0 < k)%nat ->
  Qnat k * tickSpan ms (timeScale w) == 30 ->
  exactUpTo (2 * k) (tickSpan ms (timeScale w)) ->
  let w0 := startBaseline w in
  (forall j, (j < 2 * k)%nat -> isRunningBaseline (comparisonData (ticks j ms w0)) = true) /\
  isRunningBaseline (comparisonData (ticks (2 * k) ms w0)) = false /\
  (forall j, (j < k)%nat -> flips j ms w0 = 0%nat) /\
  (forall j, (k <= j < 2 * k)%nat -> flips j ms w0 = 1%nat) /\
  flips (2 * k) ms w0 = 2%nat.
Proof.
  intros Hr Hb Hdur Hint Hk Hdiv Hex. cbv zeta.
  assert (E : startBaseline w =
              set_signals {| NS := GREEN; EW := RED |}
                (set_isAIEnabled false
                   (set_comparisonData
                      {| baseline := baseline (comparisonData w);
                         aiRecord := aiRecord (comparisonData w);
                         isRunningBaseline := true; baselineTimer := 0;
                         baselineDuration := baselineDuration (comparisonData w);
                         baselinePhaseTimer := 0;
                         baselinePhaseInterval := baselinePhaseInterval (comparisonData w) |}
                      (set_traffic (vehicles w) (clearMetrics (metrics w)) 0 (simElapsedTime w)
                         (set_emissionsTotal noEmission w)))))
    by (unfold startBaseline; rewrite Hb; reflexivity).
  assert (H0 : isRunning (startBaseline w) = true /\
               isRunningBaseline (comparisonData (startBaseline w)) = true /\
               baselineTimer (comparisonData (startBaseline w)) == 0 /\
               baselinePhaseTimer (comparisonData (startBaseline w)) == 0 /\
               baselineDuration (comparisonData (startBaseline w)) == 60 /\
               baselinePhaseInterval (comparisonData (startBaseline w)) == 30 /\
               timeScale (startBaseline w) = timeScale w).
  { rewrite E. simpl. repeat split; try assumption; reflexivity. }
  destruct H0 as (S1 & S2 & S3 & S4 & S5 & S6 & S7).
  rewrite <- S7 in Hdiv, Hex.
  split; [|split; [|split; [|split]]].
  - intros j Hj.
    now destruct (baseline_invariant (startBaseline w) ms k S1 S2 S3 S4 S5 S6 Hk Hdiv Hex j Hj)
      as (_ & _ & _ & _ & H & _).
  - now destruct (baseline_last_tick (startBaseline w) ms k S1 S2 S3 S4 S5 S6 Hk Hdiv Hex).
  - intros j Hj.
    rewrite (baseline_flips_before (startBaseline w) ms k S1 S2 S3 S4 S5 S6 Hk Hdiv Hex) by lia.
    destruct (Nat.ltb_spec j k); [reflexivity | lia].
  - intros j Hj.
    rewrite (baseline_flips_before (startBaseline w) ms k S1 S2 S3 S4 S5 S6 Hk Hdiv Hex) by lia.
    destruct (Nat.ltb_spec j k); [lia | reflexivity].
  - exact (baseline_flips_total (startBaseline w) ms k S1 S2 S3 S4 S5 S6 Hk Hdiv Hex).
Qed.

Lemma C5_witness :
  let w0 := startBaseline started in
  (forall j, (j < 2 * 60)%nat -> isRunningBaseline (comparisonData (ticks j 500 w0)) = true) /\
  isRunningBaseline (comparisonData (ticks (2 * 60) 500 w0)) = false /\
  (forall j, (j < 60)%nat -> flips j 500 w0 = 0%nat) /\
  (forall j, (60 <= j < 2 * 60)%nat -> flips j 500 w0 = 1%nat) /\
  flips (2 * 60) 500 w0 = 2%nat.
Proof.
  apply (C5_baseline_two_flips started 500 60);
    first [reflexivity | lia | apply exactUpTob_spec; vm_compute; reflexivity].
Defined.

(** C5, as stated, fails: with the controller's own 500 ms tick at speed 1
    the run is still active after 119 ticks, over after 120, and the phase
    has flipped twice, at 30 s and at 60 s. *)
Lemma C5_counterexample :
  let w0 := startBaseline started in
  isRunningBaseline (comparisonData (ticks 119 500 w0)) = true /\
  isRunningBaseline (comparisonData (ticks 120 500 w0)) = false /\
  flips 120 500 w0 = 2%nat /\
  flips 120 500 w0 <> 1%nat.
Proof.
  cbv zeta. assert (H : flips 120 500 (startBaseline started) = 2%nat) by (vm_compute; reflexivity).
  rewrite H. repeat split; try discriminate; vm_compute; reflexivity.
Qed.

(** The rounding of the model is the machine's: quotients, products and
    sums agree with the primitive binary64 operations, and so do the
    readings of the baseline timer during a run with 1200 ms ticks. *)
Example round64_is_binary64 :
  float2Q (1200 / 1000)%float = Some (round64 (1200 # 1000)) /\
  float2Q (500 / 1000 * 0.3)%float = Some (tickSpan 500 (3 # 10)) /\
  float2Q (0.1 + 0.2)%float = Some (add64 (round64 (1 # 10)) (round64 (2 # 10))) /\
  float2Q (1 / 3 * -7)%float = Some (mul64 (round64 (1 # 3)) (-7)) /\
  float2Q 9007199254740993%float = Some (round64 9007199254740993) /\
  timerReadings64 49 (1200 / 1000 * 1) 0 =
  map Some (timerReadings 49 1200 (startBaseline started)).
Proof. repeat split; vm_compute; reflexivity. Qed.

(** Where the readings are not binary64 numbers the rounding decides. With
    1200 ms ticks, 25 to the phase in exact arithmetic, the phase timer
    reads a little less than 30 after 25 ticks: the first flip comes with
    the 26th tick and the run, over with the 50th, flips once. With 300 ms
    ticks the run is not over after 200 ticks and goes on for one more. *)
Example baseline_rounding_examples :
  let slow := startBaseline started in
  ~ Qnat 25 * tickSpan 1200 (timeScale slow) == 30 /\
  baselinePhaseTimer (comparisonData (ticks 25 1200 slow)) < 30 /\
  flips 25 1200 slow = 0%nat /\ flips 26 1200 slow = 1%nat /\
  isRunningBaseline (comparisonData (ticks 49 1200 slow)) = true /\
  isRunningBaseline (comparisonData (ticks 50 1200 slow)) = false /\
  flips 50 1200 slow = 1%nat /\
  isRunningBaseline (comparisonData (ticks 200 300 slow)) = true /\
  isRunningBaseline (comparisonData (ticks 201 300 slow)) = false.
Proof. cbv zeta. repeat split; vm_compute; first [reflexivity | discriminate]. Qed.

(** ** The Q-learning update *)

Lemma entryOf_touch (qt : gmap string QEntry) x y : entryOf (touch qt x) y = entryOf qt y.
Proof.
  unfold touch, entryOf. destruct (qt !! x) eqn:Hx; [reflexivity|].
  destruct (decide (x = y)) as [<-|Hne].
  - now rewrite lookup_insert_eq, Hx.
  - now rewrite lookup_insert_ne.
Qed.

Lemma entryOf_setQValue (qt : gmap string QEntry) x a v :
  entryGet (entryOf (setQValue qt x a v) x) a = v.
Proof.
  unfold setQValue, entryOf at 1. rewrite lookup_insert_eq. simpl.
  destruct a; reflexivity.
Qed.

Lemma conclude_learning k a w :
  learningState (conclude k a w) =
  (qTable w, Math_max Q_CONFIG.epsilonMin (currentEpsilon w * Q_CONFIG.epsilonDecay),
   totalReward (ai w), Some k, Some a).
Proof.
  unfold conclude. cbv zeta. destruct a; [reflexivity|].
  rewrite performSwitch_learning. reflexivity.
Qed.

Lemma chooseAction_entryOf r1 r2 k w x :
  entryOf (qTable (snd (chooseAction r1 r2 k w))) x = entryOf (qTable w) x /\
  totalReward (ai (snd (chooseAction r1 r2 k w))) = totalReward (ai w).
Proof.
  unfold chooseAction. destruct (Qltb r1 _); [auto|].
  unfold getBestAction, getQValue. simpl. now rewrite !entryOf_touch.
Qed.

(** What crediting the previous pair writes and adds. *)
Lemma creditPrevious_value k rw w pk pa :
  prevStateKey (ai w) = Some pk -> prevAction (ai w) = Some pa ->
  let oldQ := entryGet (entryOf (qTable w) pk) pa in
  let bestFuture := Math_max (entryGet (entryOf (qTable w) k) KEEP)
                             (entryGet (entryOf (qTable w) k) SWITCH) in
  entryGet (entryOf (qTable (creditPrevious k rw w)) pk) pa =
    oldQ + Q_CONFIG.alpha * (rw + Q_CONFIG.gamma * bestFuture - oldQ) /\
  totalReward (ai (creditPrevious k rw w)) = totalReward (ai w) + rw.
Proof.
  intros Hk Ha. cbv zeta. unfold creditPrevious. rewrite Hk, Ha.
  unfold getQValue. cbv zeta. simpl qTable. simpl totalReward.
  rewrite entryOf_setQValue, !entryOf_touch. split; reflexivity.
Qed.

(** C6: on a learned tick with ten vehicles waiting and a fairness bonus of
    -0.5 the reward is -10.5, and if the pending pair has Q-value 0 and the
    best value of the observed state is 2, the update writes
    0 + 0.15 * (-10.5 + 0.9 * 2 - 0) = -1.305 for the pending pair and adds
    the reward to the total; evaluated in binary64 the same expression is
    the double written -1.305. *)
Theorem C6_q_update_value now r1 r2 w a pk pa :
  fst (update now r1 r2 w) = Learned a ->
  prevStateKey (ai w) = Some pk -> prevAction (ai w) = Some pa ->
  Qnat (q_NS (getQueues (vehicles w)) + q_EW (getQueues (vehicles w))) == 10 ->
  - Qabs (maxRedNS w - maxRedEW w) * (1 # 10) == - (1 # 2) ->
  entryGet (entryOf (qTable w) pk) pa == 0 ->
  Math_max (entryGet (entryOf (qTable w) (observedKey w)) KEEP)
           (entryGet (entryOf (qTable w) (observedKey w)) SWITCH) == 2 ->
  let w' := snd (update now r1 r2 w) in
  rewardOf w == - (105 # 10) /\
  entryGet (entryOf (qTable w') pk) pa == - (1305 # 1000) /\
  totalReward (ai w') == totalReward (ai w) - (105 # 10) /\
  newQ64 0 (reward64 10 (-0.5)) 2 0.15 0.9 = (-1.305)%float.
Proof.
  intros Hp Hk Ha Hwait Hfair Hold Hbest. cbv zeta.
  assert (Hrw : rewardOf w == - (105 # 10)).
  { unfold rewardOf. cbv zeta. rewrite Hwait, Hfair. reflexivity. }
  split; [exact Hrw|].
  destruct (update_cases now r1 r2 w) as [E|[Hd [E|[E|[E|E]]]]];
    rewrite E in *; simpl in Hp; try discriminate. clear Hp. simpl snd.
  pose proof (conclude_learning (observedKey w) (fst (afterChoice r1 r2 w))
                (snd (afterChoice r1 r2 w))) as Hc.
  unfold learningState in Hc. injection Hc as Hq _ Ht _ _.
  rewrite Hq, Ht. unfold afterChoice.
  destruct (chooseAction_entryOf r1 r2 (observedKey w)
              (creditPrevious (observedKey w) (rewardOf w) w) pk) as [-> ->].
  destruct (creditPrevious_value (observedKey w) (rewardOf w) w pk pa Hk Ha) as [-> ->].
  rewrite Hold, Hbest, Hrw. repeat split; reflexivity.
Qed.

Lemma C6_witness :
  let w' := snd (update 8000 (1 # 2) 0 creditScenario) in
  rewardOf creditScenario == - (105 # 10) /\
  entryGet (entryOf (qTable w') "0_0_0"%string) KEEP == - (1305 # 1000) /\
  totalReward (ai w') == totalReward (ai creditScenario) - (105 # 10) /\
  newQ64 0 (reward64 10 (-0.5)) 2 0.15 0.9 = (-1.305)%float.
Proof.
  apply (C6_q_update_value 8000 (1 # 2) 0 creditScenario SWITCH "0_0_0"%string KEEP);
    vm_compute; reflexivity.
Defined.

(** ** The key set of the Q-table *)

Lemma discretize_lt5 v bins : length bins = 5%nat -> (discretize v bins < 5)%nat.
Proof.
  intros H. unfold discretize. pose proof (discretize_loop_le (length bins) v bins). lia.
Qed.

Lemma getStateKey_isStateKey qNS qEW maxRed : isStateKey (getStateKey qNS qEW maxRed).
Proof.
  unfold getStateKey. cbv zeta. eexists _, _, _. split; [|reflexivity].
  repeat split; apply discretize_lt5; reflexivity.
Qed.

Lemma isStateKey_all key : isStateKey key -> key ∈ allStateKeys.
Proof.
  intros (a & b & c & (Ha & Hb & Hc) & ->).
  unfold allStateKeys, allStateKeyList. apply elem_of_list_to_set.
  apply list_elem_of_bind. exists a. split; [|apply elem_of_seq; lia].
  apply list_elem_of_bind. exists b. split; [|apply elem_of_seq; lia].
  apply list_elem_of_bind. exists c. split; [|apply elem_of_seq; lia].
  apply list_elem_of_singleton. reflexivity.
Qed.

Lemma size_list_to_set_le (l : list string) :
  (size (list_to_set l : gset string) <= length l)%nat.
Proof.
  induction l as [|x l IH].
  - rewrite list_to_set_nil, size_empty. simpl. lia.
  - rewrite list_to_set_cons, size_union_alt, size_singleton. simpl length.
    assert (H : (list_to_set l : gset string) ∖ {[x]} ⊆ list_to_set l)
      by (apply subseteq_difference_l; reflexivity).
    apply subseteq_size in H. lia.
Qed.

Lemma allStateKeys_size : (size allStateKeys <= 125)%nat.
Proof.
  unfold allStateKeys. etransitivity; [apply size_list_to_set_le|].
  apply Nat.eq_le_incl. vm_compute. reflexivity.
Qed.

Lemma touch_keys (qt : gmap string QEntry) x key :
  is_Some (touch qt x !! key) -> is_Some (qt !! key) \/ key = x.
Proof.
  unfold touch. destruct (qt !! x) eqn:Hx; [auto|].
  destruct (decide (x = key)) as [->|Hne]; [auto|].
  rewrite lookup_insert_ne by exact Hne. auto.
Qed.

Lemma setQValue_keys (qt : gmap string QEntry) x a v key :
  is_Some (setQValue qt x a v !! key) -> is_Some (qt !! key) \/ key = x.
Proof.
  unfold setQValue. cbv zeta. destruct (decide (x = key)) as [->|Hne]; [auto|].
  rewrite lookup_insert_ne by exact Hne. apply touch_keys.
Qed.

Lemma creditPrevious_keys k rw w :
  keysOk w -> isStateKey k ->
  (forall key, is_Some (qTable (creditPrevious k rw w) !! key) -> isStateKey key) /\
  prevStateKey (ai (creditPrevious k rw w)) = prevStateKey (ai w).
Proof.
  intros [Hq Hp] Hk. unfold creditPrevious.
  destruct (prevStateKey (ai w)) as [pk|] eqn:Epk; [|auto].
  destruct (prevAction (ai w)) as [pa|]; [|rewrite Epk; auto].
  unfold getQValue. cbv zeta. simpl. split; [|exact Epk].
  assert (Hpk : isStateKey pk) by now apply Hp.
  intros key H.
  apply setQValue_keys in H as [H| ->]; [|exact Hpk].
  apply touch_keys in H as [H| ->]; [|exact Hk].
  apply touch_keys in H as [H| ->]; [|exact Hk].
  apply touch_keys in H as [H| ->]; [|exact Hpk].
  now apply Hq.
Qed.

Lemma chooseAction_keys r1 r2 k w :
  (forall key, is_Some (qTable w !! key) -> isStateKey key) -> isStateKey k ->
  (forall key, is_Some (qTable (snd (chooseAction r1 r2 k w)) !! key) -> isStateKey key).
Proof.
  intros Hq Hk. unfold chooseAction. destruct (Qltb r1 _); [exact Hq|].
  unfold getBestAction, getQValue. simpl. intros key H.
  apply touch_keys in H as [H| ->]; [|exact Hk].
  apply touch_keys in H as [H| ->]; [|exact Hk].
  now apply Hq.
Qed.

Lemma update_keys now r1 r2 w : keysOk w -> keysOk (snd (update now r1 r2 w)).
Proof.
  intros Hok.
  assert (Hsame : forall w', learningState w' = learningState w -> keysOk w').
  { intros w' H. unfold learningState in H. injection H as Hq _ _ Hk _.
    unfold keysOk. rewrite Hq, Hk. exact Hok. }
  destruct (update_cases now r1 r2 w) as [E|[Hd [E|[E|[E|E]]]]]; rewrite E; simpl snd.
  - exact Hok.
  - apply Hsame, starved_effect, Hd.
  - exact Hok.
  - apply Hsame, performSwitch_learning.
  - pose proof (conclude_learning (observedKey w) (fst (afterChoice r1 r2 w))
                  (snd (afterChoice r1 r2 w))) as Hc.
    unfold learningState in Hc. injection Hc as Hq _ _ Hk _.
    assert (Hobs : isStateKey (observedKey w)) by apply getStateKey_isStateKey.
    unfold keysOk. rewrite Hq, Hk. split.
    + unfold afterChoice. apply chooseAction_keys; [|exact Hobs].
      now apply creditPrevious_keys.
    + intros pk [= <-]. exact Hobs.
Qed.

Lemma tick_learning now w :
  qTable (tick now w) = qTable w /\ prevStateKey (ai (tick now w)) = prevStateKey (ai w).
Proof.
  unfold tick, baselineTick. cbv zeta.
  repeat match goal with |- context [if ?b then _ else _] => destruct b end;
    split; reflexivity.
Qed.

Lemma step_keys e w : keysOk w -> keysOk (step e w).
Proof.
  intros Hok.
  assert (Hsame : forall w', qTable w' = qTable w ->
                             prevStateKey (ai w') = prevStateKey (ai w) -> keysOk w').
  { intros w' Hq Hk. unfold keysOk. rewrite Hq, Hk. exact Hok. }
  destruct e; simpl; try (apply Hsame; reflexivity).
  - apply Hsame; apply tick_learning.
  - now apply update_keys.
  - unfold performSwitch_resume. destruct (pendingSwitch w); apply Hsame; reflexivity.
  - unfold recordAIMetrics. destruct (pendingRecord w); apply Hsame; reflexivity.
  - unfold btnNS_onclick. destruct (isAIEnabled w); [apply Hsame; reflexivity|].
    destruct (negb (isGreen _)); apply Hsame; reflexivity.
  - unfold btnEW_onclick. destruct (isAIEnabled w); [apply Hsame; reflexivity|].
    destruct (negb (isGreen _)); apply Hsame; reflexivity.
  - unfold btnBaseline_onclick, startBaseline.
    destruct (negb (isRunning w)); destruct (isRunningBaseline _); apply Hsame; reflexivity.
Qed.

Lemma reachable_keysOk w : reachable w -> keysOk w.
Proof.
  induction 1 as [tSim tSwitch tTick|e w Hw IH].
  - split; [|discriminate]. intros key [x Hx]. simpl in Hx.
    rewrite lookup_empty in Hx. discriminate.
  - now apply step_keys.
Qed.

(** C8: in every reachable state the Q-table has at most 125 keys; every
    key in it, and the pending key, was produced by [getStateKey] and is
    made of three bin indices between 0 and 4. *)
Theorem C8_qtable_at_most_125_keys w :
  reachable w ->
  (size (qTable w) <= 125)%nat /\
  (forall key, is_Some (qTable w !! key) -> isStateKey key) /\
  (forall pk, prevStateKey (ai w) = Some pk -> isStateKey pk).
Proof.
  intros Hr. destruct (reachable_keysOk w Hr) as [Hq Hp].
  split; [|split; assumption].
  rewrite <- size_dom. etransitivity; [|apply allStateKeys_size].
  apply subseteq_size. intros key Hin. apply isStateKey_all, Hq.
  now apply elem_of_dom.
Qed.

Lemma C8_witness :
  (size (qTable learnedOnce) <= 125)%nat /\
  (forall key, is_Some (qTable learnedOnce !! key) -> isStateKey key) /\
  (forall pk, prevStateKey (ai learnedOnce) = Some pk -> isStateKey pk).
Proof. apply C8_qtable_at_most_125_keys. apply reachable_run. constructor. Defined.

(** The table of [learnedOnce] holds the one key observed so far. *)
Example learnedOnce_table :
  size (qTable learnedOnce) = 1%nat /\ is_Some (qTable learnedOnce !! "0_0_1"%string).
Proof. split; [vm_compute; reflexivity | vm_compute; eauto]. Qed.

(** * Further properties of the controller *)

(** ** Queues, emissions and lane tracking *)

Lemma Math_max_l x y : x <= Math_max x y.
Proof.
  unfold Math_max. destruct (Qle_bool x y) eqn:H.
  - now apply Qle_bool_iff.
  - apply Qle_refl.
Qed.

Lemma Math_max_r x y : y <= Math_max x y.
Proof.
  unfold Math_max. destruct (Qle_bool x y) eqn:H.
  - apply Qle_refl.
  - apply Qlt_le_weak, Qnot_le_lt. intros Hle.
    apply Qle_bool_iff in Hle. congruence.
Qed.

Lemma Math_max_lub x y z : x <= z -> y <= z -> Math_max x y <= z.
Proof. intros Hx Hy. unfold Math_max. destruct (Qle_bool x y); assumption. Qed.

Lemma getQueues_fold d vs q :
  queueOf d (fold_left (fun q v => if waiting v then bump (origin v) q else q) vs q) =
  (queueOf d q + waitingOn d vs)%nat.
Proof.
  revert q. induction vs as [|v vs IH]; intros q; unfold waitingOn in *; simpl.
  - lia.
  - rewrite IH. destruct (waiting v); simpl; [|reflexivity].
    destruct (origin v), d; simpl; lia.
Qed.

(** X1: [getQueues] counts, per approach, exactly the vehicles whose
    [waiting] flag is set, whether they are active or not; the NS and EW
    queues are the sums of their two approaches. *)
Theorem X1_getQueues_counts_waiting vs :
  (forall d, queueOf d (getQueues vs) = waitingOn d vs) /\
  q_NS (getQueues vs) = (waitingOn dirN vs + waitingOn dirS vs)%nat /\
  q_EW (getQueues vs) = (waitingOn dirE vs + waitingOn dirW vs)%nat.
Proof.
  assert (H : forall d, queueOf d (getQueues vs) = waitingOn d vs).
  { intros d. unfold getQueues. rewrite getQueues_fold. destruct d; reflexivity. }
  split; [exact H|]. unfold q_NS, q_EW.
  rewrite <- (H dirN), <- (H dirS), <- (H dirE), <- (H dirW). split; reflexivity.
Qed.

Lemma emit_fold dt ts vs acc :
  co2 (fold_left (emit dt ts) vs acc) == co2 acc + fleetRate co2 vs * dt * ts /\
  fuel (fold_left (emit dt ts) vs acc) == fuel acc + fleetRate fuel vs * dt * ts /\
  nox (fold_left (emit dt ts) vs acc) == nox acc + fleetRate nox vs * dt * ts.
Proof.
  revert acc. induction vs as [|v vs IH]; intros acc.
  - unfold fleetRate, idleCount, movingCount, Qnat. simpl. repeat split; ring.
  - simpl fold_left. destruct (IH (emit dt ts acc v)) as (H1 & H2 & H3).
    rewrite H1, H2, H3. clear IH H1 H2 H3.
    unfold fleetRate, idleCount, movingCount, emit. simpl List.filter.
    destruct (active v), (waiting v); simpl negb; simpl andb; cbv iota;
      simpl length; rewrite ?Qnat_S; simpl co2; simpl fuel; simpl nox;
      repeat split; ring.
Qed.

Lemma tick_emissionsTotal now w :
  isRunning w = true -> sameWindow now w ->
  emissionsTotal (tick now w) =
  let tickE := fold_left (emit (tickDt now w) (timeScale w)) (vehicles w) noEmission in
  {| co2 := co2 (emissionsTotal w) + co2 tickE;
     fuel := fuel (emissionsTotal w) + fuel tickE;
     nox := nox (emissionsTotal w) + nox tickE |}.
Proof.
  unfold sameWindow, tick, baselineTick, tickDt. intros Hr. rewrite Hr. simpl negb. cbv iota zeta.
  simpl isRunningBaseline.
  destruct (isRunningBaseline (comparisonData w)) eqn:Hb; [|reflexivity].
  simpl comparisonData. simpl baselineDuration.
  destruct (Qle_bool (baselinePhaseInterval (comparisonData w)) _);
    simpl comparisonData; simpl baselineDuration; simpl baselineTimer;
    destruct (Qle_bool (baselineDuration (comparisonData w)) _);
    simpl; intros H; first [discriminate H | reflexivity].
Qed.

(** X2: a tick of the running simulation that does not close a measurement
    window adds to each accumulator (CO2, fuel, NOx) the idle rate for
    every active waiting vehicle plus the moving rate for every other
    active vehicle, times the elapsed seconds times the time scale;
    inactive vehicles add nothing. *)
Theorem X2_tick_accumulates_emissions now w :
  isRunning w = true -> sameWindow now w ->
  let e := emissionsTotal w in
  let e' := emissionsTotal (tick now w) in
  let span := tickDt now w * timeScale w in
  co2 e' == co2 e + fleetRate co2 (vehicles w) * span /\
  fuel e' == fuel e + fleetRate fuel (vehicles w) * span /\
  nox e' == nox e + fleetRate nox (vehicles w) * span.
Proof.
  intros Hr Hs. cbv zeta. rewrite (tick_emissionsTotal now w Hr Hs). cbv zeta. simpl.
  destruct (emit_fold (tickDt now w) (timeScale w) (vehicles w) noEmission) as (H1 & H2 & H3).
  rewrite H1, H2, H3. simpl. repeat split; ring.
Qed.

Lemma X2_witness :
  let w := twoVehicles in
  let e := emissionsTotal w in
  let e' := emissionsTotal (tick 2000 w) in
  let span := tickDt 2000 w * timeScale w in
  co2 e' == co2 e + fleetRate co2 (vehicles w) * span /\
  fuel e' == fuel e + fleetRate fuel (vehicles w) * span /\
  nox e' == nox e + fleetRate nox (vehicles w) * span.
Proof. apply (X2_tick_accumulates_emissions 2000 twoVehicles); reflexivity. Defined.

(** One idling and one moving vehicle emit 2.3 + 0.5 g of CO2 per second. *)
Example twoVehicles_co2 : co2 (emissionsTotal (tick 2000 twoVehicles)) == 56 # 10.
Proof. reflexivity. Qed.

Lemma tick_laneState now w :
  isRunning w = true ->
  laneState (tick now w) =
  let advanced := mapLanes (advanceRed (tickDt now w) (timeScale w) (signals w)) (laneState w) in
  let q := getQueues (vehicles w) in
  let maxQ := Math_max (Math_max (Math_max (Math_max 1 (Qnat (q_N q))) (Qnat (q_S q)))
                                 (Qnat (q_E q))) (Qnat (q_W q)) in
  mapLanes (prioritize q maxQ (Math_max 1 (maxRedAll advanced))) advanced.
Proof.
  unfold tick, baselineTick, tickDt. intros Hr. rewrite Hr. simpl negb. cbv iota zeta.
  repeat match goal with |- context [if ?b then _ else _] => destruct b end; reflexivity.
Qed.

(** X3: on a tick of the running simulation every lane whose axis shows
    GREEN gets red duration 0 and every other lane (RED or YELLOW) gains
    the elapsed seconds times the time scale, whether or not a baseline
    run is active or ends in that tick. *)
Theorem X3_tick_tracks_red_duration now w d :
  isRunning w = true ->
  redDuration (lane d (laneState (tick now w))) =
  if isGreen (sig (axisOf d) (signals w)) then 0
  else redDuration (lane d (laneState w)) + tickDt now w * timeScale w.
Proof.
  intros Hr. rewrite (tick_laneState now w Hr). cbv zeta.
  destruct d; simpl; unfold advanceRed; simpl;
    match goal with |- context [isGreen ?s] => destruct (isGreen s) end; reflexivity.
Qed.

Lemma X3_witness :
  redDuration (lane dirN (laneState (tick 2000 twoVehicles))) =
  if isGreen (sig (axisOf dirN) (signals twoVehicles)) then 0
  else redDuration (lane dirN (laneState twoVehicles)) + tickDt 2000 twoVehicles * timeScale twoVehicles.
Proof. apply (X3_tick_tracks_red_duration 2000 twoVehicles dirN). reflexivity. Defined.

Lemma unit_ratio a b : 0 <= a -> a <= b -> 0 < b -> 0 <= a / b /\ a / b <= 1.
Proof.
  intros Ha Hab Hb. split.
  - apply Qle_shift_div_l; [exact Hb|]. lra.
  - apply Qle_shift_div_r; [exact Hb|]. lra.
Qed.

Lemma Qnat_nonneg n : 0 <= Qnat n.
Proof. unfold Qnat. rewrite <- (Zle_Qle 0). lia. Qed.

Lemma maxRedAll_ge ls d : redDuration (lane d ls) <= maxRedAll ls.
Proof.
  unfold maxRedAll.
  pose proof (Math_max_l (redDuration (laneN ls)) (redDuration (laneS ls))).
  pose proof (Math_max_r (redDuration (laneN ls)) (redDuration (laneS ls))).
  pose proof (Math_max_l (Math_max (redDuration (laneN ls)) (redDuration (laneS ls)))
                         (redDuration (laneE ls))).
  pose proof (Math_max_r (Math_max (redDuration (laneN ls)) (redDuration (laneS ls)))
                         (redDuration (laneE ls))).
  pose proof (Math_max_l (Math_max (Math_max (redDuration (laneN ls)) (redDuration (laneS ls)))
                                   (redDuration (laneE ls))) (redDuration (laneW ls))).
  pose proof (Math_max_r (Math_max (Math_max (redDuration (laneN ls)) (redDuration (laneS ls)))
                                   (redDuration (laneE ls))) (redDuration (laneW ls))).
  destruct d; simpl; lra.
Qed.

Lemma prioritize_bounds q maxQ maxRed d l :
  1 <= maxQ -> Qnat (queueOf d q) <= maxQ ->
  0 <= redDuration l -> redDuration l <= Math_max maxRed 1 ->
  0 <= priority (prioritize q maxQ maxRed d l) /\ priority (prioritize q maxQ maxRed d l) <= 1.
Proof.
  intros H1 H2 H3 H4. unfold prioritize. simpl.
  destruct (unit_ratio (Qnat (queueOf d q)) maxQ (Qnat_nonneg _) H2) as [A1 A2]; [lra|].
  pose proof (Math_max_r maxRed 1) as Hm.
  destruct (unit_ratio (redDuration l) (Math_max maxRed 1) H3 H4) as [B1 B2]; [lra|].
  unfold FAIR_CONFIG.alpha, FAIR_CONFIG.beta. split; lra.
Qed.

(** X4: after a tick of the running simulation that measures a
    non-negative span, starting from non-negative red durations, every
    lane's red duration is non-negative and its fairness priority lies
    between 0 and 1. *)
Theorem X4_tick_priority_in_unit_interval now w d :
  isRunning w = true ->
  (forall d', 0 <= redDuration (lane d' (laneState w))) ->
  0 <= tickDt now w * timeScale w ->
  let l := lane d (laneState (tick now w)) in
  0 <= redDuration l /\ 0 <= priority l /\ priority l <= 1.
Proof.
  intros Hr Hred Hspan. cbv zeta.
  assert (Hadv : forall d', 0 <= redDuration (lane d'
                   (mapLanes (advanceRed (tickDt now w) (timeScale w) (signals w)) (laneState w)))).
  { intros d'. specialize (Hred d').
    destruct d'; simpl in *; unfold advanceRed;
      match goal with |- context [isGreen ?s] => destruct (isGreen s) end; simpl; lra. }
  rewrite (tick_laneState now w Hr). cbv zeta.
  set (adv := mapLanes (advanceRed (tickDt now w) (timeScale w) (signals w)) (laneState w)) in *.
  set (q := getQueues (vehicles w)).
  set (maxQ := Math_max (Math_max (Math_max (Math_max 1 (Qnat (q_N q))) (Qnat (q_S q)))
                                  (Qnat (q_E q))) (Qnat (q_W q))).
  assert (HmaxQ : 1 <= maxQ /\ forall d', Qnat (queueOf d' q) <= maxQ).
  { subst maxQ.
    pose proof (Math_max_l 1 (Qnat (q_N q))). pose proof (Math_max_r 1 (Qnat (q_N q))).
    pose proof (Math_max_l (Math_max 1 (Qnat (q_N q))) (Qnat (q_S q))).
    pose proof (Math_max_r (Math_max 1 (Qnat (q_N q))) (Qnat (q_S q))).
    pose proof (Math_max_l (Math_max (Math_max 1 (Qnat (q_N q))) (Qnat (q_S q))) (Qnat (q_E q))).
    pose proof (Math_max_r (Math_max (Math_max 1 (Qnat (q_N q))) (Qnat (q_S q))) (Qnat (q_E q))).
    pose proof (Math_max_l (Math_max (Math_max (Math_max 1 (Qnat (q_N q))) (Qnat (q_S q)))
                                     (Qnat (q_E q))) (Qnat (q_W q))).
    pose proof (Math_max_r (Math_max (Math_max (Math_max 1 (Qnat (q_N q))) (Qnat (q_S q)))
                                     (Qnat (q_E q))) (Qnat (q_W q))).
    split; [lra|]. intros d'. destruct d'; simpl; lra. }
  destruct HmaxQ as [HQ1 HQ2].
  assert (Hall : forall d', 0 <= priority (prioritize q maxQ (Math_max 1 (maxRedAll adv)) d' (lane d' adv))
                            /\ priority (prioritize q maxQ (Math_max 1 (maxRedAll adv)) d' (lane d' adv)) <= 1).
  { intros d'. apply prioritize_bounds; [exact HQ1 | apply HQ2 | apply Hadv |].
    pose proof (maxRedAll_ge adv d'). pose proof (Math_max_r 1 (maxRedAll adv)).
    pose proof (Math_max_l (Math_max 1 (maxRedAll adv)) 1). lra. }
  specialize (Hall d). specialize (Hadv d).
  destruct d; simpl in *; (split; [exact Hadv | exact Hall]).
Qed.

Lemma X4_witness :
  let l := lane dirN (laneState (tick 2000 twoVehicles)) in
  0 <= redDuration l /\ 0 <= priority l /\ priority l <= 1.
Proof.
  apply (X4_tick_priority_in_unit_interval 2000 twoVehicles dirN).
  - reflexivity.
  - intros []; vm_compute; discriminate.
  - vm_compute; discriminate.
Defined.

(** ** Pausing *)

(** X5: pausing does not stop the controller's clock. A tick that fires
    while the simulation is paused does nothing, not even note the time,
    so the first tick after the resume sees the whole pause as elapsed
    time: pause, tick, resume, tick is the same as the last tick alone. *)
Theorem X5_pause_is_charged_to_next_tick w t1 t2 :
  isRunning w = true ->
  tick t2 (btnPause_onclick (tick t1 (btnPause_onclick w))) = tick t2 w.
Proof.
  intros Hr.
  assert (H : btnPause_onclick (tick t1 (btnPause_onclick w)) = w).
  { unfold btnPause_onclick at 2. rewrite Hr. simpl negb.
    unfold tick. simpl. unfold btnPause_onclick. simpl.
    destruct w; simpl in *; subst; reflexivity. }
  now rewrite H.
Qed.

Lemma X5_witness :
  tick 9000 (btnPause_onclick (tick 5000 (btnPause_onclick twoVehicles))) = tick 9000 twoVehicles.
Proof. apply X5_pause_is_charged_to_next_tick. reflexivity. Defined.

(** The NS lanes of [twoVehicles], red since loading, show 9 s of red
    after a tick at 9 s even though the simulation was paused meanwhile. *)
Example pause_example :
  redDuration (laneN (laneState
     (tick 9000 (btnPause_onclick (tick 5000 (btnPause_onclick twoVehicles)))))) == 9.
Proof. reflexivity. Qed.

(** ** Green bounds *)



(** X7: once the maximum green is exceeded a decision tick always starts a
    switch, as a starvation override or as the max-green rotation: the
    guard is raised, the GREEN axis turns YELLOW, and the learning state
    is not touched. *)
Theorem X7_max_green_forces_switch now r1 r2 w :
  deciding w -> FAIR_CONFIG.maxGreen < elapsedSince now w ->
  let w' := snd (update now r1 r2 w) in
  (fst (update now r1 r2 w) = Starved \/ fst (update now r1 r2 w) = MaxGreenForced) /\
  switching (ai w') = true /\
  sig (currentPhase w) (signals w') = YELLOW /\
  pendingSwitch w' = Some (currentPhase w) /\
  learningState w' = learningState w.
Proof.
  intros Hd Hel. pose proof (update_deciding w Hd) as (G1 & G2 & G3).
  destruct Hd as (_ & _ & _ & Hsw).
  destruct (starved_effect w Hsw) as (_ & S2 & S3 & S4 & S5).
  assert (P : switching (ai (performSwitch w)) = true /\
              sig (currentPhase w) (signals (performSwitch w)) = YELLOW /\
              pendingSwitch (performSwitch w) = Some (currentPhase w) /\
              learningState (performSwitch w) = learningState w).
  { unfold performSwitch, currentPhase. rewrite Hsw. cbv zeta. simpl.
    destruct (isGreen (NS (signals w))); simpl; auto. }
  assert (H1 : Qltb (elapsedSince now w) FAIR_CONFIG.minGreen = false).
  { apply not_true_iff_false. intros H. apply Qltb_lt in H.
    unfold FAIR_CONFIG.minGreen, FAIR_CONFIG.maxGreen in *. lra. }
  assert (H2 : Qltb FAIR_CONFIG.maxGreen (elapsedSince now w) = true) by now apply Qltb_lt.
  cbv zeta. unfold update. rewrite G1, G2, G3. cbv zeta. fold (starved w).
  destruct (_ && _ && _); [simpl; auto|].
  destruct (_ && _ && _); [simpl; auto|].
  rewrite H1, H2. simpl. destruct P as (P1 & P2 & P3 & P4). auto.
Qed.

Lemma X7_witness :
  let w' := snd (update 61000 0 0 decidingWorld) in
  (fst (update 61000 0 0 decidingWorld) = Starved \/
   fst (update 61000 0 0 decidingWorld) = MaxGreenForced) /\
  switching (ai w') = true /\
  sig (currentPhase decidingWorld) (signals w') = YELLOW /\
  pendingSwitch w' = Some (currentPhase decidingWorld) /\
  learningState w' = learningState decidingWorld.
Proof.
  apply (X7_max_green_forces_switch 61000 0 0 decidingWorld).
  - repeat split; reflexivity.
  - reflexivity.
Defined.



(** ** What the callbacks leave alone *)

(** Apart from a decision tick and the continuation of a switch, a
    callback changes nothing of the controller but the time of the last
    tick. *)
Lemma baselineTick_frame dt w :
  qTable (baselineTick dt w) = qTable w /\
  currentEpsilon (baselineTick dt w) = currentEpsilon w /\
  pendingSwitch (baselineTick dt w) = pendingSwitch w /\
  ai (baselineTick dt w) = ai w.
Proof.
  unfold baselineTick. cbv zeta.
  repeat match goal with |- context [if ?b then _ else _] => destruct b end;
    repeat split; reflexivity.
Qed.

Lemma step_controller_frame e w :
  (exists now r1 r2, e = EvUpdate now r1 r2) \/
  (exists now, e = EvResume now) \/
  (qTable (step e w) = qTable w /\
   currentEpsilon (step e w) = currentEpsilon w /\
   pendingSwitch (step e w) = pendingSwitch w /\
   (ai (step e w) = ai w \/ exists now, ai (step e w) = set_lastTickTime now (ai w))).
Proof.
  destruct e; simpl; eauto 6; right; right.
  - unfold tick. destruct (negb (isRunning w)); [auto|]. cbv zeta.
    match goal with |- context [if ?b then _ else _] => destruct b end.
    + match goal with |- context [baselineTick ?dt ?x] =>
        destruct (baselineTick_frame dt x) as (-> & -> & -> & ->) end.
      repeat split; try reflexivity. right. eexists. reflexivity.
    + repeat split; try reflexivity. right. eexists. reflexivity.
  - unfold recordAIMetrics. destruct (pendingRecord w); auto.
  - auto.
  - auto.
  - auto.
  - auto.
  - unfold btnNS_onclick. destruct (isAIEnabled w); [auto|]. destruct (negb _); auto.
  - unfold btnEW_onclick. destruct (isAIEnabled w); [auto|]. destruct (negb _); auto.
  - auto.
  - unfold btnBaseline_onclick, startBaseline.
    destruct (negb (isRunning w)); destruct (isRunningBaseline _); auto.
  - auto.
Qed.

Lemma afterChoice_frame r1 r2 w :
  let w2 := snd (afterChoice r1 r2 w) in
  signals w2 = signals w /\ pendingSwitch w2 = pendingSwitch w /\
  currentEpsilon w2 = currentEpsilon w /\
  switching (ai w2) = switching (ai w) /\
  starvationEvents (ai w2) = starvationEvents (ai w) /\
  (totalReward (ai w2) = totalReward (ai w) \/
   totalReward (ai w2) = totalReward (ai w) + rewardOf w).
Proof.
  cbv zeta. unfold afterChoice.
  set (k := observedKey w). set (rw := rewardOf w).
  assert (Hc : let w1 := creditPrevious k rw w in
               signals w1 = signals w /\ pendingSwitch w1 = pendingSwitch w /\
               currentEpsilon w1 = currentEpsilon w /\
               switching (ai w1) = switching (ai w) /\
               starvationEvents (ai w1) = starvationEvents (ai w) /\
               (totalReward (ai w1) = totalReward (ai w) \/
                totalReward (ai w1) = totalReward (ai w) + rw)).
  { cbv zeta. unfold creditPrevious.
    destruct (prevStateKey (ai w)), (prevAction (ai w)); simpl; auto 10. }
  cbv zeta in Hc. unfold chooseAction.
  destruct (Qltb r1 _); [exact Hc|]. destruct (getBestAction _ _). exact Hc.
Qed.

(** ** The re-entrancy guard *)

Lemma performSwitch_guard w :
  switching (ai w) = false -> guardOk (performSwitch w) /\ switching (ai (performSwitch w)) = true.
Proof.
  intros H. unfold guardOk, performSwitch. rewrite H. cbv zeta.
  destruct (isGreen _); simpl; auto.
Qed.

Lemma step_guardOk e w : guardOk w -> guardOk (step e w).
Proof.
  intros Hg. destruct (step_controller_frame e w) as [(now & r1 & r2 & ->)|[(now & ->)|H]].
  - simpl. destruct (update_cases now r1 r2 w) as [E|[Hd [E|[E|[E|E]]]]]; rewrite E; simpl snd.
    + exact Hg.
    + destruct Hd as (_ & _ & _ & Hsw). unfold starved. now apply performSwitch_guard.
    + exact Hg.
    + destruct Hd as (_ & _ & _ & Hsw). now apply performSwitch_guard.
    + destruct Hd as (_ & _ & _ & Hsw).
      destruct (afterChoice_frame r1 r2 w) as (_ & F2 & _ & F4 & _).
      unfold conclude. cbv zeta. destruct (fst (afterChoice r1 r2 w)).
      * unfold guardOk in *. simpl. now rewrite F2, F4.
      * apply performSwitch_guard. simpl. congruence.
  - simpl. unfold guardOk, performSwitch_resume in *.
    destruct (pendingSwitch w) eqn:Hp; [reflexivity|]. now rewrite Hp.
  - destruct H as (_ & _ & Hp & [Ha|[now Ha]]); unfold guardOk in *; rewrite Hp, Ha; exact Hg.
Qed.

(** X9: at most one switch is ever in flight. In every reachable state the
    guard [switching] is raised exactly while a continuation of
    [performSwitch] is suspended in its clearance sleep; while it is raised
    a decision tick and a further [performSwitch] change nothing, and the
    continuation, when it runs, lowers it. *)
Theorem X9_guard_tracks_the_switch_in_flight w :
  reachable w ->
  guardOk w /\
  (switching (ai w) = true ->
   (forall now r1 r2, update now r1 r2 w = (NotRun, w)) /\
   performSwitch w = w /\
   (forall now, switching (ai (performSwitch_resume now w)) = false /\
                pendingSwitch (performSwitch_resume now w) = None)).
Proof.
  intros Hr.
  assert (Hg : guardOk w).
  { induction Hr as [tSim tSwitch tTick|e w Hw IH]; [reflexivity | now apply step_guardOk]. }
  split; [exact Hg|]. intros Hsw. split; [|split].
  - intros now r1 r2. unfold update. rewrite Hsw, orb_true_r. reflexivity.
  - unfold performSwitch. now rewrite Hsw.
  - intros now. unfold guardOk in Hg. rewrite Hsw in Hg. unfold performSwitch_resume.
    destruct (pendingSwitch w); [split; reflexivity | discriminate].
Qed.

Lemma X9_witness :
  guardOk (starved starvedNS) /\
  (switching (ai (starved starvedNS)) = true ->
   (forall now r1 r2, update now r1 r2 (starved starvedNS) = (NotRun, starved starvedNS)) /\
   performSwitch (starved starvedNS) = starved starvedNS /\
   (forall now, switching (ai (performSwitch_resume now (starved starvedNS))) = false /\
                pendingSwitch (performSwitch_resume now (starved starvedNS)) = None)).
Proof.
  apply (X9_guard_tracks_the_switch_in_flight (step (EvUpdate 121000 0 0) starvedNS)).
  apply reach_step, reachable_run. constructor.
Defined.

(** ** Exploration rate, rewards and Q-values *)

Lemma decay_bounds eps :
  Q_CONFIG.epsilonMin <= eps -> eps <= Q_CONFIG.epsilon ->
  let eps' := Math_max Q_CONFIG.epsilonMin (eps * Q_CONFIG.epsilonDecay) in
  Q_CONFIG.epsilonMin <= eps' /\ eps' <= eps.
Proof.
  intros H1 H2. cbv zeta. split; [apply Math_max_l|].
  apply Math_max_lub; [exact H1|].
  unfold Q_CONFIG.epsilonMin, Q_CONFIG.epsilonDecay in *. lra.
Qed.

(** Every callback leaves ε alone or, on a learned tick, decays it. *)
Lemma step_epsilon e w :
  currentEpsilon (step e w) = currentEpsilon w \/
  currentEpsilon (step e w) =
    Math_max Q_CONFIG.epsilonMin (currentEpsilon w * Q_CONFIG.epsilonDecay).
Proof.
  destruct (step_controller_frame e w) as [(now & r1 & r2 & ->)|[(now & ->)|H]].
  - simpl. destruct (update_cases now r1 r2 w) as [E|[Hd [E|[E|[E|E]]]]]; rewrite E; simpl snd.
    + auto.
    + left. destruct Hd as (_ & _ & _ & Hsw).
      destruct (starved_effect w Hsw) as (_ & _ & _ & _ & H). now injection H.
    + auto.
    + left. pose proof (performSwitch_learning w) as H. now injection H.
    + right. pose proof (conclude_learning (observedKey w) (fst (afterChoice r1 r2 w))
                           (snd (afterChoice r1 r2 w))) as H.
      injection H as _ H _ _ _. rewrite H.
      destruct (afterChoice_frame r1 r2 w) as (_ & _ & -> & _). reflexivity.
  - left. simpl. unfold performSwitch_resume. destruct (pendingSwitch w); reflexivity.
  - left. apply H.
Qed.

(** X10: in every reachable state the exploration rate lies between its
    floor 0.05 and its initial value 0.3, and no callback ever raises it:
    a reset or a new baseline run does not restore exploration. *)
Theorem X10_epsilon_bounded_and_decreasing w :
  reachable w ->
  Q_CONFIG.epsilonMin <= currentEpsilon w /\
  currentEpsilon w <= Q_CONFIG.epsilon /\
  (forall e, currentEpsilon (step e w) <= currentEpsilon w).
Proof.
  intros Hr.
  assert (Hb : Q_CONFIG.epsilonMin <= currentEpsilon w /\ currentEpsilon w <= Q_CONFIG.epsilon).
  { induction Hr as [tSim tSwitch tTick|e w Hw IH].
    - split; [discriminate | apply Qle_refl].
    - destruct IH as [I1 I2]. destruct (step_epsilon e w) as [-> | ->]; [auto|].
      destruct (decay_bounds (currentEpsilon w) I1 I2) as [D1 D2]. split; [exact D1 | lra]. }
  destruct Hb as [H1 H2]. split; [exact H1|]. split; [exact H2|].
  intros e. destruct (step_epsilon e w) as [-> | ->]; [apply Qle_refl|].
  now apply decay_bounds.
Qed.

Lemma X10_witness :
  Q_CONFIG.epsilonMin <= currentEpsilon learnedOnce /\
  currentEpsilon learnedOnce <= Q_CONFIG.epsilon /\
  (forall e, currentEpsilon (step e learnedOnce) <= currentEpsilon learnedOnce).
Proof. apply X10_epsilon_bounded_and_decreasing. apply reachable_run. constructor. Defined.

Lemma rewardOf_nonpos w : rewardOf w <= 0.
Proof.
  unfold rewardOf. cbv zeta.
  pose proof (Qnat_nonneg (q_NS (getQueues (vehicles w)) + q_EW (getQueues (vehicles w)))).
  pose proof (Qabs_nonneg (maxRedNS w - maxRedEW w)). lra.
Qed.

Lemma step_totalReward e w :
  totalReward (ai (step e w)) = totalReward (ai w) \/
  totalReward (ai (step e w)) = totalReward (ai w) + rewardOf w.
Proof.
  destruct (step_controller_frame e w) as [(now & r1 & r2 & ->)|[(now & ->)|H]].
  - simpl. destruct (update_cases now r1 r2 w) as [E|[Hd [E|[E|[E|E]]]]]; rewrite E; simpl snd.
    + auto.
    + left. destruct Hd as (_ & _ & _ & Hsw).
      destruct (starved_effect w Hsw) as (_ & _ & _ & _ & H). now injection H.
    + auto.
    + left. pose proof (performSwitch_learning w) as H. now injection H.
    + pose proof (conclude_learning (observedKey w) (fst (afterChoice r1 r2 w))
                    (snd (afterChoice r1 r2 w))) as H.
      injection H as _ _ H _ _. rewrite H.
      now destruct (afterChoice_frame r1 r2 w) as (_ & _ & _ & _ & _ & F).
  - left. simpl. unfold performSwitch_resume. destruct (pendingSwitch w); reflexivity.
  - left. destruct H as (_ & _ & _ & [-> | [now ->]]); reflexivity.
Qed.

(** X11: the reward of a decision is never positive (minus the vehicles
    waiting, minus a tenth of the red-duration imbalance), so the total
    reward never increases under any callback and is never above 0 in a
    reachable state. *)
Theorem X11_rewards_never_positive :
  (forall w, rewardOf w <= 0) /\
  (forall e w, totalReward (ai (step e w)) <= totalReward (ai w)) /\
  (forall w, reachable w -> totalReward (ai w) <= 0).
Proof.
  assert (Hstep : forall e w, totalReward (ai (step e w)) <= totalReward (ai w)).
  { intros e w. pose proof (rewardOf_nonpos w).
    destruct (step_totalReward e w) as [-> | ->]; lra. }
  split; [exact rewardOf_nonpos|]. split; [exact Hstep|].
  induction 1 as [tSim tSwitch tTick|e w Hw IH]; [apply Qle_refl|].
  specialize (Hstep e w). lra.
Qed.

Lemma nonPositive_entryOf qt k a : nonPositive qt -> entryGet (entryOf qt k) a <= 0.
Proof.
  intros H. unfold entryOf. destruct (qt !! k) as [e|] eqn:Hk; simpl.
  - destruct (H k e Hk). destruct a; assumption.
  - destruct a; apply Qle_refl.
Qed.

Lemma nonPositive_touch qt k : nonPositive qt -> nonPositive (touch qt k).
Proof.
  intros H. unfold touch. destruct (qt !! k) eqn:Hk; [exact H|].
  intros key e. destruct (decide (k = key)) as [<-|Hne].
  - rewrite lookup_insert_eq. intros [= <-]. split; apply Qle_refl.
  - rewrite lookup_insert_ne by exact Hne. apply H.
Qed.

Lemma nonPositive_setQValue qt k a v :
  nonPositive qt -> v <= 0 -> nonPositive (setQValue qt k a v).
Proof.
  intros H Hv. unfold setQValue. cbv zeta. intros key e.
  destruct (decide (k = key)) as [<-|Hne].
  - rewrite lookup_insert_eq. intros [= <-].
    pose proof (nonPositive_entryOf (touch qt k) k KEEP (nonPositive_touch qt k H)).
    pose proof (nonPositive_entryOf (touch qt k) k SWITCH (nonPositive_touch qt k H)).
    destruct a; simpl in *; auto.
  - rewrite lookup_insert_ne by exact Hne. now apply nonPositive_touch.
Qed.

Lemma nonPositive_update now r1 r2 w : nonPositive (qTable w) -> nonPositive (qTable (snd (update now r1 r2 w))).
Proof.
  intros H.
  destruct (update_cases now r1 r2 w) as [E|[Hd [E|[E|[E|E]]]]]; rewrite E; simpl snd.
  - exact H.
  - destruct Hd as (_ & _ & _ & Hsw).
    destruct (starved_effect w Hsw) as (_ & _ & _ & _ & L). injection L as -> _ _ _ _. exact H.
  - exact H.
  - pose proof (performSwitch_learning w) as L. injection L as -> _ _ _ _. exact H.
  - pose proof (conclude_learning (observedKey w) (fst (afterChoice r1 r2 w))
                  (snd (afterChoice r1 r2 w))) as L.
    injection L as -> _ _ _ _. unfold afterChoice.
    set (k := observedKey w).
    assert (Hc : nonPositive (qTable (creditPrevious k (rewardOf w) w))).
    { unfold creditPrevious.
      destruct (prevStateKey (ai w)) as [pk|]; [|exact H].
      destruct (prevAction (ai w)) as [pa|]; [|exact H].
      unfold getQValue. cbv zeta. simpl qTable.
      set (qt3 := touch (touch (touch (qTable w) pk) k) k).
      assert (H3 : nonPositive qt3) by (subst qt3; auto using nonPositive_touch).
      apply nonPositive_setQValue; [exact H3|].
      pose proof (nonPositive_entryOf (touch (qTable w) pk) pk pa (nonPositive_touch _ _ H)) as Ho.
      pose proof (nonPositive_entryOf (touch (touch (qTable w) pk) k) k KEEP
                    (nonPositive_touch _ _ (nonPositive_touch _ _ H))) as Hk1.
      pose proof (nonPositive_entryOf qt3 k SWITCH H3) as Hk2.
      pose proof (Math_max_lub _ _ 0 Hk1 Hk2) as Hb. unfold entryGet in Hb.
      pose proof (rewardOf_nonpos w).
      unfold Q_CONFIG.alpha, Q_CONFIG.gamma. lra. }
    unfold chooseAction. destruct (Qltb r1 _); [exact Hc|].
    unfold getBestAction, getQValue. simpl. auto using nonPositive_touch.
Qed.

(** X12: no Q-value is ever positive. In every reachable state both action
    values of every state in the table are at most 0: the table starts
    empty, a state enters with two zeros, and every update blends
    non-positive numbers with non-negative weights. *)
Theorem X12_q_values_never_positive w :
  reachable w ->
  forall key e, qTable w !! key = Some e -> qKEEP e <= 0 /\ qSWITCH e <= 0.
Proof.
  induction 1 as [tSim tSwitch tTick|e w Hw IH].
  - intros key e. simpl. rewrite lookup_empty. discriminate.
  - destruct (step_controller_frame e w) as [(now & r1 & r2 & ->)|[(now & ->)|H]].
    + simpl. now apply nonPositive_update.
    + simpl. unfold performSwitch_resume. destruct (pendingSwitch w); exact IH.
    + destruct H as (-> & _). exact IH.
Qed.

Lemma X12_witness :
  exists e, qTable learnedOnce !! "0_0_1" = Some e /\ qKEEP e <= 0 /\ qSWITCH e <= 0.
Proof.
  exists {| qKEEP := 0; qSWITCH := 0 |}.
  assert (H : qTable learnedOnce !! "0_0_1" = Some {| qKEEP := 0; qSWITCH := 0 |})
    by (vm_compute; reflexivity).
  split; [exact H|].
  apply (X12_q_values_never_positive learnedOnce) with (key := "0_0_1");
    [apply reachable_run; constructor | exact H].
Defined.

(** ** The starvation counter *)

(** X13: the starvation counter goes up by one exactly on a starvation
    override; no other decision path and no other callback changes it, a
    reset included. *)
Theorem X13_starvation_counter :
  (forall now r1 r2 w,
     starvationEvents (ai (snd (update now r1 r2 w))) =
     if bool_decide (fst (update now r1 r2 w) = Starved)
     then Datatypes.S (starvationEvents (ai w)) else starvationEvents (ai w)) /\
  (forall e w, (forall now r1 r2, e <> EvUpdate now r1 r2) ->
               starvationEvents (ai (step e w)) = starvationEvents (ai w)).
Proof.
  split.
  - intros now r1 r2 w.
    destruct (update_cases now r1 r2 w) as [E|[Hd [E|[E|[E|E]]]]]; rewrite E; simpl.
    + reflexivity.
    + unfold starved, performSwitch. simpl.
      destruct (switching (ai w)); [reflexivity|]. destruct (isGreen _); reflexivity.
    + reflexivity.
    + unfold performSwitch. destruct (switching (ai w)); [reflexivity|].
      cbv zeta. destruct (isGreen _); reflexivity.
    + destruct (afterChoice_frame r1 r2 w) as (_ & _ & _ & _ & F & _).
      unfold conclude. cbv zeta. destruct (fst (afterChoice r1 r2 w)); simpl; [exact F|].
      unfold performSwitch. simpl. destruct (switching _); simpl; [exact F|].
      destruct (isGreen _); exact F.
  - intros e w Hne.
    destruct (step_controller_frame e w) as [(now & r1 & r2 & ->)|[(now & ->)|H]].
    + now destruct (Hne now r1 r2).
    + simpl. unfold performSwitch_resume. destruct (pendingSwitch w); reflexivity.
    + destruct H as (_ & _ & _ & [-> | [now ->]]); reflexivity.
Qed.

(** ** The Q-table as a store *)

Lemma getQValue_fst (qt : gmap string QEntry) k a :
  fst (getQValue qt k a) = entryGet (entryOf qt k) a.
Proof. unfold getQValue. simpl. now rewrite entryOf_touch. Qed.

Lemma touch_present (qt : gmap string QEntry) k : is_Some (qt !! k) -> touch qt k = qt.
Proof. intros [e He]. unfold touch. now rewrite He. Qed.

Lemma entryGet_entrySet_ne e a a' v : a' <> a -> entryGet (entrySet e a v) a' = entryGet e a'.
Proof. destruct a, a'; simpl; congruence. Qed.

(** X14: the Q-table behaves as a store with default 0. A value written
    with [setQValue] is the value [getQValue] reads back, and that read
    leaves the table as it is; the write changes neither the other action
    of the same state nor any other state; a state never seen reads 0 and
    makes [getBestAction] answer KEEP; and although a read may add the
    state it asks for, it never changes what any later read returns. *)
Theorem X14_qtable_is_a_store_with_default_zero (qt : gmap string QEntry) k a v :
  getQValue (setQValue qt k a v) k a = (v, setQValue qt k a v) /\
  (forall a', a' <> a ->
     fst (getQValue (setQValue qt k a v) k a') = fst (getQValue qt k a')) /\
  (forall k' a', k' <> k ->
     fst (getQValue (setQValue qt k a v) k' a') = fst (getQValue qt k' a')) /\
  (qt !! k = None -> fst (getQValue qt k a) = 0 /\ fst (getBestAction qt k) = KEEP) /\
  (forall k' a', fst (getQValue (snd (getQValue qt k a)) k' a') = fst (getQValue qt k' a')).
Proof.
  split; [|split; [|split; [|split]]].
  - unfold getQValue. cbv zeta. rewrite touch_present.
    + now rewrite entryOf_setQValue.
    + unfold setQValue. cbv zeta. rewrite lookup_insert_eq. eauto.
  - intros a' Ha. rewrite !getQValue_fst. unfold setQValue. cbv zeta.
    unfold entryOf at 1. rewrite lookup_insert_eq. simpl.
    rewrite entryGet_entrySet_ne by exact Ha. now rewrite entryOf_touch.
  - intros k' a' Hk. rewrite !getQValue_fst. unfold setQValue. cbv zeta.
    unfold entryOf at 1. rewrite lookup_insert_ne by congruence.
    fold (entryOf (touch qt k) k'). now rewrite entryOf_touch.
  - intros Hk. split.
    + rewrite getQValue_fst. unfold entryOf. rewrite Hk. destruct a; reflexivity.
    + unfold getBestAction, getQValue. simpl. rewrite !entryOf_touch.
      unfold entryOf. rewrite Hk. reflexivity.
  - intros k' a'. rewrite !getQValue_fst. unfold getQValue. simpl. now rewrite entryOf_touch.
Qed.

(** ** The manual force buttons *)

(** X15: in manual mode with no switch in flight the two force buttons are
    one and the same toggle: either of them hands GREEN to the other axis
    and leaves the first RED, whichever axis it is labelled with, and a
    second press restores the signals. *)
Theorem X15_force_buttons_toggle w :
  reachable w -> switching (ai w) = false -> isAIEnabled w = false ->
  btnNS_onclick w = btnEW_onclick w /\
  oneGreen (signals (btnNS_onclick w)) /\
  currentPhase (btnNS_onclick w) = other (currentPhase w) /\
  signals (btnNS_onclick (btnNS_onclick w)) = signals w.
Proof.
  intros Hr Hsw Hai. pose proof (idle_oneGreen w Hr Hsw) as Hone.
  unfold btnNS_onclick, btnEW_onclick, currentPhase, oneGreen in *. simpl. rewrite Hai.
  destruct (signals w) as [ns ew] eqn:Hs. simpl in *.
  destruct Hone as [[-> ->]|[-> ->]]; simpl; rewrite ?Hai; simpl; auto 10.
Qed.

Lemma X15_witness :
  btnNS_onclick (init 0 0 0) = btnEW_onclick (init 0 0 0) /\
  oneGreen (signals (btnNS_onclick (init 0 0 0))) /\
  currentPhase (btnNS_onclick (init 0 0 0)) = other (currentPhase (init 0 0 0)) /\
  signals (btnNS_onclick (btnNS_onclick (init 0 0 0))) = signals (init 0 0 0).
Proof. apply X15_force_buttons_toggle; [constructor | reflexivity | reflexivity]. Defined.

(** ** What a decision tick leaves alone *)

Lemma performSwitch_outside w : outsideDecision (performSwitch w) = outsideDecision w.
Proof.
  unfold performSwitch. destruct (switching (ai w)); [reflexivity|].
  cbv zeta. destruct (isGreen _); reflexivity.
Qed.

Lemma afterChoice_outside r1 r2 w :
  outsideDecision (snd (afterChoice r1 r2 w)) = outsideDecision w.
Proof.
  unfold afterChoice, chooseAction.
  assert (Hc : outsideDecision (creditPrevious (observedKey w) (rewardOf w) w) = outsideDecision w).
  { unfold creditPrevious. destruct (prevStateKey (ai w)), (prevAction (ai w)); reflexivity. }
  destruct (Qltb r1 _); [exact Hc|]. destruct (getBestAction _ _). exact Hc.
Qed.

Lemma update_outside now r1 r2 w :
  outsideDecision (snd (update now r1 r2 w)) = outsideDecision w.
Proof.
  destruct (update_cases now r1 r2 w) as [E|[Hd [E|[E|[E|E]]]]]; rewrite E; simpl snd.
  - reflexivity.
  - unfold starved. now rewrite performSwitch_outside.
  - reflexivity.
  - apply performSwitch_outside.
  - rewrite <- (afterChoice_outside r1 r2 w). unfold conclude. cbv zeta.
    destruct (fst (afterChoice r1 r2 w)); [reflexivity|].
    now rewrite performSwitch_outside.
Qed.

(** X16: a decision tick, whatever path it takes, touches only the
    signals, the Q-table, ε, the controller's own fields and the pending
    continuation: the run and AI flags, the time scale, the vehicles, the
    metrics, the emissions, the lane state and the comparison engine are
    exactly as before. *)
Theorem X16_update_touches_only_the_controller now r1 r2 w :
  outsideDecision (snd (update now r1 r2 w)) = outsideDecision w.
Proof. apply update_outside. Qed.

(** ** The comparison records *)

Lemma baselineTick_records dt w :
  let cd := comparisonData w in
  let cd' := comparisonData (baselineTick dt w) in
  baselineDuration cd' = baselineDuration cd /\
  baselinePhaseInterval cd' = baselinePhaseInterval cd /\
  aiRecord cd' = aiRecord cd /\
  ((baseline cd' = baseline cd /\ pendingRecord (baselineTick dt w) = pendingRecord w) \/
   (exists b, baseline cd' = Some b /\ r_duration b = baselineDuration cd /\
              is_Some (r_maxWait b)) /\
   pendingRecord (baselineTick dt w) = Datatypes.S (pendingRecord w)).
Proof.
  cbv zeta. unfold baselineTick. cbv zeta.
  destruct (Qle_bool (baselinePhaseInterval _) _);
    match goal with |- context [if ?b then _ else _] => destruct b end;
    (split; [reflexivity|]); (split; [reflexivity|]); (split; [reflexivity|]).
  all: first [left; split; reflexivity | right; split; [|reflexivity]].
  all: eexists; split; [reflexivity|]; split; [reflexivity|]; simpl; eauto.
Qed.

Lemma step_recordsOk e w : recordsOk w -> recordsOk (step e w).
Proof.
  intros Hok.
  assert (Hsame : forall w', comparisonData w' = comparisonData w ->
                             pendingRecord w' = pendingRecord w -> recordsOk w').
  { intros w' Hc Hp. unfold recordsOk. rewrite Hc, Hp. exact Hok. }
  assert (Htimers : forall w' cd', comparisonData w' = cd' ->
            baseline cd' = baseline (comparisonData w) ->
            aiRecord cd' = aiRecord (comparisonData w) ->
            baselineDuration cd' = baselineDuration (comparisonData w) ->
            baselinePhaseInterval cd' = baselinePhaseInterval (comparisonData w) ->
            pendingRecord w' = pendingRecord w -> recordsOk w').
  { intros w' cd' <- Hb Ha Hd Hi Hp. unfold recordsOk. cbv zeta.
    rewrite Hb, Ha, Hd, Hi, Hp. exact Hok. }
  destruct e; simpl; try (apply Hsame; reflexivity).
  - (* tick *)
    unfold tick. destruct (negb (isRunning w)); [exact Hok|]. cbv zeta.
    match goal with |- context [if ?b then _ else _] => destruct b end;
      [|apply Hsame; reflexivity].
    match goal with |- recordsOk (baselineTick ?dt ?x) =>
      pose proof (baselineTick_records dt x) as H;
      assert (Hx : comparisonData x = comparisonData w /\ pendingRecord x = pendingRecord w)
        by (split; reflexivity);
      set (y := x) in * end.
    cbv zeta in H. destruct Hx as [Hx1 Hx2]. rewrite Hx1, Hx2 in H.
    destruct H as (Hd & Hi & Ha & [[Hb Hp]|[(b & Hb & Hbd & Hbm) Hp]]).
    + eapply Htimers; eauto.
    + destruct Hok as (O1 & O2 & O3 & O4 & O5). unfold recordsOk. cbv zeta.
      rewrite Hd, Hi, Ha, Hb. split; [exact O1|]. split; [exact O2|]. split; [|split].
      * intros b' [= <-]. split; [congruence | exact Hbm].
      * intros a Ha'. destruct (O4 a Ha') as (A1 & A2 & _).
        split; [exact A1|]. split; [exact A2|]. eauto.
      * intros _. eauto.
  - (* update *)
    pose proof (update_outside now r1 r2 w) as H. unfold outsideDecision in H.
    injection H as _ _ _ _ _ _ _ Hc _ _ Hp. now apply Hsame.
  - unfold performSwitch_resume. destruct (pendingSwitch w); apply Hsame; reflexivity.
  - (* recordAIMetrics *)
    unfold recordAIMetrics. destruct (pendingRecord w) as [|n] eqn:Hp; [exact Hok|].
    destruct Hok as (O1 & O2 & O3 & O4 & O5). unfold recordsOk. cbv zeta. simpl.
    split; [exact O1|]. split; [exact O2|]. split; [exact O3|]. split.
    + intros a [= <-]. simpl. split; [exact O1|]. split; [reflexivity|]. apply O5. lia.
    + intros _. apply O5. lia.
  - unfold btnNS_onclick. destruct (isAIEnabled w); [exact Hok|].
    destruct (negb _); apply Hsame; reflexivity.
  - unfold btnEW_onclick. destruct (isAIEnabled w); [exact Hok|].
    destruct (negb _); apply Hsame; reflexivity.
  - unfold btnBaseline_onclick, startBaseline.
    destruct (negb (isRunning w)); destruct (isRunningBaseline _);
      first [apply Hsame; reflexivity | eapply Htimers; reflexivity].
Qed.

(** X17: the comparison engine keeps its records well formed in every
    reachable state: the baseline length and the phase interval are the
    configured 60 s and 30 s, every stored record carries the duration 60,
    so that a baseline record and an AI record always cover the same
    span, only the baseline record carries a maximal wait, and an AI
    record (or a timer armed to take one) exists only once a baseline
    record does. *)
Theorem X17_comparison_records_well_formed w : reachable w -> recordsOk w.
Proof.
  induction 1 as [tSim tSwitch tTick|e w Hw IH]; [|now apply step_recordsOk].
  unfold recordsOk. simpl. repeat split; try discriminate. intros H. now destruct H.
Qed.

Lemma X17_witness : recordsOk comparedWorld.
Proof. apply X17_comparison_records_well_formed. apply reachable_run. constructor. Defined.

(** [comparedWorld] holds both records. *)
Example comparedWorld_records :
  is_Some (baseline (comparisonData comparedWorld)) /\
  is_Some (aiRecord (comparisonData comparedWorld)) /\
  isRunningBaseline (comparisonData comparedWorld) = false.
Proof. vm_compute. eauto. Qed.

(** ** The hand-over at the end of a baseline run *)

(** One tick of an active baseline run: either the run goes on and the AI
    flag, the armed timers and the stored record stay, or the run ends and
    the tick hands over to the adaptive policy. *)
Lemma tickNext_handover ms w :
  isRunning w = true -> isRunningBaseline (comparisonData w) = true ->
  let w' := tickNext ms w in
  (isRunningBaseline (comparisonData w') = true ->
   isAIEnabled w' = isAIEnabled w /\ pendingRecord w' = pendingRecord w) /\
  (isRunningBaseline (comparisonData w') = false ->
   isAIEnabled w' = true /\ emissionsTotal w' = noEmission /\
   totalWait (metrics w') = 0 /\ throughput (metrics w') = 0%nat /\ cleared w' = 0%nat /\
   pendingRecord w' = Datatypes.S (pendingRecord w) /\
   exists b, baseline (comparisonData w') = Some b /\
             r_duration b = baselineDuration (comparisonData w) /\
             r_throughput b = throughput (metrics w)).
Proof.
  intros Hr Hb. cbv zeta. unfold tickNext, tick. rewrite Hr. simpl negb. cbv iota zeta.
  simpl isRunningBaseline. rewrite Hb.
  unfold baselineTick. simpl timeScale. simpl comparisonData. cbv zeta.
  destruct (Qle_bool (baselinePhaseInterval (comparisonData w)) _);
    simpl comparisonData; simpl baselineDuration; simpl baselineTimer;
    destruct (Qle_bool (baselineDuration (comparisonData w)) _);
    (split; intros H; simpl in H; rewrite ?Hb in H; try discriminate H);
    repeat split; try reflexivity; eexists; repeat split; reflexivity.
Qed.

(** X18: the hand-over of a baseline run whose span per tick, the binary64
    product [dt * timeScale], divides 30 s evenly and whose timer readings
    up to 60 s are binary64 numbers. The adaptive policy stays disabled
    and no record timer is armed during all [2k] ticks of the run; the
    tick that ends the run re-enables the policy, zeroes the emissions and
    the metrics accumulators, stores a baseline record of duration 60 with
    the throughput measured, and arms exactly one timer for the AI
    record. *)
Theorem X18_baseline_hands_over_to_ai w ms k :
  isRunning w = true ->
  isRunningBaseline (comparisonData w) = false ->
  baselineDuration (comparisonData w) == 60 ->
  baselinePhaseInterval (comparisonData w) == 30 ->
  (0 < k)%nat ->
  Qnat k * tickSpan ms (timeScale w) == 30 ->
  exactUpTo (2 * k) (tickSpan ms (timeScale w)) ->
  let w0 := startBaseline w in
  let wf := ticks (2 * k) ms w0 in
  (forall j, (j < 2 * k)%nat ->
     isAIEnabled (ticks j ms w0) = false /\ pendingRecord (ticks j ms w0) = pendingRecord w) /\
  isAIEnabled wf = true /\ emissionsTotal wf = noEmission /\
  totalWait (metrics wf) = 0 /\ throughput (metrics wf) = 0%nat /\ cleared wf = 0%nat /\
  pendingRecord wf = Datatypes.S (pendingRecord w) /\
  exists b, baseline (comparisonData wf) = Some b /\ r_duration b == 60.
Proof.
  intros Hr Hb Hdur Hint Hk Hdiv Hex. cbv zeta.
  assert (H0 : isRunning (startBaseline w) = true /\
               isRunningBaseline (comparisonData (startBaseline w)) = true /\
               baselineTimer (comparisonData (startBaseline w)) == 0 /\
               baselinePhaseTimer (comparisonData (startBaseline w)) == 0 /\
               baselineDuration (comparisonData (startBaseline w)) == 60 /\
               baselinePhaseInterval (comparisonData (startBaseline w)) == 30 /\
               timeScale (startBaseline w) = timeScale w /\
               isAIEnabled (startBaseline w) = false /\
               pendingRecord (startBaseline w) = pendingRecord w /\
               baselineDuration (comparisonData (startBaseline w)) =
                 baselineDuration (comparisonData w)).
  { unfold startBaseline. rewrite Hb. simpl. repeat split; try assumption; reflexivity. }
  destruct H0 as (S1 & S2 & S3 & S4 & S5 & S6 & S7 & S8 & S9 & S10).
  rewrite <- S7 in Hdiv, Hex.
  pose proof (baseline_invariant (startBaseline w) ms k S1 S2 S3 S4 S5 S6 Hk Hdiv Hex) as Hinv.
  assert (Hrun : forall j, (j < 2 * k)%nat ->
            isAIEnabled (ticks j ms (startBaseline w)) = false /\
            pendingRecord (ticks j ms (startBaseline w)) = pendingRecord w).
  { induction j as [|j IH]; intros Hj; [split; assumption|].
    destruct IH as [I1 I2]; [lia|].
    destruct (Hinv j) as (R1 & _ & _ & _ & R5 & _); [lia|].
    destruct (Hinv (Datatypes.S j) Hj) as (_ & _ & _ & _ & N5 & _).
    rewrite ticks_S_r in *.
    destruct (tickNext_handover ms (ticks j ms (startBaseline w)) R1 R5) as [Hgo _].
    destruct (Hgo N5) as [-> ->]. split; assumption. }
  split; [exact Hrun|].
  destruct (baseline_last_tick (startBaseline w) ms k S1 S2 S3 S4 S5 S6 Hk Hdiv Hex) as [Hend _].
  remember (2 * k - 1)%nat as m eqn:Hm.
  assert (H2k : (2 * k)%nat = Datatypes.S m) by lia.
  destruct (Hrun m) as [_ Hp]; [lia|].
  destruct (Hinv m) as (R1 & _ & R3 & _ & R5 & _); [lia|].
  rewrite H2k in *. rewrite ticks_S_r in *.
  destruct (tickNext_handover ms (ticks m ms (startBaseline w)) R1 R5) as [_ Hstop].
  destruct (Hstop Hend) as (E1 & E2 & E3 & E4 & E5 & E6 & b & B1 & B2 & _).
  repeat split; try assumption; [congruence|].
  exists b. split; [exact B1|]. rewrite B2, R3. exact S5.
Qed.

Lemma X18_witness :
  let w0 := startBaseline started in
  let wf := ticks (2 * 60) 500 w0 in
  (forall j, (j < 2 * 60)%nat ->
     isAIEnabled (ticks j 500 w0) = false /\ pendingRecord (ticks j 500 w0) = pendingRecord started) /\
  isAIEnabled wf = true /\ emissionsTotal wf = noEmission /\
  totalWait (metrics wf) = 0 /\ throughput (metrics wf) = 0%nat /\ cleared wf = 0%nat /\
  pendingRecord wf = Datatypes.S (pendingRecord started) /\
  exists b, baseline (comparisonData wf) = Some b /\ r_duration b == 60.
Proof.
  apply (X18_baseline_hands_over_to_ai started 500 60);
    first [reflexivity | lia | apply exactUpTob_spec; vm_compute; reflexivity].
Defined.

(** * Properties of the displays and of the engine's helpers *)

(** ** The sparkline buffers *)

Lemma pushPoint_length cap x data :
  (length data <= cap)%nat -> (length (pushPoint cap x data) <= cap)%nat.
Proof.
  intros H. unfold pushPoint. cbv zeta.
  destruct (Nat.ltb_spec cap (length (data ++ [x]))) as [Hlt|Hge]; [|exact Hge].
  rewrite length_app in Hlt. simpl in Hlt.
  destruct data as [|y data]; simpl in *; [lia|]. rewrite length_app. simpl. lia.
Qed.

Lemma pushPoint_full cap x data :
  length data = cap -> pushPoint cap x data = tail (data ++ [x]).
Proof.
  intros H. unfold pushPoint. cbv zeta.
  destruct (Nat.ltb_spec cap (length (data ++ [x]))) as [Hlt|Hge]; [reflexivity|].
  rewrite length_app in Hge. simpl in Hge. lia.
Qed.

Lemma pushPoint_room cap x data :
  (length data < cap)%nat -> pushPoint cap x data = data ++ [x].
Proof.
  intros H. unfold pushPoint. cbv zeta.
  destruct (Nat.ltb_spec cap (length (data ++ [x]))) as [Hlt|Hge]; [|reflexivity].
  rewrite length_app in Hlt. simpl in Hlt. lia.
Qed.

Lemma pushPoint_last cap x data : (0 < cap)%nat -> last (pushPoint cap x data) = Some x.
Proof.
  intros Hc. unfold pushPoint. cbv zeta.
  destruct (Nat.ltb_spec cap (length (data ++ [x]))) as [Hlt|Hge]; [|apply last_snoc].
  destruct data as [|y data]; simpl in *; [lia|]. apply last_snoc.
Qed.

Lemma updateCharts_lengths now running vs cd :
  (length (waitTime cd) <= maxPoints cd)%nat -> (length (co2Rate cd) <= maxPoints cd)%nat ->
  let cd' := updateCharts now running vs cd in
  maxPoints cd' = maxPoints cd /\
  (length (waitTime cd') <= maxPoints cd')%nat /\ (length (co2Rate cd') <= maxPoints cd')%nat.
Proof.
  intros H1 H2. cbv zeta. unfold updateCharts. destruct running; simpl; [|auto].
  split; [reflexivity|]. split; now apply pushPoint_length.
Qed.

Lemma idle_pairs (vs : list (Vehicle * Z)) :
  length (List.filter (fun v : Vehicle * Z => active (fst v) && waiting (fst v)) vs) =
  idleCount (map fst vs).
Proof.
  unfold idleCount. induction vs as [|v vs IH]; simpl; [reflexivity|].
  destruct (active (fst v) && waiting (fst v)); simpl; now rewrite IH.
Qed.

Lemma moving_pairs (vs : list (Vehicle * Z)) :
  length (List.filter (fun v : Vehicle * Z => active (fst v) && negb (waiting (fst v))) vs) =
  movingCount (map fst vs).
Proof.
  unfold movingCount. induction vs as [|v vs IH]; simpl; [reflexivity|].
  destruct (active (fst v) && negb (waiting (fst v))); simpl; now rewrite IH.
Qed.

(** X19: the two sparkline buffers are sliding windows. Starting from the
    empty chart and whatever the calls, neither buffer ever holds more
    than the 60 points of [maxPoints]; a call on the running simulation
    appends its new point last, and on a full buffer drops the oldest
    point to make room; the CO2 point is the fleet's emission rate per
    second (2.3 per idling and 0.5 per moving active vehicle) rounded to
    one decimal. *)
Theorem X19_chart_buffers_are_bounded_windows :
  (forall inputs,
     let cd := chartRun inputs chartData0 in
     maxPoints cd = 60%nat /\
     (length (waitTime cd) <= 60)%nat /\ (length (co2Rate cd) <= 60)%nat) /\
  (forall now vs cd,
     let point := toFixed 1 (fleetRate co2 (map fst vs)) in
     let cd' := updateCharts now true vs cd in
     ((0 < maxPoints cd)%nat -> last (co2Rate cd') = Some point) /\
     (length (co2Rate cd) = maxPoints cd -> co2Rate cd' = tail (co2Rate cd ++ [point])) /\
     ((length (co2Rate cd) < maxPoints cd)%nat -> co2Rate cd' = co2Rate cd ++ [point])).
Proof.
  split.
  - intros inputs. cbv zeta.
    assert (H : forall cd, maxPoints cd = 60%nat ->
                (length (waitTime cd) <= 60)%nat -> (length (co2Rate cd) <= 60)%nat ->
                maxPoints (chartRun inputs cd) = 60%nat /\
                (length (waitTime (chartRun inputs cd)) <= 60)%nat /\
                (length (co2Rate (chartRun inputs cd)) <= 60)%nat).
    { induction inputs as [|[[now running] vs] inputs IH]; intros cd Hm H1 H2; [auto|].
      simpl. rewrite <- Hm in H1, H2.
      destruct (updateCharts_lengths now running vs cd H1 H2) as (E & L1 & L2).
      rewrite E, Hm in *. now apply IH. }
    apply H; simpl; [reflexivity | lia | lia].
  - intros now vs cd. cbv zeta. unfold updateCharts. simpl negb. cbv iota zeta.
    simpl co2Rate. rewrite idle_pairs, moving_pairs. fold (fleetRate co2 (map fst vs)).
    split; [|split]; intros H.
    + now apply pushPoint_last.
    + now apply pushPoint_full.
    + now apply pushPoint_room.
Qed.

(** ** The comparison panel *)

Lemma Qfloor_ge_1 y : (1 <= Qfloor y)%Z <-> 1 <= y.
Proof.
  split; intros H.
  - apply Qle_trans with (inject_Z (Qfloor y)); [|apply Qfloor_le].
    rewrite <- (Zle_Qle 1). exact H.
  - change 1%Z with (Qfloor 1). now apply Qfloor_resp_le.
Qed.

Lemma Qfloor_nonneg y : 0 <= y -> (0 <= Qfloor y)%Z.
Proof. intros H. change 0%Z with (Qfloor 0). now apply Qfloor_resp_le. Qed.

Lemma toFixed0_unfold x :
  toFixed 0 x = (if Qle_bool 0 x then Qfloor (Qabs x * 1 + (1 # 2))
                 else (- Qfloor (Qabs x * 1 + (1 # 2)))%Z) # 1.
Proof. reflexivity. Qed.

Lemma Qint_pos z : 0 < z # 1 <-> (0 < z)%Z.
Proof. unfold Qlt. simpl. lia. Qed.

Lemma Qint_neg z : z # 1 < 0 <-> (z < 0)%Z.
Proof. unfold Qlt. simpl. lia. Qed.

Lemma toFixed0_pos x : 0 < toFixed 0 x <-> 1 # 2 <= x.
Proof.
  rewrite toFixed0_unfold. pose proof (Qabs_nonneg x) as Hn.
  destruct (Qle_bool 0 x) eqn:Hx.
  - apply Qle_bool_iff in Hx. pose proof (Qabs_pos x Hx) as Ha.
    rewrite Qint_pos.
    assert (E : (0 < Qfloor (Qabs x * 1 + (1 # 2)))%Z <-> (1 <= Qfloor (Qabs x * 1 + (1 # 2)))%Z)
      by lia.
    rewrite E, Qfloor_ge_1. rewrite Ha. split; intros H; lra.
  - assert (Hneg : x < 0).
    { apply Qnot_le_lt. intros H. apply Qle_bool_iff in H. congruence. }
    rewrite Qint_pos.
    pose proof (Qfloor_nonneg (Qabs x * 1 + (1 # 2))) as Hf.
    split; intros H; [|exfalso; lra]. exfalso. assert (Hp : 0 <= Qabs x * 1 + (1 # 2)) by lra. specialize (Hf Hp). lia.
Qed.

Lemma toFixed0_neg x : toFixed 0 x < 0 <-> x <= - (1 # 2).
Proof.
  rewrite toFixed0_unfold. pose proof (Qabs_nonneg x) as Hn.
  destruct (Qle_bool 0 x) eqn:Hx.
  - apply Qle_bool_iff in Hx.
    rewrite Qint_neg.
    pose proof (Qfloor_nonneg (Qabs x * 1 + (1 # 2))) as Hf.
    split; intros H; [|exfalso; lra]. exfalso. assert (Hp : 0 <= Qabs x * 1 + (1 # 2)) by lra. specialize (Hf Hp). lia.
  - assert (Hneg : x <= 0).
    { apply Qlt_le_weak, Qnot_le_lt. intros H. apply Qle_bool_iff in H. congruence. }
    pose proof (Qabs_neg x Hneg) as Ha.
    rewrite Qint_neg.
    assert (E : (- Qfloor (Qabs x * 1 + (1 # 2)) < 0)%Z <-> (1 <= Qfloor (Qabs x * 1 + (1 # 2)))%Z)
      by lia.
    rewrite E, Qfloor_ge_1. rewrite Ha. split; intros H; lra.
Qed.

Lemma relative_gain b a c : 0 < b -> (c <= (b - a) / b * 100 <-> c * b <= (b - a) * 100).
Proof.
  intros Hb.
  assert (E : (b - a) / b * 100 == (b - a) * 100 / b) by (field; lra).
  rewrite E. split; intros H.
  - apply (Qmult_le_r _ _ b Hb) in H.
    assert (E2 : (b - a) * 100 / b * b == (b - a) * 100) by (field; lra).
    now rewrite E2 in H.
  - now apply Qle_shift_div_l.
Qed.

Lemma relative_loss b a c : 0 < b -> ((b - a) / b * 100 <= c <-> (b - a) * 100 <= c * b).
Proof.
  intros Hb.
  assert (E : (b - a) / b * 100 == (b - a) * 100 / b) by (field; lra).
  rewrite E. split; intros H.
  - apply (Qmult_le_r _ _ b Hb) in H.
    assert (E2 : (b - a) * 100 / b * b == (b - a) * 100) by (field; lra).
    now rewrite E2 in H.
  - now apply Qle_shift_div_r.
Qed.

(** X20: what the comparison panel marks as an improvement. Nothing is
    shown until both records exist. With a baseline value of 0 or less a
    cell always reads "worse, 0%". Otherwise a wait or emission cell is
    marked improved exactly when the AI value is at least half a percent
    below the baseline, and the throughput cell exactly when the AI value
    is at least half a percent above it: the percentage is rounded to an
    integer first, so equal values, and gains under half a percent, are
    marked "worse". *)
Theorem X20_comparison_panel_marks :
  (forall cd, updateComparisonUI cd = None <-> baseline cd = None \/ aiRecord cd = None) /\
  (forall b a reverse, b <= 0 -> setComparison b a reverse = (false, 0)) /\
  (forall b a, 0 < b ->
     (fst (setComparison b a false) = true <-> a <= b * (199 # 200)) /\
     (fst (setComparison b a true) = true <-> b * (201 # 200) <= a)) /\
  (forall b reverse, fst (setComparison b b reverse) = false).
Proof.
  assert (Hzero : forall b a reverse, b <= 0 -> setComparison b a reverse = (false, 0)).
  { intros b a reverse Hb. unfold setComparison.
    assert (E : Qltb 0 b = false).
    { apply not_true_iff_false. intros H. apply Qltb_lt in H. lra. }
    rewrite E. destruct reverse; reflexivity. }
  assert (Hpos : forall b a, 0 < b ->
     (fst (setComparison b a false) = true <-> a <= b * (199 # 200)) /\
     (fst (setComparison b a true) = true <-> b * (201 # 200) <= a)).
  { intros b a Hb. unfold setComparison.
    assert (E : Qltb 0 b = true) by now apply Qltb_lt.
    rewrite E. simpl fst. rewrite !Qltb_lt, toFixed0_pos, toFixed0_neg.
    rewrite (relative_gain b a (1 # 2) Hb), (relative_loss b a (- (1 # 2)) Hb).
    split; split; intros H; lra. }
  split; [|split; [exact Hzero|split; [exact Hpos|]]].
  - intros cd. unfold updateComparisonUI.
    destruct (baseline cd), (aiRecord cd); split; intros H; try discriminate; auto;
      destruct H; discriminate.
  - intros b reverse. destruct (Qlt_le_dec 0 b) as [Hb|Hb].
    + destruct (Hpos b b Hb) as [H1 H2]. apply not_true_iff_false.
      destruct reverse; intros H; [apply H2 in H | apply H1 in H]; lra.
    + now rewrite Hzero.
Qed.

(** A 0.4 % shorter wait is shown as "worse, 0%"; a 0.5 % shorter one as
    "improved, 1%" (halves round away from zero). *)
Example comparison_rounding_example :
  setComparison 1000 996 false = (false, 0) /\ setComparison 1000 995 false = (true, 1).
Proof. split; reflexivity. Qed.

(** ** Colour shading *)

Lemma clampChannel_range c : (0 <= clampChannel c <= 255)%Z.
Proof. unfold clampChannel. lia. Qed.

Lemma clampChannel_mono c c' : (c <= c')%Z -> (clampChannel c <= clampChannel c')%Z.
Proof. unfold clampChannel. lia. Qed.

Lemma clampChannel_id c : (0 <= c <= 255)%Z -> clampChannel c = c.
Proof. unfold clampChannel. lia. Qed.

(** X21: [shadeColor] always yields three channels between 0 and 255,
    whatever [parseInt] returned (NaN included) and whatever the shift; a
    larger shift never darkens a channel; and with shift 0 a 24-bit colour
    comes back as its own red, green and blue bytes. *)
Theorem X21_shadeColor_channels :
  (forall n pct,
     let '(r, g, b) := shadeChannels n pct in
     (0 <= r <= 255 /\ 0 <= g <= 255 /\ 0 <= b <= 255)%Z) /\
  (forall n pct pct', (pct <= pct')%Z ->
     let '(r, g, b) := shadeChannels n pct in
     let '(r', g', b') := shadeChannels n pct' in
     (r <= r' /\ g <= g' /\ b <= b')%Z) /\
  (forall n, (0 <= n < 2 ^ 24)%Z ->
     let '(r, g, b) := shadeChannels (Some n) 0 in
     (65536 * r + 256 * g + b = n)%Z) /\
  shadeChannels None (-35) = (0, 0, 0)%Z.
Proof.
  split; [|split; [|split]].
  - intros n pct. unfold shadeChannels. cbv zeta.
    repeat split; apply clampChannel_range.
  - intros n pct pct' H. unfold shadeChannels. cbv zeta.
    repeat split; apply clampChannel_mono; lia.
  - intros n Hn. unfold shadeChannels. cbv zeta.
    assert (E : toInt32 (Some n) = n).
    { unfold toInt32. rewrite Z.mod_small; lia. }
    rewrite E, !Z.add_0_r.
    rewrite !Z.shiftr_div_pow2 by lia.
    change 255%Z with (Z.ones 8). rewrite !Z.land_ones by lia.
    change (2 ^ 16)%Z with 65536%Z. change (2 ^ 8)%Z with 256%Z.
    change (2 ^ 24)%Z with 16777216%Z in Hn.
    rewrite !clampChannel_id.
    + Z.to_euclidean_division_equations. lia.
    + change (Z.ones 8) with 255%Z. Z.to_euclidean_division_equations. lia.
    + change (Z.ones 8) with 255%Z. Z.to_euclidean_division_equations. lia.
    + change (Z.ones 8) with 255%Z. Z.to_euclidean_division_equations. lia.
  - reflexivity.
Qed.

(** The first car colour, [#3b82f6], darkened by 35. *)
Example shadeColor_example : shadeColor (Some 0x3b82f6%Z) (-35) = "rgb(24,95,211)"%string.
Proof. reflexivity. Qed.

(** ** The clock display *)

Lemma Qfloor_unique x k : inject_Z k <= x -> x < inject_Z (k + 1) -> Qfloor x = k.
Proof.
  intros H1 H2.
  assert (A : (k <= Qfloor x)%Z).
  { rewrite <- (Qfloor_Z k). now apply Qfloor_resp_le. }
  assert (B : (Qfloor x < k + 1)%Z).
  { rewrite Zlt_Qlt. eapply Qle_lt_trans; [apply Qfloor_le | exact H2]. }
  lia.
Qed.

Lemma padStart2_small s : (0 <= s < 60)%Z -> String.length (padStart2 (pretty s)) = 2%nat.
Proof.
  intros Hs. assert (E : s = Z.of_nat (Z.to_nat s)) by lia.
  assert (Hn : (Z.to_nat s < 60)%nat) by lia.
  rewrite E. generalize dependent (Z.to_nat s). clear. intros n _ Hn.
  do 60 (destruct n as [|n]; [reflexivity|]). lia.
Qed.

(** X22: for a non-negative time [formatTime] splits the whole seconds
    into minutes and seconds: the seconds field lies between 0 and 59, the
    minutes are non-negative, 60 times the minutes plus the seconds is the
    time rounded down, and the seconds field is always printed with two
    characters. *)
Theorem X22_formatTime_splits_whole_seconds seconds :
  0 <= seconds ->
  let m := formatMinutes seconds in
  let s := formatSeconds seconds in
  (0 <= m)%Z /\ (0 <= s < 60)%Z /\ (60 * m + s)%Z = Qfloor seconds /\
  String.length (padStart2 (pretty s)) = 2%nat /\
  formatTime seconds = pretty m +:+ ":" +:+ padStart2 (pretty s).
Proof.
  intros Hs. cbv zeta. unfold formatMinutes, formatSeconds, jsRem. cbv zeta.
  assert (Hq : 0 <= seconds / 60) by (apply Qle_shift_div_l; lra).
  assert (Hb : Qle_bool 0 (seconds / 60) = true) by now apply Qle_bool_iff.
  rewrite Hb.
  set (m := Qfloor (seconds / 60)).
  pose proof (Qfloor_le (seconds / 60)) as L1. pose proof (Qlt_floor (seconds / 60)) as L2.
  fold m in L1, L2.
  assert (M1 : inject_Z m * 60 <= seconds).
  { apply (Qmult_le_r _ _ 60) in L1; [|reflexivity].
    assert (E : seconds / 60 * 60 == seconds) by (field; lra). now rewrite E in L1. }
  assert (M2 : seconds < inject_Z (m + 1) * 60).
  { apply (Qmult_lt_r _ _ 60) in L2; [|reflexivity].
    assert (E : seconds / 60 * 60 == seconds) by (field; lra). now rewrite E in L2. }
  rewrite inject_Z_plus in M2. change (inject_Z 1) with 1 in M2.
  assert (Hm : (0 <= m)%Z) by (subst m; now apply Qfloor_nonneg).
  pose proof (Qfloor_le seconds) as F1. pose proof (Qlt_floor seconds) as F2.
  rewrite inject_Z_plus in F2. change (inject_Z 1) with 1 in F2.
  assert (Hfl : Qfloor (seconds - 60 * inject_Z m) = (Qfloor seconds - 60 * m)%Z).
  { apply Qfloor_unique.
    - unfold Zminus. rewrite inject_Z_plus, inject_Z_opp, inject_Z_mult.
      change (inject_Z 60) with 60. lra.
    - replace (Qfloor seconds - 60 * m + 1)%Z with (Qfloor seconds + 1 + - (60 * m))%Z by lia.
      rewrite !inject_Z_plus, inject_Z_opp, inject_Z_mult.
      change (inject_Z 60) with 60. change (inject_Z 1) with 1. lra. }
  assert (Hrange : (0 <= Qfloor seconds - 60 * m < 60)%Z).
  { split.
    - assert (A : (60 * m <= Qfloor seconds)%Z).
      { rewrite <- (Qfloor_Z (60 * m)). apply Qfloor_resp_le.
        rewrite inject_Z_mult. change (inject_Z 60) with 60. lra. }
      lia.
    - assert (B : (Qfloor seconds < 60 * m + 60)%Z).
      { rewrite Zlt_Qlt. rewrite inject_Z_plus, inject_Z_mult.
        change (inject_Z 60) with 60. lra. }
      lia. }
  rewrite Hfl. split; [exact Hm|]. split; [exact Hrange|]. split; [lia|].
  split; [now apply padStart2_small|].
  unfold formatTime, formatMinutes, formatSeconds, jsRem. cbv zeta. rewrite Hb.
  fold m. now rewrite Hfl.
Qed.

Lemma X22_witness :
  let m := formatMinutes (1255 # 10) in
  let s := formatSeconds (1255 # 10) in
  (0 <= m)%Z /\ (0 <= s < 60)%Z /\ (60 * m + s)%Z = Qfloor (1255 # 10) /\
  String.length (padStart2 (pretty s)) = 2%nat /\
  formatTime (1255 # 10) = pretty m +:+ ":" +:+ padStart2 (pretty s).
Proof. apply (X22_formatTime_splits_whole_seconds (1255 # 10)). discriminate. Defined.

(** 125.5 s is shown as 2:05. *)
Example formatTime_example : formatTime (1255 # 10) = "2:05"%string.
Proof. reflexivity. Qed.

(** ** The lane state builder and the live view *)

(** X23: the live view decodes what the lane state builder encodes: for
    every choice of check boxes the NS indicator is green exactly when a
    north or south box is checked and the EW indicator exactly when an
    east or west box is. Nothing in the builder keeps the two apart: it
    produces the all-green state "GGGG" exactly when both axes have a box
    checked. A missing or empty light string shows both indicators red. *)
Theorem X23_lane_builder_round_trip :
  (forall lanes,
     isNSGreen (Some (computeFromLanes lanes)) = (north lanes || south lanes) /\
     isEWGreen (Some (computeFromLanes lanes)) = (east lanes || west lanes) /\
     (computeFromLanes lanes = "GGGG"%string <->
      (north lanes || south lanes) && (east lanes || west lanes) = true)) /\
  isNSGreen None = false /\ isEWGreen None = false /\
  isNSGreen (Some ""%string) = false /\ isEWGreen (Some ""%string) = false.
Proof.
  split; [|repeat split; reflexivity].
  intros [[] [] [] []]; (split; [reflexivity|]); (split; [reflexivity|]);
    split; intros H; first [reflexivity | discriminate H].
Qed.

(** ** The fairness bars *)

Lemma maxPrio_ge ls d : priority (lane d ls) <= maxPrio ls /\ 1 # 100 <= maxPrio ls.
Proof.
  unfold maxPrio.
  pose proof (Math_max_l (1 # 100) (priority (laneN ls))).
  pose proof (Math_max_r (1 # 100) (priority (laneN ls))).
  pose proof (Math_max_l (Math_max (1 # 100) (priority (laneN ls))) (priority (laneS ls))).
  pose proof (Math_max_r (Math_max (1 # 100) (priority (laneN ls))) (priority (laneS ls))).
  pose proof (Math_max_l (Math_max (Math_max (1 # 100) (priority (laneN ls)))
                                   (priority (laneS ls))) (priority (laneE ls))).
  pose proof (Math_max_r (Math_max (Math_max (1 # 100) (priority (laneN ls)))
                                   (priority (laneS ls))) (priority (laneE ls))).
  pose proof (Math_max_l (Math_max (Math_max (Math_max (1 # 100) (priority (laneN ls)))
                                             (priority (laneS ls))) (priority (laneE ls)))
                         (priority (laneW ls))).
  pose proof (Math_max_r (Math_max (Math_max (Math_max (1 # 100) (priority (laneN ls)))
                                             (priority (laneS ls))) (priority (laneE ls)))
                         (priority (laneW ls))).
  split; [destruct d; simpl; lra | lra].
Qed.

(** X24: the fairness bars. With non-negative priorities every bar is
    between 0 and 100 percent wide; a bar is red exactly when its lane has
    been red for more than 96 s (80 % of the starvation threshold), which
    is exactly when its row carries the starvation warning, amber between
    60 s and 96 s, and green up to 60 s. *)
Theorem X24_fairness_bars ls d :
  let '(pct, colour, warn) := fairnessBar ls d in
  (0 <= priority (lane d ls) -> 0 <= pct /\ pct <= 100) /\
  (colour = BarRed <-> 96 < redDuration (lane d ls)) /\
  (warn = true <-> colour = BarRed) /\
  (colour = BarAmber <-> 60 < redDuration (lane d ls) /\ redDuration (lane d ls) <= 96) /\
  (colour = BarGreen <-> redDuration (lane d ls) <= 60).
Proof.
  unfold fairnessBar. cbv zeta.
  destruct (maxPrio_ge ls d) as [Hle Hpos].
  split.
  - intros Hp. destruct (unit_ratio (priority (lane d ls)) (maxPrio ls) Hp Hle) as [A B]; [lra|].
    split; lra.
  - destruct (Qltb (FAIR_CONFIG.starvationThreshold * (8 # 10)) (redDuration (lane d ls)))
      eqn:H96.
    + apply Qltb_lt in H96. unfold FAIR_CONFIG.starvationThreshold in H96.
      repeat split; intros; try discriminate; try lra; try reflexivity;
        try (destruct H; lra).
    + assert (N96 : redDuration (lane d ls) <= FAIR_CONFIG.starvationThreshold * (8 # 10)).
      { apply Qnot_lt_le. intros H. apply Qltb_lt in H. congruence. }
      unfold FAIR_CONFIG.starvationThreshold in N96.
      destruct (Qltb (FAIR_CONFIG.starvationThreshold * (5 # 10)) (redDuration (lane d ls)))
        eqn:H60.
      * apply Qltb_lt in H60. unfold FAIR_CONFIG.starvationThreshold in H60.
        repeat split; intros; try discriminate; try lra; try reflexivity;
          try (destruct H; lra).
      * assert (N60 : redDuration (lane d ls) <= FAIR_CONFIG.starvationThreshold * (5 # 10)).
        { apply Qnot_lt_le. intros H. apply Qltb_lt in H. congruence. }
        unfold FAIR_CONFIG.starvationThreshold in N60.
        repeat split; intros; try discriminate; try lra; try reflexivity;
          try (destruct H; lra).
Qed.

(** ** A vehicle at the signal *)

Lemma inside_is_past_stop_line cv c :
  isInIntersection cv c = true -> distToStopLine cv c < 0.
Proof.
  unfold isInIntersection, distToStopLine. cbv zeta. intros H.
  apply andb_prop in H as [H H4]. apply andb_prop in H as [H H3].
  apply andb_prop in H as [H1 H2].
  apply Qltb_lt in H1, H2, H3, H4. destruct (c_origin c); lra.
Qed.

(** X25: what a signal can hold. A vehicle is held by its signal only
    while it is before its stop line and within the stop distance of it
    (65 on RED, half of that on YELLOW), never on GREEN; so a vehicle held
    on YELLOW would also be held on RED at the same place; and a vehicle
    inside the intersection box is already past its stop line, so that no
    signal change can freeze it there. *)
Theorem X25_signal_holds_only_before_the_line cv c :
  (forall sg, signalLetsGo cv sg c = false ->
     sig (axisOf (c_origin c)) sg <> GREEN /\
     0 < distToStopLine cv c /\ distToStopLine cv c < STOP_DIST) /\
  (forall sgY sgR,
     sig (axisOf (c_origin c)) sgY = YELLOW -> sig (axisOf (c_origin c)) sgR = RED ->
     signalLetsGo cv sgY c = false -> signalLetsGo cv sgR c = false) /\
  (isInIntersection cv c = true ->
     distToStopLine cv c < 0 /\ forall sg, signalLetsGo cv sg c = true).
Proof.
  split; [|split].
  - intros sg. unfold signalLetsGo. cbv zeta.
    destruct (sig (axisOf (c_origin c)) sg); try discriminate;
      intros H; apply negb_false_iff, andb_prop in H as [H1 H2];
      apply Qltb_lt in H1, H2; unfold STOP_DIST in *;
      (split; [discriminate|]); split; lra.
  - intros sgY sgR HY HR. unfold signalLetsGo. cbv zeta. rewrite HY, HR.
    intros H. apply negb_false_iff, andb_prop in H as [H1 H2].
    apply Qltb_lt in H1, H2. apply negb_false_iff, andb_true_intro.
    split; apply Qltb_lt; unfold STOP_DIST in *; lra.
  - intros Hin. pose proof (inside_is_past_stop_line cv c Hin) as Hd.
    split; [exact Hd|]. intros sg. unfold signalLetsGo. cbv zeta.
    assert (E : Qltb 0 (distToStopLine cv c) = false).
    { apply not_true_iff_false. intros H. apply Qltb_lt in H. lra. }
    rewrite E. destruct (sig _ sg); reflexivity.
Qed.

(** The waiting car, 20 before its stop line, is held on RED and on
    YELLOW (whose margin is 32.5) and let go on GREEN. *)
Example waitingCar_held :
  distToStopLine canvas900 waitingCar == 20 /\
  signalLetsGo canvas900 {| NS := RED; EW := GREEN |} waitingCar = false /\
  signalLetsGo canvas900 {| NS := YELLOW; EW := RED |} waitingCar = false /\
  signalLetsGo canvas900 {| NS := GREEN; EW := RED |} waitingCar = true.
Proof. repeat split; reflexivity. Qed.

(** ** A vehicle's frame *)

(** X26: a frame keeps the speed of a vehicle between 0 and the maximal
    speed 2.6, for any non-negative time scale: a vehicle that may go
    never slows down and one that may not never speeds up. *)
Theorem X26_vehicle_speed_stays_in_range hypot cosv sinv cv ts sg now others myIndex c m n :
  0 <= ts -> 0 <= c_speed c -> c_speed c <= MAX_SPEED ->
  let c' := fst (fst (vehicleUpdate hypot cosv sinv cv ts sg now others myIndex c m n)) in
  0 <= c_speed c' /\ c_speed c' <= MAX_SPEED /\
  (canGo hypot cv sg others myIndex c = true -> c_speed c <= c_speed c') /\
  (canGo hypot cv sg others myIndex c = false -> c_speed c' <= c_speed c).
Proof.
  intros Hts H0 H1. cbv zeta. unfold MAX_SPEED, ACCEL, DECEL in *.
  assert (Hacc : forall s, 0 <= s -> s <= 26 # 10 ->
            let s' := if Qle_bool (26 # 10) (s + (55 # 1000) * ts) then 26 # 10
                      else s + (55 # 1000) * ts in
            0 <= s' /\ s' <= 26 # 10 /\ s <= s').
  { intros s A B. cbv zeta. destruct (Qle_bool _ _) eqn:E.
    - repeat split; lra.
    - assert (s + (55 # 1000) * ts < 26 # 10).
      { apply Qnot_le_lt. intros H. apply Qle_bool_iff in H. congruence. }
      assert (0 <= (55 # 1000) * ts) by (apply Qmult_le_0_compat; lra).
      repeat split; lra. }
  assert (Hdec : forall s, 0 <= s -> s <= 26 # 10 ->
            let s' := Math_max 0 (s - (16 # 100) * ts) in
            0 <= s' /\ s' <= 26 # 10 /\ s' <= s).
  { intros s A B. cbv zeta.
    assert (0 <= (16 # 100) * ts) by (apply Qmult_le_0_compat; lra).
    pose proof (Math_max_l 0 (s - (16 # 100) * ts)).
    assert (Math_max 0 (s - (16 # 100) * ts) <= s) by (apply Math_max_lub; lra).
    repeat split; lra. }
  specialize (Hacc (c_speed c) H0 H1). specialize (Hdec (c_speed c) H0 H1).
  cbv zeta in Hacc, Hdec. destruct Hacc as (A1 & A2 & A3). destruct Hdec as (D1 & D2 & D3).
  unfold vehicleUpdate, MAX_SPEED, ACCEL, DECEL.
  destruct (c_active c); simpl negb; cbv iota; [|simpl; repeat split; auto; intros; apply Qle_refl].
  destruct (canGo hypot cv sg others myIndex c); simpl negb; cbv iota zeta.
  - destruct (c_waiting c);
      match goal with |- context [if ?b then _ else _] => destruct b end; simpl;
      repeat split; auto; discriminate.
  - destruct (Qeq_bool _ 0 && negb (c_waiting c));
      match goal with |- context [if ?b then _ else _] => destruct b end; simpl;
      repeat split; auto; discriminate.
Qed.

Lemma X26_witness :
  let c' := fst (fst (vehicleUpdate taxicab 0 1 canvas900 1 {| NS := GREEN; EW := RED |} 4000
                        [waitingCar] 0 waitingCar
                        {| total := 1; totalWait := 0; throughput := 0; startTime := 0 |} 0)) in
  0 <= c_speed c' /\ c_speed c' <= MAX_SPEED /\
  (canGo taxicab canvas900 {| NS := GREEN; EW := RED |} [waitingCar] 0 waitingCar = true ->
   c_speed waitingCar <= c_speed c') /\
  (canGo taxicab canvas900 {| NS := GREEN; EW := RED |} [waitingCar] 0 waitingCar = false ->
   c_speed c' <= c_speed waitingCar).
Proof.
  apply (X26_vehicle_speed_stays_in_range taxicab 0 1 canvas900 1 {| NS := GREEN; EW := RED |}
           4000 [waitingCar] 0 waitingCar); discriminate.
Defined.

(** X27: a vehicle is counted out exactly once. A frame raises [cleared]
    and [metrics.throughput] together, by one, exactly when it turns an
    active vehicle inactive, and otherwise leaves both alone; an inactive
    vehicle is returned as it is, with the metrics and the count
    untouched, so it can never be counted again; a vehicle never changes
    its id or origin, and [metrics.total] is not touched. *)
Theorem X27_vehicle_counted_out_once hypot cosv sinv cv ts sg now others myIndex c m n :
  let r := vehicleUpdate hypot cosv sinv cv ts sg now others myIndex c m n in
  let c' := fst (fst r) in
  let m' := snd (fst r) in
  let n' := snd r in
  (c_active c = false -> r = (c, m, n)) /\
  (c_active c' = true -> c_active c = true) /\
  c_id c' = c_id c /\ c_origin c' = c_origin c /\ total m' = total m /\
  ((c_active c' = c_active c /\ n' = n /\ throughput m' = throughput m) \/
   (c_active c = true /\ c_active c' = false /\
    n' = Datatypes.S n /\ throughput m' = Datatypes.S (throughput m))).
Proof.
  cbv zeta. unfold vehicleUpdate.
  destruct (c_active c) eqn:Ha; simpl negb; cbv iota.
  - destruct (canGo hypot cv sg others myIndex c); simpl negb; cbv iota zeta.
    + destruct (c_waiting c);
        match goal with |- context [if ?b then _ else _] => destruct b end; simpl;
        (split; [discriminate|]); (split; [reflexivity|]);
        do 3 (split; [reflexivity|]);
        first [left; repeat split; reflexivity | right; repeat split; reflexivity].
    + destruct (Qeq_bool _ 0 && negb (c_waiting c));
        match goal with |- context [if ?b then _ else _] => destruct b end; simpl;
        (split; [discriminate|]); (split; [reflexivity|]);
        do 3 (split; [reflexivity|]);
        first [left; repeat split; reflexivity | right; repeat split; reflexivity].
  - simpl. split; [reflexivity|]. split; [congruence|].
    do 3 (split; [reflexivity|]). left. repeat split; congruence.
Qed.

(** X28: how waiting time is booked. A vehicle that may not go and has
    come to a stop starts waiting at the current time; while it waits and
    may not go nothing is booked; when it may go again its wait since
    [waitStart] is added to its own total, and that whole total, the waits
    of its earlier stops included, is added to [metrics.totalWait]. *)
Theorem X28_vehicle_wait_booking hypot cosv sinv cv ts sg now others myIndex c m n :
  c_active c = true ->
  let r := vehicleUpdate hypot cosv sinv cv ts sg now others myIndex c m n in
  let c' := fst (fst r) in
  let m' := snd (fst r) in
  let go := canGo hypot cv sg others myIndex c in
  (go = false -> c_waiting c = false -> c_speed c - DECEL * ts <= 0 ->
     c_waiting c' = true /\ c_waitStart c' = now /\ c_speed c' == 0) /\
  (go = false -> c_waiting c = true ->
     c_waiting c' = true /\ c_waitStart c' = c_waitStart c /\
     c_totalWait c' = c_totalWait c /\ totalWait m' = totalWait m) /\
  (go = true -> c_waiting c = true ->
     c_waiting c' = false /\
     c_totalWait c' = c_totalWait c + ((now - c_waitStart c)%Z # 1000) /\
     totalWait m' = totalWait m + c_totalWait c') /\
  (go = true -> c_waiting c = false ->
     c_waiting c' = false /\ c_totalWait c' = c_totalWait c /\ totalWait m' = totalWait m).
Proof.
  intros Ha. cbv zeta. unfold vehicleUpdate. rewrite Ha. simpl negb. cbv iota.
  destruct (canGo hypot cv sg others myIndex c); simpl negb; cbv iota zeta.
  - split; [discriminate|]. split; [discriminate|].
    destruct (c_waiting c);
      match goal with |- context [if ?b then _ else _] => destruct b end; simpl;
      (split; [intros _ H; try discriminate H; repeat split; reflexivity|]);
      intros _ H; try discriminate H; repeat split; reflexivity.
  - split; [|split; [|split; discriminate]].
    + intros _ Hw Hs. rewrite Hw. simpl negb. rewrite andb_true_r.
      assert (E0 : Math_max 0 (c_speed c - DECEL * ts) == 0).
      { unfold Math_max. destruct (Qle_bool 0 _) eqn:E; [|reflexivity].
        apply Qle_bool_iff in E. lra. }
      assert (Eb : Qeq_bool (Math_max 0 (c_speed c - DECEL * ts)) 0 = true)
        by now apply Qeq_bool_iff.
      rewrite Eb.
      match goal with |- context [if ?b then _ else _] => destruct b end; simpl;
        repeat split; try reflexivity; exact E0.
    + intros _ Hw. rewrite Hw. simpl negb. rewrite andb_false_r.
      match goal with |- context [if ?b then _ else _] => destruct b end; simpl;
        repeat split; reflexivity.
Qed.

Lemma X28_witness :
  let r := vehicleUpdate taxicab 0 1 canvas900 1 {| NS := GREEN; EW := RED |} 4000
             [waitingCar] 0 waitingCar
             {| total := 1; totalWait := 0; throughput := 0; startTime := 0 |} 0 in
  let c' := fst (fst r) in
  let m' := snd (fst r) in
  let go := canGo taxicab canvas900 {| NS := GREEN; EW := RED |} [waitingCar] 0 waitingCar in
  (go = false -> c_waiting waitingCar = false -> c_speed waitingCar - DECEL * 1 <= 0 ->
     c_waiting c' = true /\ c_waitStart c' = 4000%Z /\ c_speed c' == 0) /\
  (go = false -> c_waiting waitingCar = true ->
     c_waiting c' = true /\ c_waitStart c' = c_waitStart waitingCar /\
     c_totalWait c' = c_totalWait waitingCar /\ totalWait m' = totalWait {| total := 1; totalWait := 0; throughput := 0; startTime := 0 |}) /\
  (go = true -> c_waiting waitingCar = true ->
     c_waiting c' = false /\
     c_totalWait c' = c_totalWait waitingCar + ((4000 - c_waitStart waitingCar)%Z # 1000) /\
     totalWait m' = totalWait {| total := 1; totalWait := 0; throughput := 0; startTime := 0 |}
                    + c_totalWait c') /\
  (go = true -> c_waiting waitingCar = false ->
     c_waiting c' = false /\ c_totalWait c' = c_totalWait waitingCar /\
     totalWait m' = totalWait {| total := 1; totalWait := 0; throughput := 0; startTime := 0 |}).
Proof.
  apply (X28_vehicle_wait_booking taxicab 0 1 canvas900 1 {| NS := GREEN; EW := RED |} 4000
           [waitingCar] 0 waitingCar
           {| total := 1; totalWait := 0; throughput := 0; startTime := 0 |} 0).
  reflexivity.
Defined.

(** The waiting car, released at 4 s after waiting since 1 s with 3 s of
    earlier waits, books 6 s. *)
Example waitingCar_released :
  let r := vehicleUpdate taxicab 0 1 canvas900 1 {| NS := GREEN; EW := RED |} 4000
             [waitingCar] 0 waitingCar
             {| total := 1; totalWait := 0; throughput := 0; startTime := 0 |} 0 in
  c_waiting (fst (fst r)) = false /\ c_totalWait (fst (fst r)) == 6 /\
  totalWait (snd (fst r)) == 6 /\ c_speed (fst (fst r)) == 55 # 1000 /\
  c_y (fst (fst r)) == 250 + (55 # 1000).
Proof. repeat split; reflexivity. Qed.
